(** * Unexplore Himalayas: the client-side services and handlers, verified

    A shallow embedding of the TypeScript services (authService,
    customerService, adminService, destinationService, packageService) and of
    the handlers of AdminPanel and App that decide the testable properties of
    the specification.

    Conventions.
    - A JavaScript string is its sequence of UTF-16 code units, [list N].
    - The hosted backend is a record of tables; a service function is a
      computation in a small state-and-exception monad over it, so that
      [try { ... } catch] and the [{ data, error }] answers read as in the
      source.
    - React state is a record; a handler is a function on it. *)

From Stdlib Require Import ZArith NArith List String Ascii Bool Lia.
From Stdlib Require Import Sorting.Sorted Sorting.Permutation.
From stdpp Require Import gmap strings list.

Set Default Proof Using "Type".

(** ** JavaScript strings *)

Module Js.

(** A string value: UTF-16 code units. *)
Abbreviation jsstring := (list N).

(** A source literal (all literals of the modelled code are ASCII). *)
Definition lit (s : string) : jsstring :=
  List.map N_of_ascii (list_ascii_of_string s).

(** [s.replace(re, replacement)] for a global regular expression [re] that is
    a single character class: every code unit the class matches is replaced,
    the others are copied. *)
Fixpoint replace_all (re : N -> bool) (replacement s : jsstring) : jsstring :=
  match s with
  | [] => []
  | c :: rest =>
      if re c then replacement ++ replace_all re replacement rest
      else c :: replace_all re replacement rest
  end.

(** The ASCII fragment of [String.prototype.toLowerCase]: 'A'..'Z' move to
    'a'..'z', every other code unit is kept. *)
Definition asciiToLowerCase (s : jsstring) : jsstring :=
  List.map (fun c => if ((65 <=? c) && (c <=? 90))%N then (c + 32)%N else c) s.

(** [WhiteSpace] and [LineTerminator] code units, the ones [trim] strips. *)
Definition isWhiteSpace (c : N) : bool :=
  ((9 <=? c) && (c <=? 13) || (c =? 32) || (c =? 160) || (c =? 5760)
   || (8192 <=? c) && (c <=? 8202) || (c =? 8232) || (c =? 8233)
   || (c =? 8239) || (c =? 8287) || (c =? 12288) || (c =? 65279))%N.

Fixpoint trimStart (s : jsstring) : jsstring :=
  match s with
  | [] => []
  | c :: rest => if isWhiteSpace c then trimStart rest else s
  end.

Definition trimEnd (s : jsstring) : jsstring := rev (trimStart (rev s)).

(** [s.trim()] *)
Definition trim (s : jsstring) : jsstring := trimEnd (trimStart s).

(** [s.split(sep)] for a separator of one code unit. The empty string splits
    into one empty piece. *)
Fixpoint split (sep : N) (s : jsstring) : list jsstring :=
  match s with
  | [] => [[]]
  | c :: rest =>
      if (c =? sep)%N then [] :: split sep rest
      else match split sep rest with
           | [] => [[c]]
           | piece :: pieces => (c :: piece) :: pieces
           end
  end.

(** [pieces.join(sep)] *)
Fixpoint join (sep : N) (pieces : list jsstring) : jsstring :=
  match pieces with
  | [] => []
  | [piece] => piece
  | piece :: more => piece ++ sep :: join sep more
  end.

(** [a % b] on integers: the sign follows the dividend; [NaN] ([None]) for a
    zero divisor. *)
Definition rem (a b : Z) : option Z :=
  if (b =? 0)%Z then None else Some (Z.rem a b).

(** [l.findIndex(f)]: the first index whose element satisfies [f], else -1. *)
Fixpoint findIndex {A} (f : A -> bool) (l : list A) : Z :=
  match l with
  | [] => (-1)%Z
  | x :: l' =>
      if f x then 0%Z
      else let i := findIndex f l' in
           if (i <? 0)%Z then (-1)%Z else (i + 1)%Z
  end.

(** [l[i]] for a numeric [i]: [undefined] ([None]) outside the array and for
    [NaN]. *)
Definition element {A} (l : list A) (i : option Z) : option A :=
  match i with
  | Some k => if (k <? 0)%Z then None else l !! Z.to_nat k
  | None => None
  end.

End Js.

Import Js.

(** ** authService.ts *)

Module AuthService.

(** The character class of [/[^a-z0-9]/]: everything but 'a'..'z', '0'..'9'. *)
Definition not_a_z_0_9 (c : N) : bool :=
  negb ((97 <=? c) && (c <=? 122) || (48 <=? c) && (c <=? 57))%N.

Record RegisterData := {
  username : jsstring;
  password : jsstring;
  full_name : jsstring;
  address : jsstring;
  phone : jsstring
}.

(** The calls made on [supabase.auth]. *)
Inductive auth_call :=
| signUp (email pass : jsstring) (metadata : RegisterData)
| signInWithPassword (email pass : jsstring).

Definition call_email (c : auth_call) : jsstring :=
  match c with
  | signUp email _ _ => email
  | signInWithPassword email _ => email
  end.

Section WithToLowerCase.

(** [String.prototype.toLowerCase] is the engine's: the development holds for
    any such function. *)
Variable toLowerCase : jsstring -> jsstring.

Definition getEmailFromUsername (username : jsstring) : jsstring :=
  replace_all not_a_z_0_9 [] (toLowerCase username) ++ lit "@unexplore.com".

(** The authentication request that [signUpUser] opens with. *)
Definition signUpUser_call (data : RegisterData) : auth_call :=
  let email := getEmailFromUsername (username data) in
  signUp email (password data) data.

(** The authentication request of [signInUser]. *)
Definition signInUser_call (username password : jsstring) : auth_call :=
  let email := getEmailFromUsername username in
  signInWithPassword email password.

(** The specification's words: the characters a-z and 0-9, the username
    lower-cased and stripped of every other character, the suffix appended. *)
Definition spec_alphabet : jsstring := lit "abcdefghijklmnopqrstuvwxyz0123456789".

Definition spec_keep (c : N) : bool := existsb (N.eqb c) spec_alphabet.

Definition spec_normalize (username : jsstring) : jsstring :=
  List.filter spec_keep (toLowerCase username).

Definition spec_email (username : jsstring) : jsstring :=
  spec_normalize username ++ lit "@unexplore.com".

End WithToLowerCase.

End AuthService.

(** ** The hosted backend *)

Module Backend.

(** How the backend answers one request: it performs it, it answers with an
    error object, or the call throws (the network is gone). *)
Inductive outcome := Succeeds | Fails | Throws.

(** [PostgrestError]; PGRST116 is the answer of [.single()] when the rows
    selected are not exactly one. *)
Inductive pg_error := PGRST116 | BackendError.

(** The [{ data, error }] answer: a success carries the data, a failure the
    error, never both. *)
Inductive response (D : Type) :=
| Success (data : D)
| Failure (error : pg_error).
Arguments Success {D} data.
Arguments Failure {D} error.

(** [const { data } = answer]: [null] on a failure. *)
Definition data_of {D} (r : response D) : option D :=
  match r with Success d => Some d | Failure _ => None end.

(** [const { error } = answer]: [null] on a success. *)
Definition error_of {D} (r : response D) : option pg_error :=
  match r with Success _ => None | Failure e => Some e end.

Inductive booking_status := pending | confirmed | completed | cancelled.

Record wishlist_row := {
  wl_id : jsstring;
  wl_user_id : jsstring;
  wl_package_id : jsstring
}.

(** What [createBooking] sends; [bk_user_id] is absent unless set. *)
Record booking_payload := {
  bk_name : jsstring;
  bk_phone : jsstring;
  bk_travelers : Z;
  bk_date : jsstring;
  bk_package : jsstring;
  bk_notes : jsstring;
  bk_status : booking_status;
  bk_email : jsstring;
  bk_user_id : option jsstring
}.

Record booking_row := {
  br_id : jsstring;
  br_created_at : N;
  br_fields : booking_payload
}.

Record destination_row := {
  d_id : jsstring;
  d_name : jsstring;
  d_region : jsstring;
  d_image : jsstring;
  d_season : jsstring;
  d_description : jsstring;
  d_created_at : N
}.

(** What [savePackage] sends; [pp_accent] is [None] for [undefined]. *)
Record package_payload := {
  pp_name : jsstring;
  pp_price : jsstring;
  pp_features : list jsstring;
  pp_color : jsstring;
  pp_accent : option jsstring
}.

(** A stored package; [p_accent] is [None] for a NULL column. *)
Record package_row := {
  p_id : jsstring;
  p_name : jsstring;
  p_price : jsstring;
  p_color : jsstring;
  p_accent : option jsstring;
  p_features : list jsstring;
  p_created_at : N
}.

Record profile_row := {
  u_id : jsstring;
  u_username : jsstring;
  u_full_name : jsstring;
  u_address : jsstring;
  u_phone : jsstring;
  u_role : jsstring;
  u_created_at : N
}.

Inductive table_name := t_bookings | t_profiles | t_destinations | t_packages.

(** The requests the modelled services send. *)
Inductive request :=
| SelectWishlistId (user_id package_id : jsstring)
| DeleteWishlist (id : jsstring)
| InsertWishlist (user_id package_id : jsstring)
| InsertBooking (payload : booking_payload)
| SelectOrdered (table : table_name) (ascending : bool)
| InsertPackage (payload : package_payload)
| UpdatePackage (id : jsstring) (payload : package_payload).

(** The backend: its tables, the counter its keys and timestamps come from,
    how it answers the n-th request, and the requests received so far. *)
Record world := {
  wishlist : list wishlist_row;
  bookings : list booking_row;
  destinations : list destination_row;
  packages : list package_row;
  profiles : list profile_row;
  clock : N;
  answer : nat -> outcome;
  journal : list request
}.

Definition set_wishlist (rows : list wishlist_row) (w : world) : world :=
  {| wishlist := rows; bookings := bookings w; destinations := destinations w;
     packages := packages w; profiles := profiles w; clock := clock w;
     answer := answer w; journal := journal w |}.

Definition set_bookings (rows : list booking_row) (w : world) : world :=
  {| wishlist := wishlist w; bookings := rows; destinations := destinations w;
     packages := packages w; profiles := profiles w; clock := clock w;
     answer := answer w; journal := journal w |}.

Definition set_packages (rows : list package_row) (w : world) : world :=
  {| wishlist := wishlist w; bookings := bookings w; destinations := destinations w;
     packages := rows; profiles := profiles w; clock := clock w;
     answer := answer w; journal := journal w |}.

Definition tick (w : world) : world :=
  {| wishlist := wishlist w; bookings := bookings w; destinations := destinations w;
     packages := packages w; profiles := profiles w; clock := N.succ (clock w);
     answer := answer w; journal := journal w |}.

Definition record_request (rq : request) (w : world) : world :=
  {| wishlist := wishlist w; bookings := bookings w; destinations := destinations w;
     packages := packages w; profiles := profiles w; clock := clock w;
     answer := answer w; journal := journal w ++ [rq] |}.

(** The key of the row created at clock value [n]. *)
Definition gen_id (n : N) : jsstring := lit "row" ++ [n].

(** Whether an outcome is the request performed. *)
Definition performs (o : outcome) : bool :=
  match o with Succeeds => true | Fails | Throws => false end.

(** The feature list a package request carries. *)
Definition request_features (rq : request) : option (list jsstring) :=
  match rq with
  | InsertPackage payload | UpdatePackage _ payload => Some (pp_features payload)
  | _ => None
  end.

(** Ascending order on a timestamp. *)
Definition by_key {A} (key : A -> N) (a b : A) : Prop := (key a <= key b)%N.

(** A backend that performs every request. *)
Definition reliable (w : world) : Prop := forall n, answer w n = Succeeds.

(** A backend with empty tables that performs every request. *)
Definition empty_world : world :=
  {| wishlist := []; bookings := []; destinations := []; packages := [];
     profiles := []; clock := 0; answer := fun _ => Succeeds; journal := [] |}.

(** Three destinations, named after the fallback data. *)
Definition pangong : destination_row :=
  {| d_id := lit "d1"; d_name := lit "Pangong Lake"; d_region := lit "Ladakh";
     d_image := []; d_season := lit "MAY - SEP"; d_description := [];
     d_created_at := 1 |}.

Definition spiti : destination_row :=
  {| d_id := lit "d2"; d_name := lit "Spiti Valley"; d_region := lit "Himachal";
     d_image := []; d_season := lit "JUN - OCT"; d_description := [];
     d_created_at := 2 |}.

Definition kedarnath : destination_row :=
  {| d_id := lit "d3"; d_name := lit "Kedarnath"; d_region := lit "Uttarakhand";
     d_image := []; d_season := lit "MAY - NOV"; d_description := [];
     d_created_at := 3 |}.

(** A backend holding three destinations and two packages, stored out of
    creation order, that performs every request. *)
Definition catalog_world : world :=
  {| wishlist := []; bookings := [];
     destinations := [kedarnath; pangong; spiti];
     packages :=
       [{| p_id := lit "p2"; p_name := lit "Ladakh Expedition"; p_price := [];
           p_color := lit "teal";
           p_accent := Some (lit "bg-[#4fb7b3]/10 border-[#4fb7b3]/50");
           p_features := []; p_created_at := 5 |};
        {| p_id := lit "p1"; p_name := lit "Manali Escape"; p_price := [];
           p_color := lit "white"; p_accent := Some (lit "bg-white/5");
           p_features := []; p_created_at := 4 |}];
     profiles := []; clock := 6; answer := fun _ => Succeeds; journal := [] |}.

(** The same tables behind a backend that answers every request with an
    error. *)
Definition failing_world : world :=
  {| wishlist := wishlist catalog_world; bookings := bookings catalog_world;
     destinations := destinations catalog_world; packages := packages catalog_world;
     profiles := profiles catalog_world; clock := clock catalog_world;
     answer := fun _ => Fails; journal := [] |}.

(** *** Awaited computations *)

Inductive result (A : Type) :=
| Returned (a : A)
| Thrown.
Arguments Returned {A} a.
Arguments Thrown {A}.

Definition M (A : Type) : Type := world -> result A * world.

Definition ret {A} (a : A) : M A := fun w => (Returned a, w).

Definition bind {A B} (m : M A) (k : A -> M B) : M B :=
  fun w =>
    match m w with
    | (Returned a, w') => k a w'
    | (Thrown, w') => (Thrown, w')
    end.

(** [try { body } catch (err) { handler }] *)
Definition try_catch {A} (body handler : M A) : M A :=
  fun w =>
    match body w with
    | (Returned a, w') => (Returned a, w')
    | (Thrown, w') => handler w'
    end.

(** One request: it is journalled, then answered as [answer] says; [run] is
    what the backend does when it performs it. *)
Definition call {D} (rq : request) (run : world -> response D * world)
  : M (response D) :=
  fun w =>
    let w1 := record_request rq w in
    match answer w (length (journal w)) with
    | Succeeds => let (r, w2) := run w1 in (Returned r, w2)
    | Fails => (Returned (Failure BackendError), w1)
    | Throws => (Thrown, w1)
    end.

(** [ORDER BY created_at]: a stable insertion sort on the timestamp. *)
Fixpoint insert_by {A} (key : A -> N) (x : A) (l : list A) : list A :=
  match l with
  | [] => [x]
  | y :: l' => if (key x <=? key y)%N then x :: l else y :: insert_by key x l'
  end.

Fixpoint order_by {A} (key : A -> N) (l : list A) : list A :=
  match l with
  | [] => []
  | x :: l' => insert_by key x (order_by key l')
  end.

(** [.order('created_at', { ascending })] *)
Definition ordered {A} (key : A -> N) (ascending : bool) (l : list A) : list A :=
  if ascending then order_by key l else rev (order_by key l).

(** [from('wishlist').select('id').eq('user_id', u).eq('package_id', p).single()] *)
Definition wishlist_matches (u p : jsstring) (r : wishlist_row) : bool :=
  bool_decide (wl_user_id r = u) && bool_decide (wl_package_id r = p).

Definition wishlist_select_single (u p : jsstring) : M (response jsstring) :=
  call (SelectWishlistId u p) (fun w =>
    match List.filter (wishlist_matches u p) (wishlist w) with
    | [row] => (Success (wl_id row), w)
    | _ => (Failure PGRST116, w)
    end).

(** [from('wishlist').delete().eq('id', id)] *)
Definition wishlist_delete (id : jsstring) : M (response unit) :=
  call (DeleteWishlist id) (fun w =>
    (Success tt,
     set_wishlist
       (List.filter (fun r => negb (bool_decide (wl_id r = id))) (wishlist w)) w)).

(** [from('wishlist').insert([{ user_id, package_id }])] *)
Definition wishlist_insert (u p : jsstring) : M (response unit) :=
  call (InsertWishlist u p) (fun w =>
    (Success tt,
     tick (set_wishlist
       (wishlist w ++ [{| wl_id := gen_id (clock w); wl_user_id := u;
                          wl_package_id := p |}]) w))).

(** [from('bookings').insert([payload])] *)
Definition bookings_insert (payload : booking_payload) : M (response unit) :=
  call (InsertBooking payload) (fun w =>
    (Success tt,
     tick (set_bookings
       (bookings w ++ [{| br_id := gen_id (clock w); br_created_at := clock w;
                          br_fields := payload |}]) w))).

(** [from(table).select('*').order('created_at', { ascending })] *)
Definition bookings_select (ascending : bool) : M (response (list booking_row)) :=
  call (SelectOrdered t_bookings ascending) (fun w =>
    (Success (ordered br_created_at ascending (bookings w)), w)).

Definition profiles_select (ascending : bool) : M (response (list profile_row)) :=
  call (SelectOrdered t_profiles ascending) (fun w =>
    (Success (ordered u_created_at ascending (profiles w)), w)).

Definition destinations_select (ascending : bool)
  : M (response (list destination_row)) :=
  call (SelectOrdered t_destinations ascending) (fun w =>
    (Success (ordered d_created_at ascending (destinations w)), w)).

Definition packages_select (ascending : bool) : M (response (list package_row)) :=
  call (SelectOrdered t_packages ascending) (fun w =>
    (Success (ordered p_created_at ascending (packages w)), w)).

(** The row an insert of [payload] creates at clock value [now]: a property
    that is [undefined] is not sent, the column stays NULL. *)
Definition new_package_row (payload : package_payload) (now : N) : package_row :=
  {| p_id := gen_id now; p_name := pp_name payload; p_price := pp_price payload;
     p_color := pp_color payload; p_accent := pp_accent payload;
     p_features := pp_features payload; p_created_at := now |}.

(** [from('packages').insert([payload])] *)
Definition packages_insert (payload : package_payload) : M (response unit) :=
  call (InsertPackage payload) (fun w =>
    (Success tt,
     tick (set_packages (packages w ++ [new_package_row payload (clock w)]) w))).

(** [from('packages').update(payload).eq('id', id)]: a property that is
    [undefined] is not sent, the column keeps its value. *)
Definition update_package (payload : package_payload) (r : package_row)
  : package_row :=
  {| p_id := p_id r; p_name := pp_name payload; p_price := pp_price payload;
     p_color := pp_color payload;
     p_accent := match pp_accent payload with
                 | Some a => Some a
                 | None => p_accent r
                 end;
     p_features := pp_features payload; p_created_at := p_created_at r |}.

Definition packages_update (id : jsstring) (payload : package_payload)
  : M (response unit) :=
  call (UpdatePackage id payload) (fun w =>
    (Success tt,
     set_packages
       (List.map (fun r => if bool_decide (p_id r = id)
                           then update_package payload r else r)
                 (packages w)) w)).

End Backend.

Import Backend.

Notation "'let!' x ':=' c1 'in' c2" := (bind c1 (fun x => c2))
  (at level 10, x name, c1 at level 100, c2 at level 200,
   format "'[v' 'let!'  x  ':='  c1  'in' '/' c2 ']'").

(** A string is truthy unless it is empty. *)
Definition truthy (s : jsstring) : bool :=
  match s with [] => false | _ => true end.

(** ** customerService.ts *)

Module CustomerService.

Definition toggleWishlist (userId packageId : jsstring) : M bool :=
  try_catch
    (let! answer := wishlist_select_single userId packageId in
     match data_of answer with
     | Some existing =>
         let! _ := wishlist_delete existing in
         ret false
     | None =>
         let! _ := wishlist_insert userId packageId in
         ret true
     end)
    (ret false).

(** Membership of the pair in the wishlist table. *)
Definition in_wishlist (userId packageId : jsstring) (w : world) : bool :=
  existsb (wishlist_matches userId packageId) (wishlist w).

(** The rows of the pair. *)
Definition pair_rows (u p : jsstring) (w : world) : list wishlist_row :=
  List.filter (wishlist_matches u p) (wishlist w).

(** The row an insert creates. *)
Definition new_row (u p : jsstring) (w : world) : wishlist_row :=
  {| wl_id := gen_id (clock w); wl_user_id := u; wl_package_id := p |}.

(** The rows that a delete by [id] leaves. *)
Definition other_ids (id : jsstring) (rows : list wishlist_row) : list wishlist_row :=
  List.filter (fun r => negb (bool_decide (wl_id r = id))) rows.

(** The backend after the read of the pair and the delete of [row]. *)
Definition after_delete (u p : jsstring) (row : wishlist_row) (w : world) : world :=
  set_wishlist (other_ids (wl_id row) (wishlist w))
    (record_request (DeleteWishlist (wl_id row))
       (record_request (SelectWishlistId u p) w)).

(** The backend after the read of the pair and the insert of a row. *)
Definition after_insert (u p : jsstring) (w : world) : world :=
  tick (set_wishlist (wishlist w ++ [new_row u p w])
    (record_request (InsertWishlist u p)
       (record_request (SelectWishlistId u p) w))).

(** A table where the pair u1, p1 has its one row. *)
Definition wished_world : world := after_insert (lit "u1") (lit "p1") empty_world.


End CustomerService.

(** ** adminService.ts *)

Module AdminService.

Record BookingData := {
  name : jsstring;
  phone : jsstring;
  travelers : Z;
  date : jsstring;
  package : jsstring;
  notes : jsstring
}.

(** [AdminBooking extends BookingData]: every [AdminBooking] is accepted
    where a [BookingData] is expected, through [base]. *)
Record AdminBooking := {
  base : BookingData;
  id : jsstring;
  created_at : N;
  status : booking_status;
  user_id : option jsstring;
  email : option jsstring
}.

Definition AUTH_KEY : jsstring := lit "unexplore_admin_session".

Definition checkAuth (u p : jsstring) : bool :=
  bool_decide (u = lit "admin") && bool_decide (p = lit "himalayas123").

Definition isAuthenticated (localStorage : gmap jsstring jsstring) : bool :=
  bool_decide (localStorage !! AUTH_KEY = Some (lit "true")).

Definition login (localStorage : gmap jsstring jsstring) : gmap jsstring jsstring :=
  <[AUTH_KEY := lit "true"]> localStorage.

Definition logout (localStorage : gmap jsstring jsstring) : gmap jsstring jsstring :=
  delete AUTH_KEY localStorage.

(** The [payload] object of [createBooking], after the optional [user_id]. *)
Definition booking_payload_of (data : BookingData) (userId : option jsstring)
  : booking_payload :=
  let payload :=
    {| bk_name := name data; bk_phone := phone data;
       bk_travelers := travelers data; bk_date := date data;
       bk_package := package data; bk_notes := notes data;
       bk_status := pending; bk_email := []; bk_user_id := None |} in
  match userId with
  | Some u =>
      if truthy u then
        {| bk_name := bk_name payload; bk_phone := bk_phone payload;
           bk_travelers := bk_travelers payload; bk_date := bk_date payload;
           bk_package := bk_package payload; bk_notes := bk_notes payload;
           bk_status := bk_status payload; bk_email := bk_email payload;
           bk_user_id := Some u |}
      else payload
  | None => payload
  end.

Definition createBooking (data : BookingData) (userId : option jsstring) : M bool :=
  try_catch
    (let payload := booking_payload_of data userId in
     let! answer := bookings_insert payload in
     match error_of answer with
     | Some _ => ret false
     | None => ret true
     end)
    (ret false).

Definition fetchBookings : M (list booking_row) :=
  try_catch
    (let! answer := bookings_select false in
     match answer with
     | Failure _ => ret []
     | Success data => ret data
     end)
    (ret []).

(** [if (error) throw error] lands in the [catch] of the same function. *)
Definition fetchUsers : M (list profile_row) :=
  try_catch
    (let! answer := profiles_select false in
     match answer with
     | Failure _ => fun w => (Thrown, w)
     | Success data => ret data
     end)
    (ret []).

End AdminService.

(** ** destinationService.ts *)

Module DestinationService.

Definition getDestinations : M (list destination_row) :=
  try_catch
    (let! answer := destinations_select true in
     match answer with
     | Failure _ => ret []
     | Success data => ret data
     end)
    (ret []).

End DestinationService.

(** ** packageService.ts *)

Module PackageService.

Record PackageInput := {
  id : option jsstring;
  name : jsstring;
  price : jsstring;
  theme : jsstring;
  features : list jsstring
}.

(** What a property read on [THEME_MAP] can give. *)
Inductive theme_value :=
| Undefined
| Bundle (color accent : jsstring)
| Inherited (property : jsstring).

(** The own properties of the [THEME_MAP] literal. *)
Definition THEME_MAP : gmap jsstring (jsstring * jsstring) :=
  <[lit "white" := (lit "white", lit "bg-white/5")]>
  (<[lit "teal" := (lit "teal", lit "bg-[#4fb7b3]/10 border-[#4fb7b3]/50")]>
  (<[lit "periwinkle" :=
       (lit "periwinkle", lit "bg-[#637ab9]/10 border-[#637ab9]/50")]> ∅)).

(** The properties every object literal inherits from [Object.prototype]. *)
Definition object_prototype_properties : list jsstring :=
  [lit "constructor"; lit "hasOwnProperty"; lit "isPrototypeOf";
   lit "propertyIsEnumerable"; lit "toLocaleString"; lit "toString";
   lit "valueOf"; lit "__proto__"; lit "__defineGetter__";
   lit "__defineSetter__"; lit "__lookupGetter__"; lit "__lookupSetter__"].

(** [THEME_MAP[key]]: an own property, else an inherited one, else
    [undefined]. *)
Definition THEME_MAP_get (key : jsstring) : theme_value :=
  match THEME_MAP !! key with
  | Some (color, accent) => Bundle color accent
  | None =>
      if bool_decide (key ∈ object_prototype_properties) then Inherited key
      else Undefined
  end.

(** [a || b]: [undefined] is the only falsy value here. *)
Definition or_else (a b : theme_value) : theme_value :=
  match a with Undefined => b | _ => a end.

(** [styles.accent]: an inherited member has no such property. *)
Definition accent_of (styles : theme_value) : option jsstring :=
  match styles with
  | Bundle _ accent => Some accent
  | Inherited _ | Undefined => None
  end.

(** The [payload] object of [savePackage]. *)
Definition payload_of (pkg : PackageInput) : package_payload :=
  let styles := or_else (THEME_MAP_get (theme pkg)) (THEME_MAP_get (lit "white")) in
  {| pp_name := name pkg; pp_price := price pkg; pp_features := features pkg;
     pp_color := theme pkg; pp_accent := accent_of styles |}.

Definition getPackages : M (list package_row) :=
  try_catch
    (let! answer := packages_select true in
     match answer with
     | Failure _ => ret []
     | Success data => ret data
     end)
    (ret []).

Definition savePackage (pkg : PackageInput) : M bool :=
  try_catch
    (let payload := payload_of pkg in
     let! answer :=
       match id pkg with
       | Some i => if truthy i then packages_update i payload
                   else packages_insert payload
       | None => packages_insert payload
       end in
     match error_of answer with
     | Some _ => ret false
     | None => ret true
     end)
    (ret false).

(** The one request [savePackage] sends. *)
Definition save_request (pkg : PackageInput) : request :=
  match id pkg with
  | Some i => if truthy i then UpdatePackage i (payload_of pkg)
              else InsertPackage (payload_of pkg)
  | None => InsertPackage (payload_of pkg)
  end.

(** The three keys of [THEME_MAP]. *)
Definition theme_keys : list jsstring :=
  [lit "white"; lit "teal"; lit "periwinkle"].



(** The three accent values of [THEME_MAP]. *)
Definition fixed_accents : list jsstring :=
  [lit "bg-white/5"; lit "bg-[#4fb7b3]/10 border-[#4fb7b3]/50";
   lit "bg-[#637ab9]/10 border-[#637ab9]/50"].

End PackageService.

(** ** AdminPanel.tsx *)

Module AdminPanel.

Import AdminService DestinationService PackageService.

Inductive save_status := idle | saving.

(** The component's state, with the browser's [localStorage] and the
    messages shown by [alert]. *)
Record panel := {
  localStorage : gmap jsstring jsstring;
  isLoggedIn : bool;
  username : jsstring;
  password : jsstring;
  error : jsstring;
  isLoading : bool;
  bookings : list booking_row;
  users : list profile_row;
  destinations : list destination_row;
  packages : list package_row;
  editingPkg : option PackageInput;
  isEditingPkg : bool;
  pkgSaveStatus : save_status;
  alerts : list jsstring
}.

Definition setError (e : jsstring) (s : panel) : panel :=
  {| localStorage := localStorage s; isLoggedIn := isLoggedIn s;
     username := username s; password := password s; error := e;
     isLoading := isLoading s; bookings := bookings s; users := users s;
     destinations := destinations s; packages := packages s;
     editingPkg := editingPkg s; isEditingPkg := isEditingPkg s;
     pkgSaveStatus := pkgSaveStatus s; alerts := alerts s |}.

Definition setUsername (u : jsstring) (s : panel) : panel :=
  {| localStorage := localStorage s; isLoggedIn := isLoggedIn s;
     username := u; password := password s; error := error s;
     isLoading := isLoading s; bookings := bookings s; users := users s;
     destinations := destinations s; packages := packages s;
     editingPkg := editingPkg s; isEditingPkg := isEditingPkg s;
     pkgSaveStatus := pkgSaveStatus s; alerts := alerts s |}.

Definition setPassword (p : jsstring) (s : panel) : panel :=
  {| localStorage := localStorage s; isLoggedIn := isLoggedIn s;
     username := username s; password := p; error := error s;
     isLoading := isLoading s; bookings := bookings s; users := users s;
     destinations := destinations s; packages := packages s;
     editingPkg := editingPkg s; isEditingPkg := isEditingPkg s;
     pkgSaveStatus := pkgSaveStatus s; alerts := alerts s |}.

Definition setIsLoggedIn (b : bool) (s : panel) : panel :=
  {| localStorage := localStorage s; isLoggedIn := b;
     username := username s; password := password s; error := error s;
     isLoading := isLoading s; bookings := bookings s; users := users s;
     destinations := destinations s; packages := packages s;
     editingPkg := editingPkg s; isEditingPkg := isEditingPkg s;
     pkgSaveStatus := pkgSaveStatus s; alerts := alerts s |}.

Definition setLocalStorage (ls : gmap jsstring jsstring) (s : panel) : panel :=
  {| localStorage := ls; isLoggedIn := isLoggedIn s;
     username := username s; password := password s; error := error s;
     isLoading := isLoading s; bookings := bookings s; users := users s;
     destinations := destinations s; packages := packages s;
     editingPkg := editingPkg s; isEditingPkg := isEditingPkg s;
     pkgSaveStatus := pkgSaveStatus s; alerts := alerts s |}.

Definition setIsLoading (b : bool) (s : panel) : panel :=
  {| localStorage := localStorage s; isLoggedIn := isLoggedIn s;
     username := username s; password := password s; error := error s;
     isLoading := b; bookings := bookings s; users := users s;
     destinations := destinations s; packages := packages s;
     editingPkg := editingPkg s; isEditingPkg := isEditingPkg s;
     pkgSaveStatus := pkgSaveStatus s; alerts := alerts s |}.

Definition setLoaded (b : list booking_row) (d : list destination_row)
  (p : list package_row) (u : list profile_row) (s : panel) : panel :=
  {| localStorage := localStorage s; isLoggedIn := isLoggedIn s;
     username := username s; password := password s; error := error s;
     isLoading := isLoading s; bookings := b; users := u;
     destinations := d; packages := p;
     editingPkg := editingPkg s; isEditingPkg := isEditingPkg s;
     pkgSaveStatus := pkgSaveStatus s; alerts := alerts s |}.

Definition setEditingPkg (e : option PackageInput) (s : panel) : panel :=
  {| localStorage := localStorage s; isLoggedIn := isLoggedIn s;
     username := username s; password := password s; error := error s;
     isLoading := isLoading s; bookings := bookings s; users := users s;
     destinations := destinations s; packages := packages s;
     editingPkg := e; isEditingPkg := isEditingPkg s;
     pkgSaveStatus := pkgSaveStatus s; alerts := alerts s |}.

Definition setIsEditingPkg (b : bool) (s : panel) : panel :=
  {| localStorage := localStorage s; isLoggedIn := isLoggedIn s;
     username := username s; password := password s; error := error s;
     isLoading := isLoading s; bookings := bookings s; users := users s;
     destinations := destinations s; packages := packages s;
     editingPkg := editingPkg s; isEditingPkg := b;
     pkgSaveStatus := pkgSaveStatus s; alerts := alerts s |}.

Definition setPkgSaveStatus (st : save_status) (s : panel) : panel :=
  {| localStorage := localStorage s; isLoggedIn := isLoggedIn s;
     username := username s; password := password s; error := error s;
     isLoading := isLoading s; bookings := bookings s; users := users s;
     destinations := destinations s; packages := packages s;
     editingPkg := editingPkg s; isEditingPkg := isEditingPkg s;
     pkgSaveStatus := st; alerts := alerts s |}.

Definition alert (message : jsstring) (s : panel) : panel :=
  {| localStorage := localStorage s; isLoggedIn := isLoggedIn s;
     username := username s; password := password s; error := error s;
     isLoading := isLoading s; bookings := bookings s; users := users s;
     destinations := destinations s; packages := packages s;
     editingPkg := editingPkg s; isEditingPkg := isEditingPkg s;
     pkgSaveStatus := pkgSaveStatus s; alerts := alerts s ++ [message] |}.

(** The values the state starts with. *)
Definition initial_panel : panel :=
  {| localStorage := ∅; isLoggedIn := false; username := []; password := [];
     error := []; isLoading := false; bookings := []; users := [];
     destinations := []; packages := []; editingPkg := None;
     isEditingPkg := false; pkgSaveStatus := idle; alerts := [] |}.

Definition startEditPackage (pkg : option package_row) (s : panel) : panel :=
  let editing :=
    match pkg with
    | Some pkg => {| id := Some (p_id pkg); name := p_name pkg; price := p_price pkg;
                     theme := p_color pkg; features := p_features pkg |}
    | None => {| id := None; name := []; price := []; theme := lit "white";
                 features := [] |}
    end in
  setIsEditingPkg true (setEditingPkg (Some editing) s).

(** The textarea content "A\n\nB\n". *)
Definition sample_features_text : jsstring :=
  lit "A" ++ [10; 10]%N ++ lit "B" ++ [10]%N.

(** The four fetches of [Promise.all] are started in this order; none of
    them throws. *)
Definition loadData (s : panel) : M panel :=
  let s := setIsLoading true s in
  let! bData := fetchBookings in
  let! dData := getDestinations in
  let! pData := getPackages in
  let! uData := fetchUsers in
  ret (setIsLoading false (setLoaded bData dData pData uData s)).

(** The form's submit handler. [loadData()] is started and not awaited; its
    reads and state updates are sequenced here after the login. *)
Definition handleLogin (s : panel) : M panel :=
  if checkAuth (username s) (password s) then
    let s := setLocalStorage (login (localStorage s)) s in
    let s := setIsLoggedIn true s in
    let s := setError [] s in
    loadData s
  else
    ret (setError (lit "Invalid credentials") s).

(** [{ ...editingPkg, features }] *)
Definition with_features (fs : list jsstring) (pkg : PackageInput) : PackageInput :=
  {| id := id pkg; name := name pkg; price := price pkg; theme := theme pkg;
     features := fs |}.

(** The handler of the features textarea; [value] is [e.target.value]. *)
Definition handlePkgFeaturesChange (value : jsstring) (s : panel) : panel :=
  match editingPkg s with
  | None => s
  | Some pkg => setEditingPkg (Some (with_features (split 10 value) pkg)) s
  end.

(** [editingPkg.features.filter(f => f.trim() !== '')] *)
Definition cleanFeatures (fs : list jsstring) : list jsstring :=
  List.filter (fun f => negb (bool_decide (trim f = []))) fs.

Definition handlePkgSave (s : panel) : M panel :=
  match editingPkg s with
  | None => ret s
  | Some pkg =>
      let s := setPkgSaveStatus saving s in
      let! success := savePackage (with_features (cleanFeatures (features pkg)) pkg) in
      let! s :=
        if (success : bool) then
          loadData (setEditingPkg None (setIsEditingPkg false s))
        else
          ret (alert (lit "Failed to save package.") s) in
      ret (setPkgSaveStatus idle s)
  end.

End AdminPanel.

(** ** App.tsx *)

Module App.

Inductive direction := next | prev.

Record app := {
  destinations : list destination_row;
  selectedDestination : option destination_row
}.

Definition setSelectedDestination (d : option destination_row) (s : app) : app :=
  {| destinations := destinations s; selectedDestination := d |}.

(** [destinations.findIndex(a => a.id === selectedDestination.id)] *)
Definition currentIndex (ds : list destination_row) (sel : destination_row) : Z :=
  findIndex (fun a => bool_decide (d_id a = d_id sel)) ds.

(** The [nextIndex] of [navigateDestination]. *)
Definition nextIndex (dir : direction) (ds : list destination_row)
  (sel : destination_row) : option Z :=
  let len := Z.of_nat (length ds) in
  match dir with
  | next => rem (currentIndex ds sel + 1) len
  | prev => rem (currentIndex ds sel - 1 + len) len
  end.

Definition navigateDestination (dir : direction) (s : app) : app :=
  match selectedDestination s with
  | None => s
  | Some sel =>
      if (length (destinations s) =? 0)%nat then s
      else setSelectedDestination
             (element (destinations s) (nextIndex dir (destinations s) sel)) s
  end.

(** The detail view over three destinations, the first one selected. *)
Definition on_first : app :=
  {| destinations := [pangong; spiti; kedarnath];
     selectedDestination := Some pangong |}.

(** The same list, the last one selected. *)
Definition on_last : app :=
  {| destinations := [pangong; spiti; kedarnath];
     selectedDestination := Some kedarnath |}.

(** A destination still selected while the list is empty. *)
Definition unloaded : app :=
  {| destinations := []; selectedDestination := Some pangong |}.

End App.

(** ** More of the JavaScript library *)

Module JsText.

(** [s.startsWith(t)] *)
Fixpoint startsWith (s t : jsstring) : bool :=
  match t, s with
  | [], _ => true
  | _ :: _, [] => false
  | c :: t', d :: s' => (c =? d)%N && startsWith s' t'
  end.

(** [s.includes(t)]: [t] starts at some position of [s]. *)
Fixpoint includes (s t : jsstring) : bool :=
  startsWith s t
  || match s with
     | [] => false
     | _ :: s' => includes s' t
     end.

(** [l.slice(0, n)] for a count [n]. *)
Definition slice0 {A} (n : nat) (l : list A) : list A := firstn n l.

(** [t] occurs in [s]. *)
Definition occurs (t s : jsstring) : Prop := exists a b, s = a ++ t ++ b.

End JsText.

Import JsText.

(** ** AdminPanel.tsx: the session and the bookings tab *)

Module AdminSession.

Import AdminService AdminPanel.

Definition setBookings (b : list booking_row) (s : panel) : panel :=
  {| localStorage := localStorage s; isLoggedIn := isLoggedIn s;
     username := username s; password := password s; error := error s;
     isLoading := isLoading s; bookings := b; users := users s;
     destinations := destinations s; packages := packages s;
     editingPkg := editingPkg s; isEditingPkg := isEditingPkg s;
     pkgSaveStatus := pkgSaveStatus s; alerts := alerts s |}.

Definition handleLogout (s : panel) : panel :=
  let s := setLocalStorage (logout (localStorage s)) s in
  let s := setIsLoggedIn false s in
  let s := setUsername [] s in
  let s := setPassword [] s in
  setBookings [] s.

(** The effect that runs when the panel is opened. *)
Definition onOpen (s : panel) : M panel :=
  let authState := isAuthenticated (localStorage s) in
  let s := setIsLoggedIn authState s in
  if authState then loadData s else ret s.

(** The panel after the page is loaded again: the component state starts
    over, [localStorage] is the browser's and stays. *)
Definition reloaded (s : panel) : panel :=
  setLocalStorage (localStorage s) initial_panel.

Section WithToLowerCase.

Variable toLowerCase : jsstring -> jsstring.

(** The rows the bookings tab shows for a search term. *)
Definition filteredBookings (searchTerm : jsstring) (bookings : list booking_row)
  : list booking_row :=
  List.filter
    (fun b =>
       includes (toLowerCase (bk_name (br_fields b))) (toLowerCase searchTerm)
       || includes (toLowerCase (bk_package (br_fields b))) (toLowerCase searchTerm))
    bookings.

End WithToLowerCase.

(** Two bookings to search in. *)
Definition sample_bookings : list booking_row :=
  [{| br_id := lit "b1"; br_created_at := 1;
      br_fields := {| bk_name := lit "Asha Rao"; bk_phone := []; bk_travelers := 2;
                      bk_date := []; bk_package := lit "Manali Escape";
                      bk_notes := []; bk_status := pending; bk_email := [];
                      bk_user_id := None |} |};
   {| br_id := lit "b2"; br_created_at := 2;
      br_fields := {| bk_name := lit "Manav Sen"; bk_phone := []; bk_travelers := 1;
                      bk_date := []; bk_package := lit "Ladakh Expedition";
                      bk_notes := []; bk_status := confirmed; bk_email := [];
                      bk_user_id := Some (lit "u7") |} |}].

End AdminSession.

(** ** App.tsx: the signed-in user, the wishlist and the package grid *)

Module Account.

Import CustomerService.

(** [User] of types.ts. *)
Record User := {
  id : jsstring;
  email : option jsstring;
  username : jsstring;
  full_name : option jsstring;
  address : option jsstring;
  phone : option jsstring;
  role : option jsstring
}.

Record account := {
  user : option User;
  wishlistIds : gset jsstring;
  isAuthModalOpen : bool
}.

Definition setWishlistIds (ids : gset jsstring) (a : account) : account :=
  {| user := user a; wishlistIds := ids; isAuthModalOpen := isAuthModalOpen a |}.

Definition setIsAuthModalOpen (b : bool) (a : account) : account :=
  {| user := user a; wishlistIds := wishlistIds a; isAuthModalOpen := b |}.

Definition handleWishlistToggle (pkgId : jsstring) (a : account) : M account :=
  match user a with
  | None => ret (setIsAuthModalOpen true a)
  | Some u =>
      let newSet :=
        if bool_decide (pkgId ∈ wishlistIds a)
        then wishlistIds a ∖ {[pkgId]}
        else wishlistIds a ∪ {[pkgId]} in
      let a := setWishlistIds newSet a in
      let! added := toggleWishlist (id u) pkgId in
      ret a
  end.

(** The package cards drawn: [packages.slice(0, visiblePackages)]. *)
Definition shownPackages (visiblePackages : nat) (packages : list package_row)
  : list package_row :=
  slice0 visiblePackages packages.

(** Whether the "View More Packages" button is drawn. *)
Definition showsViewMore (visiblePackages : nat) (packages : list package_row) : bool :=
  (visiblePackages <? length packages)%nat.

(** The button's click handler, on [visiblePackages]. *)
Definition viewMore (visiblePackages : nat) : nat := (visiblePackages + 3)%nat.

(** The value [visiblePackages] starts with. *)
Definition initialVisiblePackages : nat := 3.

(** A signed-in user with an empty local wishlist. *)
Definition sample_account : account :=
  {| user := Some {| id := lit "u1"; email := None; username := lit "asha";
                     full_name := None; address := None; phone := None;
                     role := Some (lit "user") |};
     wishlistIds := ∅; isAuthModalOpen := false |}.

End Account.

(** ** UserDashboard.tsx *)

Module UserDashboard.

Import CustomerService.

(** [WishlistItem] of types.ts. *)
Record WishlistItem := {
  wi_id : jsstring;
  wi_package_id : jsstring;
  wi_package_data : option package_row
}.

(** [user] is the [user.id] of the component's prop, [wishlist] its state. *)
Definition handleRemoveWishlist (user pkgId : jsstring) (wishlist : list WishlistItem)
  : M (list WishlistItem) :=
  let! _ := toggleWishlist user pkgId in
  ret (List.filter (fun item => negb (bool_decide (wi_package_id item = pkgId)))
                   wishlist).

End UserDashboard.

(** ** Orders and sample data for the further properties *)

Module Orders.

(** Descending order on a timestamp. *)
Definition newest_first {A} (key : A -> N) (a b : A) : Prop := (key b <= key a)%N.

(** A backend that answers no request. *)
Definition unreachable (w : world) : Prop := forall n, answer w n <> Succeeds.

End Orders.

Import Orders.





(** ** The hosted backend, continued: storage, session and the requests of
    the remaining services *)

Module Site.

(** A [File]: its name and its content. *)
Record File := {
  file_name : jsstring;
  file_body : jsstring
}.

(** What [saveDestination] sends; [dp_image] is [None] for [undefined]. *)
Record destination_payload := {
  dp_name : jsstring;
  dp_region : jsstring;
  dp_season : jsstring;
  dp_description : jsstring;
  dp_image : option jsstring
}.

(** The [Partial<User>] that [handleUserSave] sends. *)
Record profile_updates := {
  up_full_name : option jsstring;
  up_address : option jsstring;
  up_phone : option jsstring
}.

(** The object [signUpUser] upserts into profiles. *)
Record profile_fields := {
  pf_id : jsstring;
  pf_username : jsstring;
  pf_full_name : jsstring;
  pf_address : jsstring;
  pf_phone : jsstring;
  pf_role : jsstring
}.

(** [session.user] *)
Record session_user := {
  su_id : jsstring;
  su_email : option jsstring
}.

(** The requests of the services modelled here. *)
Inductive op :=
| UpdateBookingStatus (id : jsstring) (status : booking_status)
| DeleteBooking (id : jsstring)
| SelectUserBookings (user_id : jsstring)
| SelectUserWishlist (user_id : jsstring)
| SelectProfile (id : jsstring)
| UpdateProfile (id : jsstring) (updates : profile_updates)
| UploadImage (path : jsstring) (file : File)
| InsertDestination (payload : destination_payload)
| UpdateDestination (id : jsstring) (payload : destination_payload)
| DeleteDestination (id : jsstring)
| DeletePackage (id : jsstring)
| AuthSignUp (email pass : jsstring) (metadata : AuthService.RegisterData)
| UpsertProfile (row : profile_fields).

(** The backend with its storage bucket and the client's session: [db] holds
    the tables, [bucket] the stored objects by path, [public_base] the prefix
    of a public URL, [stamp] the time-and-random part of the n-th generated
    file name, [session] the signed-in user, [reply] how the n-th request of
    this module is answered and [sent] those requests. *)
Record site := {
  db : world;
  bucket : list (jsstring * File);
  public_base : jsstring;
  stamp : nat -> jsstring;
  session : option session_user;
  reply : nat -> outcome;
  sent : list op
}.

Definition set_db (w : world) (x : site) : site :=
  {| db := w; bucket := bucket x; public_base := public_base x; stamp := stamp x;
     session := session x; reply := reply x; sent := sent x |}.

Definition set_bucket (b : list (jsstring * File)) (x : site) : site :=
  {| db := db x; bucket := b; public_base := public_base x; stamp := stamp x;
     session := session x; reply := reply x; sent := sent x |}.

Definition record_op (o : op) (x : site) : site :=
  {| db := db x; bucket := bucket x; public_base := public_base x; stamp := stamp x;
     session := session x; reply := reply x; sent := sent x ++ [o] |}.

Definition set_destinations (rows : list destination_row) (w : world) : world :=
  {| wishlist := wishlist w; bookings := bookings w; destinations := rows;
     packages := packages w; profiles := profiles w; clock := clock w;
     answer := answer w; journal := journal w |}.

Definition set_profiles (rows : list profile_row) (w : world) : world :=
  {| wishlist := wishlist w; bookings := bookings w; destinations := destinations w;
     packages := packages w; profiles := rows; clock := clock w;
     answer := answer w; journal := journal w |}.

(** A site whose every request, of either module, is performed. *)
Definition dependable (x : site) : Prop :=
  reliable (db x) /\ forall n, reply x n = Succeeds.

(** *** Awaited computations over a site *)

Definition SiteM (A : Type) : Type := site -> result A * site.

Definition sret {A} (a : A) : SiteM A := fun x => (Returned a, x).

Definition sbind {A B} (m : SiteM A) (k : A -> SiteM B) : SiteM B :=
  fun x =>
    match m x with
    | (Returned a, x') => k a x'
    | (Thrown, x') => (Thrown, x')
    end.

Definition throw {A} : SiteM A := fun x => (Thrown, x).

(** [try { body } catch (err) { handler }] *)
Definition stry {A} (body handler : SiteM A) : SiteM A :=
  fun x =>
    match body x with
    | (Returned a, x') => (Returned a, x')
    | (Thrown, x') => handler x'
    end.

(** A service of the tables-only backend, run on the tables of the site. *)
Definition lift {A} (m : M A) : SiteM A :=
  fun x => let (r, w') := m (db x) in (r, set_db w' x).

(** One request: recorded, then answered as [reply] says. *)
Definition send {D} (o : op) (run : site -> response D * site)
  : SiteM (response D) :=
  fun x =>
    let x1 := record_op o x in
    match reply x (length (sent x)) with
    | Succeeds => let (r, x2) := run x1 in (Returned r, x2)
    | Fails => (Returned (Failure BackendError), x1)
    | Throws => (Thrown, x1)
    end.

(** [for (const item of items) await body(item)] *)
Fixpoint for_each {A} (items : list A) (body : A -> SiteM unit) : SiteM unit :=
  match items with
  | [] => sret tt
  | item :: rest => sbind (body item) (fun _ => for_each rest body)
  end.

(** *** What the backend does with each request *)

Definition with_status (status : booking_status) (b : booking_row) : booking_row :=
  {| br_id := br_id b; br_created_at := br_created_at b;
     br_fields :=
       {| bk_name := bk_name (br_fields b); bk_phone := bk_phone (br_fields b);
          bk_travelers := bk_travelers (br_fields b);
          bk_date := bk_date (br_fields b); bk_package := bk_package (br_fields b);
          bk_notes := bk_notes (br_fields b); bk_status := status;
          bk_email := bk_email (br_fields b);
          bk_user_id := bk_user_id (br_fields b) |} |}.

(** [from('bookings').update({ status }).eq('id', id)] *)
Definition bookings_update_status (id : jsstring) (status : booking_status)
  : SiteM (response unit) :=
  send (UpdateBookingStatus id status) (fun x =>
    (Success tt,
     set_db (set_bookings
               (List.map (fun b => if bool_decide (br_id b = id)
                                   then with_status status b else b)
                         (bookings (db x))) (db x)) x)).

(** [from('bookings').delete().eq('id', id)] *)
Definition bookings_delete (id : jsstring) : SiteM (response unit) :=
  send (DeleteBooking id) (fun x =>
    (Success tt,
     set_db (set_bookings
               (List.filter (fun b => negb (bool_decide (br_id b = id)))
                            (bookings (db x))) (db x)) x)).

(** [from('bookings').select('*').eq('user_id', u).order('created_at',
    { ascending: false })] *)
Definition bookings_of_user (u : jsstring) : SiteM (response (list booking_row)) :=
  send (SelectUserBookings u) (fun x =>
    (Success (ordered br_created_at false
                (List.filter (fun b => bool_decide (bk_user_id (br_fields b) = Some u))
                             (bookings (db x)))), x)).

(** A row of the wishlist select with its [packages] join: the wishlist row
    and its package, [null] when there is none. *)
Record wishlist_join := {
  j_id : jsstring;
  j_package_id : jsstring;
  j_packages : option package_row
}.

Definition join_package (w : world) (r : wishlist_row) : wishlist_join :=
  {| j_id := wl_id r; j_package_id := wl_package_id r;
     j_packages := List.find (fun p => bool_decide (p_id p = wl_package_id r))
                             (packages w) |}.

(** [from('wishlist').select(...)], joined with packages, [.eq('user_id', u)] *)
Definition wishlist_of_user (u : jsstring) : SiteM (response (list wishlist_join)) :=
  send (SelectUserWishlist u) (fun x =>
    (Success (List.map (join_package (db x))
                (List.filter (fun r => bool_decide (wl_user_id r = u))
                             (wishlist (db x)))), x)).

(** [from('profiles').select('*').eq('id', id).single()] *)
Definition profile_single (id : jsstring) : SiteM (response profile_row) :=
  send (SelectProfile id) (fun x =>
    match List.filter (fun r => bool_decide (u_id r = id)) (profiles (db x)) with
    | [row] => (Success row, x)
    | _ => (Failure PGRST116, x)
    end).

(** A property that is [undefined] is not sent: the column keeps its value. *)
Definition update_profile (updates : profile_updates) (r : profile_row) : profile_row :=
  {| u_id := u_id r; u_username := u_username r;
     u_full_name := default (u_full_name r) (up_full_name updates);
     u_address := default (u_address r) (up_address updates);
     u_phone := default (u_phone r) (up_phone updates);
     u_role := u_role r; u_created_at := u_created_at r |}.

(** [from('profiles').update(updates).eq('id', id)] *)
Definition profiles_update (id : jsstring) (updates : profile_updates)
  : SiteM (response unit) :=
  send (UpdateProfile id updates) (fun x =>
    (Success tt,
     set_db (set_profiles
               (List.map (fun r => if bool_decide (u_id r = id)
                                   then update_profile updates r else r)
                         (profiles (db x))) (db x)) x)).

(** The profile row of [fields], created at [now]. *)
Definition profile_of (fields : profile_fields) (now : N) : profile_row :=
  {| u_id := pf_id fields; u_username := pf_username fields;
     u_full_name := pf_full_name fields; u_address := pf_address fields;
     u_phone := pf_phone fields; u_role := pf_role fields; u_created_at := now |}.

(** [from('profiles').upsert(fields, { onConflict: 'id' })]: a row with the
    id takes the fields, else a row is created. *)
Definition profiles_upsert (fields : profile_fields) : SiteM (response unit) :=
  send (UpsertProfile fields) (fun x =>
    if existsb (fun r => bool_decide (u_id r = pf_id fields)) (profiles (db x))
    then (Success tt,
          set_db (set_profiles
                    (List.map (fun r => if bool_decide (u_id r = pf_id fields)
                                        then profile_of fields (u_created_at r)
                                        else r)
                              (profiles (db x))) (db x)) x)
    else (Success tt,
          set_db (tick (set_profiles
                          (profiles (db x) ++ [profile_of fields (clock (db x))])
                          (db x))) x)).

(** [storage.from(BUCKET_NAME).upload(path, file)]: a path already taken is
    refused. *)
Definition storage_upload (path : jsstring) (file : File) : SiteM (response unit) :=
  send (UploadImage path file) (fun x =>
    if existsb (fun o => bool_decide (fst o = path)) (bucket x)
    then (Failure BackendError, x)
    else (Success tt, set_bucket (bucket x ++ [(path, file)]) x)).

(** [storage.from(BUCKET_NAME).getPublicUrl(path).data.publicUrl]: no
    request is made. *)
Definition getPublicUrl (x : site) (path : jsstring) : jsstring :=
  public_base x ++ path.

(** The row an insert of [payload] creates at clock value [now]; a row
    without image is kept with the empty string. *)
Definition new_destination_row (payload : destination_payload) (now : N)
  : destination_row :=
  {| d_id := gen_id now; d_name := dp_name payload; d_region := dp_region payload;
     d_image := default [] (dp_image payload); d_season := dp_season payload;
     d_description := dp_description payload; d_created_at := now |}.

(** [from('destinations').insert([payload])] *)
Definition destinations_insert (payload : destination_payload) : SiteM (response unit) :=
  send (InsertDestination payload) (fun x =>
    (Success tt,
     set_db (tick (set_destinations
                     (destinations (db x)
                      ++ [new_destination_row payload (clock (db x))]) (db x))) x)).

Definition update_destination (payload : destination_payload) (r : destination_row)
  : destination_row :=
  {| d_id := d_id r; d_name := dp_name payload; d_region := dp_region payload;
     d_image := default (d_image r) (dp_image payload);
     d_season := dp_season payload; d_description := dp_description payload;
     d_created_at := d_created_at r |}.

(** [from('destinations').update(payload).eq('id', id)] *)
Definition destinations_update (id : jsstring) (payload : destination_payload)
  : SiteM (response unit) :=
  send (UpdateDestination id payload) (fun x =>
    (Success tt,
     set_db (set_destinations
               (List.map (fun r => if bool_decide (d_id r = id)
                                   then update_destination payload r else r)
                         (destinations (db x))) (db x)) x)).

(** [from('destinations').delete().eq('id', id)] *)
Definition destinations_delete (id : jsstring) : SiteM (response unit) :=
  send (DeleteDestination id) (fun x =>
    (Success tt,
     set_db (set_destinations
               (List.filter (fun r => negb (bool_decide (d_id r = id)))
                            (destinations (db x))) (db x)) x)).

(** [from('packages').delete().eq('id', id)] *)
Definition packages_delete (id : jsstring) : SiteM (response unit) :=
  send (DeletePackage id) (fun x =>
    (Success tt,
     set_db (set_packages
               (List.filter (fun r => negb (bool_decide (p_id r = id)))
                            (packages (db x))) (db x)) x)).

(** A site over given tables, with an empty bucket, nobody signed in, that
    performs every request. *)
Definition site_over (w : world) : site :=
  {| db := w; bucket := []; public_base := lit "https://cdn.example/";
     stamp := fun n => lit "1700000000000_k3" ++ [N.of_nat n + 97]%N;
     session := None; reply := fun _ => Succeeds; sent := [] |}.

(** The same site, refusing every request of this module. *)
Definition refusing (x : site) : site :=
  {| db := db x; bucket := bucket x; public_base := public_base x;
     stamp := stamp x; session := session x; reply := fun _ => Fails;
     sent := sent x |}.

End Site.

Import Site.

Notation "'do!' x ':=' c1 'in' c2" := (sbind c1 (fun x => c2))
  (at level 10, x name, c1 at level 100, c2 at level 200,
   format "'[v' 'do!'  x  ':='  c1  'in' '/' c2 ']'").

(** ** adminService.ts, continued *)

Module AdminWrites.

Definition updateBookingStatus (id : jsstring) (status : booking_status) : SiteM bool :=
  stry
    (do! answer := bookings_update_status id status in
     match error_of answer with
     | Some _ => sret false
     | None => sret true
     end)
    (sret false).

Definition deleteBooking (id : jsstring) : SiteM bool :=
  stry
    (do! answer := bookings_delete id in
     match error_of answer with
     | Some _ => sret false
     | None => sret true
     end)
    (sret false).

Definition updateUserProfile (id : jsstring) (updates : profile_updates) : SiteM bool :=
  stry
    (do! answer := profiles_update id updates in
     match error_of answer with
     | Some _ => throw
     | None => sret true
     end)
    (sret false).

(** Only logs the request: no call is made. *)
Definition updateUserPassword (id newPassword : jsstring) : SiteM bool :=
  sret false.

End AdminWrites.

(** ** customerService.ts, continued *)

Module CustomerReads.

Import UserDashboard.

Definition item_of (item : wishlist_join) : WishlistItem :=
  {| wi_id := j_id item; wi_package_id := j_package_id item;
     wi_package_data := j_packages item |}.

Definition getWishlist (userId : jsstring) : SiteM (list WishlistItem) :=
  stry
    (do! answer := wishlist_of_user userId in
     match answer with
     | Failure _ => throw
     | Success data => sret (List.map item_of data)
     end)
    (sret []).

Definition getUserBookings (userId : jsstring) : SiteM (list booking_row) :=
  stry
    (do! answer := bookings_of_user userId in
     match answer with
     | Failure _ => throw
     | Success data => sret data
     end)
    (sret []).

End CustomerReads.

(** ** destinationService.ts, continued *)

Module DestinationWrites.

Record DestinationInput := {
  id : option jsstring;
  name : jsstring;
  region : jsstring;
  season : jsstring;
  description : jsstring;
  image : option jsstring
}.

(** [Destination] of types.ts. *)
Record Destination := {
  dest_id : jsstring;
  dest_name : jsstring;
  dest_region : jsstring;
  dest_image : jsstring;
  dest_season : jsstring;
  dest_description : jsstring
}.

Definition FALLBACK_DESTINATIONS : list Destination :=
  [{| dest_id := lit "d1"; dest_name := lit "Pangong Lake";
      dest_region := lit "Ladakh"; dest_season := lit "MAY - SEP";
      dest_image := lit "https://images.unsplash.com/photo-1589802829985-817e51171b92?auto=format&fit=crop&q=80&w=1200";
      dest_description := lit "Witness the changing colors of the world's highest saltwater lake. A surreal landscape where the sky meets the water in a symphony of blue." |};
   {| dest_id := lit "d2"; dest_name := lit "Spiti Valley";
      dest_region := lit "Himachal"; dest_season := lit "JUN - OCT";
      dest_image := lit "https://images.unsplash.com/photo-1581793745862-99fde7fa73d2?auto=format&fit=crop&q=80&w=1200";
      dest_description := lit "The Middle Land. Explore ancient monasteries, fossil-rich villages, and stark desert mountains under a galaxy of stars." |};
   {| dest_id := lit "d3"; dest_name := lit "Kedarnath";
      dest_region := lit "Uttarakhand"; dest_season := lit "MAY - NOV";
      dest_image := lit "https://images.unsplash.com/photo-1605649487212-47bdab064df7?auto=format&fit=crop&q=80&w=1200";
      dest_description := lit "A spiritual journey to the abode of Lord Shiva. Trek through the majestic Garhwal Himalayas to reach this ancient temple." |}].

(** [file.name.split('.').pop()] *)
Definition fileExt (file : File) : jsstring :=
  List.last (split 46 (file_name file)) [].

(** The storage path generated for the n-th request. *)
Definition filePath (x : site) (file : File) : jsstring :=
  lit "public/" ++ (stamp x (length (sent x)) ++ lit "." ++ fileExt file).

Definition uploadDestinationImage (file : File) : SiteM (option jsstring) :=
  stry
    (fun x =>
       let path := filePath x file in
       (do! answer := storage_upload path file in
        match error_of answer with
        | Some _ => sret None
        | None => fun x' => (Returned (Some (getPublicUrl x' path)), x')
        end) x)
    (sret None).

Definition payload_with (destination : DestinationInput) (imageUrl : option jsstring)
  : destination_payload :=
  {| dp_name := name destination; dp_region := region destination;
     dp_season := season destination; dp_description := description destination;
     dp_image := imageUrl |}.

(** The second step of [saveDestination]: insert or update, then the
    result. *)
Definition store (destination : DestinationInput) (imageUrl : option jsstring)
  : SiteM bool :=
  let payload := payload_with destination imageUrl in
  do! answer :=
    match id destination with
    | Some i => if truthy i then destinations_update i payload
                else destinations_insert payload
    | None => destinations_insert payload
    end in
  match error_of answer with
  | Some _ => sret false
  | None => sret true
  end.

Definition saveDestination (destination : DestinationInput) (file : option File)
  : SiteM bool :=
  stry
    (match file with
     | Some f =>
         do! uploadedUrl := uploadDestinationImage f in
         match uploadedUrl with
         | Some url => if truthy url then store destination (Some url) else sret false
         | None => sret false
         end
     | None => store destination (image destination)
     end)
    (sret false).

Definition deleteDestination (id : jsstring) : SiteM bool :=
  stry
    (do! answer := destinations_delete id in
     match error_of answer with
     | Some _ => sret false
     | None => sret true
     end)
    (sret false).

End DestinationWrites.

(** ** packageService.ts, continued *)

Module PackageWrites.

(** [Package] of types.ts. *)
Record Package := {
  pkg_id : jsstring;
  pkg_name : jsstring;
  pkg_price : jsstring;
  pkg_color : jsstring;
  pkg_accent : jsstring;
  pkg_features : list jsstring
}.

(** The rupee sign of the prices. *)
Definition rupee : jsstring := [8377]%N.

Definition FALLBACK_PACKAGES : list Package :=
  [{| pkg_id := lit "p1"; pkg_name := lit "Manali Escape";
      pkg_price := rupee ++ lit "14,999"; pkg_color := lit "white";
      pkg_accent := lit "bg-white/5";
      pkg_features := [lit "3 Nights / 4 Days"; lit "Volvo Transfer (Delhi)";
                       lit "Local Sightseeing"; lit "Breakfast & Dinner"] |};
   {| pkg_id := lit "p2"; pkg_name := lit "Ladakh Expedition";
      pkg_price := rupee ++ lit "34,999"; pkg_color := lit "teal";
      pkg_accent := lit "bg-[#4fb7b3]/10 border-[#4fb7b3]/50";
      pkg_features := [lit "6 Nights / 7 Days"; lit "Bike Rental Included";
                       lit "Nubra & Pangong"; lit "Permits & Camping"] |};
   {| pkg_id := lit "p3"; pkg_name := lit "Char Dham Yatra";
      pkg_price := rupee ++ lit "89,999"; pkg_color := lit "periwinkle";
      pkg_accent := lit "bg-[#637ab9]/10 border-[#637ab9]/50";
      pkg_features := [lit "10 Nights / 11 Days"; lit "Luxury Stays";
                       lit "Helicopter Option"; lit "VIP Darshan Assist"] |}].

(** [return !error] *)
Definition deletePackage (id : jsstring) : SiteM bool :=
  stry
    (do! answer := packages_delete id in
     match error_of answer with
     | Some _ => sret false
     | None => sret true
     end)
    (sret false).

End PackageWrites.

(** ** authService.ts, continued *)

Module AuthSession.

Import Account.

(** [value || fallback] on a string that may be missing. *)
Definition or_default (value : option jsstring) (fallback : jsstring) : jsstring :=
  match value with
  | Some v => if truthy v then v else fallback
  | None => fallback
  end.

(** The user object built from a session and the profile read, [None] for a
    [null] profile. *)
Definition user_of (u : session_user) (profile : option profile_row) : User :=
  {| id := su_id u;
     email := Some (or_default (su_email u) []);
     username := or_default (u_username <$> profile) (lit "User");
     full_name := u_full_name <$> profile;
     address := u_address <$> profile;
     phone := u_phone <$> profile;
     role := Some (or_default (u_role <$> profile) (lit "user")) |}.

Definition getCurrentUser : SiteM (option User) :=
  fun x =>
    match session x with
    | Some u =>
        (do! answer := profile_single (su_id u) in
         sret (Some (user_of u (data_of answer)))) x
    | None => (Returned None, x)
    end.

(** The listener that [onAuthStateChange] registers, run on a session
    change; [callback] receives the user. *)
Definition authStateListener {A} (callback : option User -> SiteM A)
  (session : option session_user) : SiteM A :=
  match session with
  | Some u =>
      do! answer := profile_single (su_id u) in
      callback (Some (user_of u (data_of answer)))
  | None => callback None
  end.

(** What [supabase.auth.signUp] answers: an error, no user, or a user with
    or without a session (none while the email awaits confirmation). *)
Inductive signup_answer :=
| AuthFailed
| AuthNoUser
| AuthUser (user_id : jsstring) (has_session : bool).

Inductive signup_error := AuthError | NoUserCreated.

(** The [{ data, error }] that [signUpUser] returns. *)
Inductive signup_result :=
| SignedUp (user_id : jsstring) (has_session : bool)
| SignUpError (e : signup_error).

Section WithToLowerCase.

Variable toLowerCase : jsstring -> jsstring.

(** [answer] is what [supabase.auth.signUp] answers to the request. *)
Definition signUpUser (data : AuthService.RegisterData) (answer : signup_answer)
  : SiteM signup_result :=
  let email := AuthService.getEmailFromUsername toLowerCase (AuthService.username data) in
  fun x =>
    let x := record_op (AuthSignUp email (AuthService.password data) data) x in
    match answer with
    | AuthFailed => (Returned (SignUpError AuthError), x)
    | AuthNoUser => (Returned (SignUpError NoUserCreated), x)
    | AuthUser uid has_session =>
        (do! _ :=
           if has_session then
             do! profileAnswer :=
               profiles_upsert
                 {| pf_id := uid; pf_username := AuthService.username data;
                    pf_full_name := AuthService.full_name data;
                    pf_address := AuthService.address data;
                    pf_phone := AuthService.phone data; pf_role := lit "user" |} in
             sret tt
           else sret tt in
         sret (SignedUp uid has_session)) x
    end.

End WithToLowerCase.

(** A registration to sign up with. *)
Definition asha_registration : AuthService.RegisterData :=
  {| AuthService.username := lit "Asha.Rao"; AuthService.password := lit "pw";
     AuthService.full_name := lit "Asha Rao"; AuthService.address := [];
     AuthService.phone := lit "98100" |}.

End AuthSession.

(** ** App.tsx: the auth subscription *)

Module AppAuth.

Import Account UserDashboard CustomerReads AuthSession.

Definition setUser (u : option User) (a : account) : account :=
  {| user := u; wishlistIds := wishlistIds a; isAuthModalOpen := isAuthModalOpen a |}.

(** The callback App passes to [onAuthStateChange]. *)
Definition onUser (a : account) (currentUser : option User) : SiteM account :=
  let a := setUser currentUser a in
  match currentUser with
  | Some u =>
      do! wData := getWishlist (id u) in
      sret (setWishlistIds (list_to_set (List.map wi_package_id wData)) a)
  | None => sret (setWishlistIds ∅ a)
  end.

(** A session change as App sees it. *)
Definition onSessionChange (session : option session_user) (a : account)
  : SiteM account :=
  authStateListener (onUser a) session.

End AppAuth.





(** ** The requests a destination save sends *)

Module DestinationRequests.

Import DestinationWrites.

(** The table request of [saveDestination] for an image URL. *)
Definition store_op (destination : DestinationInput) (imageUrl : option jsstring) : op :=
  match id destination with
  | Some i => if truthy i then UpdateDestination i (payload_with destination imageUrl)
              else InsertDestination (payload_with destination imageUrl)
  | None => InsertDestination (payload_with destination imageUrl)
  end.

(** Whether the bucket already holds an object at the path. *)
Definition taken (x : site) (path : jsstring) : bool :=
  existsb (fun o => bool_decide (fst o = path)) (bucket x).

(** A new destination and a picture to go with it. *)
Definition new_destination : DestinationInput :=
  {| id := None; name := lit "Tawang"; region := lit "Arunachal";
     season := lit "MAR - OCT"; description := lit "Monasteries above the clouds.";
     image := Some [] |}.

Definition picture : File :=
  {| file_name := lit "tawang.final.jpg"; file_body := lit "JFIF" |}.

End DestinationRequests.

(** ** AdminPanel.tsx: the write handlers *)

Module AdminHandlers.

Import AdminPanel AdminSession AdminWrites DestinationWrites PackageWrites.

Definition setDestinations (d : list destination_row) (s : panel) : panel :=
  {| localStorage := localStorage s; isLoggedIn := isLoggedIn s;
     username := username s; password := password s; error := error s;
     isLoading := isLoading s; bookings := bookings s; users := users s;
     destinations := d; packages := packages s;
     editingPkg := editingPkg s; isEditingPkg := isEditingPkg s;
     pkgSaveStatus := pkgSaveStatus s; alerts := alerts s |}.

Definition setPackages (p : list package_row) (s : panel) : panel :=
  {| localStorage := localStorage s; isLoggedIn := isLoggedIn s;
     username := username s; password := password s; error := error s;
     isLoading := isLoading s; bookings := bookings s; users := users s;
     destinations := destinations s; packages := p;
     editingPkg := editingPkg s; isEditingPkg := isEditingPkg s;
     pkgSaveStatus := pkgSaveStatus s; alerts := alerts s |}.

(** [loadData()] is started and not awaited; it is sequenced before the
    alert here. *)
Definition handleStatusChange (id : jsstring) (newStatus : booking_status)
  (s : panel) : SiteM panel :=
  let s :=
    setBookings
      (List.map (fun b => if bool_decide (br_id b = id)
                          then with_status newStatus b else b)
                (bookings s)) s in
  do! success := updateBookingStatus id newStatus in
  if (success : bool) then sret s
  else
    do! s := lift (loadData s) in
    sret (alert (lit "Failed to update status in database.") s).

(** [confirmed] is the answer to [window.confirm]. *)
Definition handleBookingDelete (confirmed : bool) (id : jsstring) (s : panel)
  : SiteM panel :=
  if confirmed then
    do! success := deleteBooking id in
    if (success : bool) then
      sret (setBookings
              (List.filter (fun b => negb (bool_decide (br_id b = id))) (bookings s)) s)
    else sret (alert (lit "Failed to delete booking.") s)
  else sret s.

Definition handleDestDelete (confirmed : bool) (id : jsstring) (s : panel)
  : SiteM panel :=
  if confirmed then
    do! success := deleteDestination id in
    if (success : bool) then
      sret (setDestinations
              (List.filter (fun d => negb (bool_decide (d_id d = id)))
                           (destinations s)) s)
    else sret (alert (lit "Failed to delete.") s)
  else sret s.

Definition handlePkgDelete (confirmed : bool) (id : jsstring) (s : panel)
  : SiteM panel :=
  if confirmed then
    do! success := deletePackage id in
    if (success : bool) then
      sret (setPackages
              (List.filter (fun p => negb (bool_decide (p_id p = id))) (packages s)) s)
    else sret (alert (lit "Failed to delete.") s)
  else sret s.

(** The state of the user editor. *)
Record user_form := {
  editingUser : option Account.User;
  newPassword : jsstring;
  isEditingUser : bool
}.

Definition password_not_changed : jsstring :=
  lit "Note: Password was NOT changed. Admin password reset requires server-side setup.".

Definition handleUserSave (f : user_form) (s : panel) : SiteM (user_form * panel) :=
  match editingUser f with
  | None => sret (f, s)
  | Some u =>
      do! _ := updateUserProfile (Account.id u)
                 {| up_full_name := Account.full_name u;
                    up_address := Account.address u;
                    up_phone := Account.phone u |} in
      do! s :=
        if truthy (newPassword f) then
          do! success := updateUserPassword (Account.id u) (newPassword f) in
          if (success : bool) then sret (alert (lit "Password updated.") s)
          else sret (alert password_not_changed s)
        else sret s in
      let f := {| editingUser := None; newPassword := newPassword f;
                  isEditingUser := false |} in
      do! s := lift (loadData s) in
      sret (f, s)
  end.

(** What the seeding passes to [saveDestination] for a fallback entry. *)
Definition seed_destination (d : Destination) : DestinationInput :=
  {| DestinationWrites.id := None; DestinationWrites.name := dest_name d;
     region := dest_region d; season := dest_season d;
     description := dest_description d; image := Some (dest_image d) |}.

(** What the seeding passes to [savePackage] for a fallback entry. *)
Definition seed_package (p : Package) : PackageService.PackageInput :=
  {| PackageService.id := None; PackageService.name := pkg_name p;
     PackageService.price := pkg_price p; PackageService.theme := pkg_color p;
     PackageService.features := pkg_features p |}.

(** The columns of a destination row that the application writes. *)
Definition destination_columns (r : destination_row)
  : jsstring * jsstring * jsstring * jsstring * jsstring :=
  (d_name r, d_region r, d_season r, d_description r, d_image r).

(** The same fields of a [Destination]. *)
Definition destination_fields (d : Destination)
  : jsstring * jsstring * jsstring * jsstring * jsstring :=
  (dest_name d, dest_region d, dest_season d, dest_description d, dest_image d).

(** The columns of a package row that the application writes. *)
Definition package_columns (r : package_row)
  : jsstring * jsstring * jsstring * option jsstring * list jsstring :=
  (p_name r, p_price r, p_color r, p_accent r, p_features r).

(** The same fields of a [Package]. *)
Definition package_fields (p : Package)
  : jsstring * jsstring * jsstring * option jsstring * list jsstring :=
  (pkg_name p, pkg_price p, pkg_color p, Some (pkg_accent p), pkg_features p).

(** The id and the timestamp the backend gives a row inserted at [now]. *)
Definition generated (now : N) : jsstring * N := (gen_id now, now).

(** The times of [n] inserts in a row, the first at [now]. *)
Fixpoint instants (now : N) (n : nat) : list N :=
  match n with
  | O => []
  | S n => now :: instants (N.succ now) n
  end.

Definition handleSeedDatabase (confirmed : bool) (s : panel) : SiteM panel :=
  if confirmed then
    let s := setIsLoading true s in
    do! _ := for_each FALLBACK_DESTINATIONS (fun d =>
               do! _ := saveDestination (seed_destination d) None in sret tt) in
    do! _ := for_each FALLBACK_PACKAGES (fun p =>
               do! _ := lift (PackageService.savePackage (seed_package p)) in sret tt) in
    do! s := lift (loadData s) in
    sret (setIsLoading false s)
  else sret s.

(** The panel shows the bookings table as a reload would list it. *)
Definition shows_bookings (s : panel) (x : site) : Prop :=
  bookings s = rev (order_by br_created_at (Backend.bookings (db x))).

Definition shows_destinations (s : panel) (x : site) : Prop :=
  destinations s = order_by d_created_at (Backend.destinations (db x)).

Definition shows_packages (s : panel) (x : site) : Prop :=
  packages s = order_by p_created_at (Backend.packages (db x)).

End AdminHandlers.



(** ** Sample states for the write handlers *)

Module HandlerSamples.

Import AdminPanel AdminSession AdminHandlers.

(** A backend holding the two sample bookings and the sample catalog. *)
Definition booked_world : world :=
  set_bookings sample_bookings catalog_world.

(** Three profiles, stored out of creation order. *)
Definition sample_profiles : list profile_row :=
  [{| u_id := lit "u2"; u_username := lit "manav"; u_full_name := lit "Manav Sen";
      u_address := []; u_phone := []; u_role := lit "user"; u_created_at := 2 |};
   {| u_id := lit "u3"; u_username := lit "tara"; u_full_name := lit "Tara Negi";
      u_address := []; u_phone := []; u_role := lit "admin"; u_created_at := 3 |};
   {| u_id := lit "u1"; u_username := lit "asha"; u_full_name := lit "Asha Rao";
      u_address := []; u_phone := lit "98100"; u_role := lit "user";
      u_created_at := 1 |}].

(** A backend holding the two sample bookings and the three profiles, that
    performs every request. *)
Definition staffed_world : world :=
  Site.set_profiles sample_profiles booked_world.

(** The same tables behind a backend that answers every request with an
    error. *)
Definition refusing_world : world :=
  {| wishlist := wishlist staffed_world; Backend.bookings := Backend.bookings staffed_world;
     Backend.destinations := Backend.destinations staffed_world;
     Backend.packages := Backend.packages staffed_world;
     profiles := profiles staffed_world; clock := clock staffed_world;
     answer := fun _ => Fails; journal := [] |}.

(** The panel after its data was loaded from that backend. *)
Definition loaded_panel : panel :=
  setLoaded (rev (order_by br_created_at (Backend.bookings booked_world)))
    (order_by d_created_at (Backend.destinations booked_world))
    (order_by p_created_at (Backend.packages booked_world)) [] initial_panel.

(** The user editor opened on a user, with a new password typed. *)
Definition editing_asha : user_form :=
  {| editingUser := Some {| Account.id := lit "u1"; Account.email := None;
                            Account.username := lit "asha";
                            Account.full_name := Some (lit "Asha Rao");
                            Account.address := None; Account.phone := None;
                            Account.role := Some (lit "user") |};
     newPassword := lit "s3cret"; isEditingUser := true |}.

End HandlerSamples.





(** ** Sample sessions *)

Module SessionSamples.

(** A backend with the profile of u1, who is signed in. *)
Definition signed_in : site :=
  {| db := set_profiles
             [{| u_id := lit "u1"; u_username := lit "asha";
                 u_full_name := lit "Asha Rao"; u_address := [];
                 u_phone := lit "98100"; u_role := []; u_created_at := 1 |}]
             empty_world;
     bucket := []; public_base := lit "https://cdn.example/";
     stamp := fun _ => []; 
     session := Some {| su_id := lit "u1"; su_email := None |};
     reply := fun _ => Succeeds; sent := [] |}.

End SessionSamples.



(** * Properties *)

(** ** The synthesized email *)

Section SynthesizedEmail.

Import AuthService.

Lemma replace_all_removes (re : N -> bool) (s : jsstring) :
  replace_all re [] s = List.filter (fun c => negb (re c)) s.
Proof.
  induction s as [|c s IH]; simpl; [reflexivity|].
  destruct (re c); simpl; congruence.
Qed.

Lemma spec_alphabet_bound (c : N) : In c spec_alphabet -> (c <= 122)%N.
Proof.
  assert (H : forallb (fun a => (a <=? 122)%N) spec_alphabet = true)
    by (vm_compute; reflexivity).
  rewrite forallb_forall in H. intros Hin. apply N.leb_le, H, Hin.
Qed.

Lemma class_is_spec_alphabet (c : N) : negb (not_a_z_0_9 c) = spec_keep c.
Proof.
  destruct (N.le_gt_cases c 122) as [Hle|Hgt].
  - assert (H : forallb (fun n => Bool.eqb (negb (not_a_z_0_9 (N.of_nat n)))
                                           (spec_keep (N.of_nat n)))
                        (seq 0 123) = true) by (vm_compute; reflexivity).
    rewrite forallb_forall in H.
    specialize (H (N.to_nat c)). rewrite N2Nat.id in H.
    apply Bool.eqb_prop, H, in_seq. lia.
  - transitivity false.
    + unfold not_a_z_0_9. rewrite negb_involutive.
      apply orb_false_iff; split; apply andb_false_iff; right; apply N.leb_gt; lia.
    + symmetry. apply not_true_is_false. intros H.
      apply existsb_exists in H. destruct H as [a [Hin Heq]].
      apply N.eqb_eq in Heq. subst a. apply spec_alphabet_bound in Hin. lia.
Qed.

Lemma getEmailFromUsername_spec toLowerCase (u : jsstring) :
  getEmailFromUsername toLowerCase u = spec_email toLowerCase u.
Proof.
  unfold getEmailFromUsername, spec_email, spec_normalize.
  rewrite replace_all_removes. f_equal.
  apply filter_ext. intros c. apply class_is_spec_alphabet.
Qed.

(** Two usernames collide exactly when they normalize identically. *)
Lemma getEmailFromUsername_collides_iff toLowerCase (u1 u2 : jsstring) :
  getEmailFromUsername toLowerCase u1 = getEmailFromUsername toLowerCase u2
  <-> spec_normalize toLowerCase u1 = spec_normalize toLowerCase u2.
Proof.
  rewrite !getEmailFromUsername_spec. unfold spec_email. split.
  - apply app_inv_tail.
  - intros ->. reflexivity.
Qed.

(** The local part of the email holds only a-z and 0-9. *)
Lemma getEmailFromUsername_local_part toLowerCase (u : jsstring) :
  exists local, getEmailFromUsername toLowerCase u = local ++ lit "@unexplore.com"
                /\ Forall (fun c => In c spec_alphabet) local.
Proof.
  exists (spec_normalize toLowerCase u). split.
  - apply getEmailFromUsername_spec.
  - apply List.Forall_forall. intros c Hc. apply filter_In in Hc as [_ Hc].
    apply existsb_exists in Hc as [a [Ha Heq]]. apply N.eqb_eq in Heq. now subst.
Qed.

(** C1. For every username the synthesized email is the username lower-cased,
    with every character outside a-z and 0-9 removed, followed by
    "@unexplore.com"; it depends on nothing but the username; sign-up and
    sign-in derive the same email from the same username; and two usernames
    that normalize to the same string get the same email. *)
Theorem synthesized_email_from_username (toLowerCase : jsstring -> jsstring) :
  (forall u, getEmailFromUsername toLowerCase u = spec_email toLowerCase u)
  /\ (forall data pw,
        call_email (signUpUser_call toLowerCase data)
        = call_email (signInUser_call toLowerCase (username data) pw))
  /\ (forall u1 u2,
        spec_normalize toLowerCase u1 = spec_normalize toLowerCase u2 ->
        getEmailFromUsername toLowerCase u1 = getEmailFromUsername toLowerCase u2).
Proof.
  split; [|split].
  - apply getEmailFromUsername_spec.
  - reflexivity.
  - intros u1 u2 H. apply getEmailFromUsername_collides_iff, H.
Qed.

(** "Tenzing N." and "tenzingn" are different usernames with one email. *)
Lemma synthesized_email_collision :
  lit "Tenzing N." <> lit "tenzingn"
  /\ getEmailFromUsername asciiToLowerCase (lit "Tenzing N.")
     = getEmailFromUsername asciiToLowerCase (lit "tenzingn")
  /\ getEmailFromUsername asciiToLowerCase (lit "Tenzing N.")
     = lit "tenzingn@unexplore.com".
Proof.
  split; [discriminate|]. split.
  - apply (proj2 (proj2 (synthesized_email_from_username asciiToLowerCase))).
    vm_compute. reflexivity.
  - vm_compute. reflexivity.
Defined.

End SynthesizedEmail.

(** ** The backend monad under a reliable backend *)

Section BackendFacts.

Lemma call_reliable {D} (rq : request) (run : world -> response D * world) w :
  reliable w ->
  call rq run w = (let (r, w2) := run (record_request rq w) in (Returned r, w2)).
Proof. intros H. unfold call. rewrite H. reflexivity. Qed.

Lemma existsb_filter {A} (f : A -> bool) (l : list A) :
  existsb f l = match List.filter f l with [] => false | _ => true end.
Proof.
  induction l as [|x l IH]; simpl; [reflexivity|].
  destruct (f x); simpl; [reflexivity|exact IH].
Qed.

Lemma filter_filter_length {A} (f g : A -> bool) (l : list A) :
  (length (List.filter f (List.filter g l)) <= length (List.filter f l))%nat.
Proof.
  induction l as [|x l IH]; simpl; [lia|].
  destruct (g x), (f x) eqn:E; simpl; rewrite ?E; simpl; lia.
Qed.

End BackendFacts.

(** ** The wishlist toggle *)

Section Wishlist.

Import CustomerService.

Lemma in_wishlist_pair_rows u p w :
  in_wishlist u p w = match pair_rows u p w with [] => false | _ => true end.
Proof. apply existsb_filter. Qed.

Lemma toggleWishlist_run u p w :
  reliable w ->
  toggleWishlist u p w =
    match pair_rows u p w with
    | [row] => (Returned false, after_delete u p row w)
    | _ => (Returned true, after_insert u p w)
    end.
Proof.
  intros H.
  unfold toggleWishlist, try_catch, bind, wishlist_select_single, call, pair_rows.
  rewrite H. simpl.
  destruct (List.filter (wishlist_matches u p) (wishlist w)) as [|row [|row' rows]];
    simpl; unfold wishlist_delete, wishlist_insert, call; simpl; rewrite H;
    reflexivity.
Qed.

Lemma new_row_matches u p w : wishlist_matches u p (new_row u p w) = true.
Proof. unfold wishlist_matches. simpl. now rewrite !bool_decide_eq_true_2. Qed.

Lemma pair_rows_after_insert u p w :
  pair_rows u p (after_insert u p w) = pair_rows u p w ++ [new_row u p w].
Proof.
  unfold pair_rows. simpl. rewrite List.filter_app. simpl.
  now rewrite new_row_matches.
Qed.

Lemma pair_rows_after_delete u p row w :
  pair_rows u p w = [row] -> pair_rows u p (after_delete u p row w) = [].
Proof.
  intros Hrow. unfold pair_rows, after_delete, other_ids. simpl.
  destruct (List.filter _ (List.filter _ _)) as [|x rest] eqn:E; [reflexivity|].
  assert (Hx : In x (x :: rest)) by (left; reflexivity).
  rewrite <- E in Hx. apply filter_In in Hx as [Hx Hm].
  apply filter_In in Hx as [Hin Hid].
  assert (Hx : In x (pair_rows u p w)) by (apply filter_In; split; assumption).
  rewrite Hrow in Hx. destruct Hx as [->|[]].
  now rewrite bool_decide_eq_true_2 in Hid.
Qed.

Lemma reliable_after_insert u p w : reliable w -> reliable (after_insert u p w).
Proof. intros H n. apply H. Qed.

Lemma reliable_after_delete u p row w : reliable w -> reliable (after_delete u p row w).
Proof. intros H n. apply H. Qed.

(** The value returned is the membership after the call, whatever the table
    holds. *)
Lemma toggleWishlist_returns_membership u p w :
  reliable w ->
  exists b w', toggleWishlist u p w = (Returned b, w')
               /\ reliable w' /\ b = in_wishlist u p w'.
Proof.
  intros H. rewrite (toggleWishlist_run u p w H).
  destruct (pair_rows u p w) as [|row [|row' rows]] eqn:E.
  - exists true, (after_insert u p w). split; [reflexivity|].
    split; [now apply reliable_after_insert|].
    rewrite in_wishlist_pair_rows, pair_rows_after_insert, E. reflexivity.
  - exists false, (after_delete u p row w). split; [reflexivity|].
    split; [now apply reliable_after_delete|].
    now rewrite in_wishlist_pair_rows, (pair_rows_after_delete u p row w E).
  - exists true, (after_insert u p w). split; [reflexivity|].
    split; [now apply reliable_after_insert|].
    rewrite in_wishlist_pair_rows, pair_rows_after_insert, E. reflexivity.
Qed.

(** Sequential toggles keep the table a set of pairs. *)
Lemma toggleWishlist_keeps_set u p w :
  reliable w ->
  (forall u' p', length (pair_rows u' p' w) <= 1)%nat ->
  forall u' p', (length (pair_rows u' p' (snd (toggleWishlist u p w))) <= 1)%nat.
Proof.
  intros H Hset u' p'. rewrite (toggleWishlist_run u p w H).
  assert (Hins : pair_rows u p w = [] ->
                 (length (pair_rows u' p' (after_insert u p w)) <= 1)%nat).
  { intros E. unfold pair_rows. simpl. rewrite List.filter_app, length_app. simpl.
    destruct (wishlist_matches u' p' (new_row u p w)) eqn:Em; simpl.
    - unfold wishlist_matches in Em. simpl in Em.
      apply andb_true_iff in Em as [Eu Ep].
      apply bool_decide_eq_true_1 in Eu, Ep. subst u' p'.
      fold (pair_rows u p w). rewrite E. simpl. lia.
    - specialize (Hset u' p'). unfold pair_rows in Hset. lia. }
  destruct (pair_rows u p w) as [|row [|row' rows]] eqn:E; simpl.
  - now apply Hins.
  - unfold pair_rows, after_delete, other_ids. simpl.
    etransitivity; [apply filter_filter_length|apply Hset].
  - specialize (Hset u p). rewrite E in Hset. simpl in Hset. lia.
Qed.

(** C2. Under sequential execution on a backend that performs every read,
    insert and delete, two calls of toggleWishlist for the same user and
    package both return, and leave the membership of the pair as it was
    before the first call. *)
Theorem toggleWishlist_twice_restores_membership (u p : jsstring) (w : world) :
  reliable w ->
  exists b1 w1 b2 w2,
    toggleWishlist u p w = (Returned b1, w1)
    /\ toggleWishlist u p w1 = (Returned b2, w2)
    /\ in_wishlist u p w2 = in_wishlist u p w.
Proof.
  intros H. rewrite (toggleWishlist_run u p w H).
  destruct (pair_rows u p w) as [|row [|row' rows]] eqn:E;
    rewrite (in_wishlist_pair_rows u p w), E.
  - pose proof (reliable_after_insert u p w H) as H1.
    exists true, (after_insert u p w). rewrite (toggleWishlist_run _ _ _ H1).
    rewrite pair_rows_after_insert, E. simpl.
    eexists _, _. split; [reflexivity|]. split; [reflexivity|].
    rewrite in_wishlist_pair_rows.
    rewrite (pair_rows_after_delete u p (new_row u p w)); [reflexivity|].
    now rewrite pair_rows_after_insert, E.
  - pose proof (reliable_after_delete u p row w H) as H1.
    exists false, (after_delete u p row w). rewrite (toggleWishlist_run _ _ _ H1).
    rewrite (pair_rows_after_delete u p row w E).
    eexists _, _. split; [reflexivity|]. split; [reflexivity|].
    rewrite in_wishlist_pair_rows, pair_rows_after_insert.
    now rewrite (pair_rows_after_delete u p row w E).
  - pose proof (reliable_after_insert u p w H) as H1.
    exists true, (after_insert u p w). rewrite (toggleWishlist_run _ _ _ H1).
    rewrite pair_rows_after_insert, E. simpl.
    eexists _, _. split; [reflexivity|]. split; [reflexivity|].
    rewrite in_wishlist_pair_rows, pair_rows_after_insert, pair_rows_after_insert, E.
    reflexivity.
Qed.

Lemma toggleWishlist_twice_on_empty_world :
  reliable empty_world
  /\ exists b1 w1 b2 w2,
       toggleWishlist (lit "u1") (lit "p1") empty_world = (Returned b1, w1)
       /\ toggleWishlist (lit "u1") (lit "p1") w1 = (Returned b2, w2)
       /\ in_wishlist (lit "u1") (lit "p1") w2
          = in_wishlist (lit "u1") (lit "p1") empty_world.
Proof.
  split; [intros n; reflexivity|].
  apply (toggleWishlist_twice_restores_membership (lit "u1") (lit "p1") empty_world).
  intros n. reflexivity.
Defined.




End Wishlist.

(** ** Booking creation *)

Section Booking.

Import AdminService.

(** The row the backend stores for a payload. *)
Lemma bookings_insert_run payload w :
  answer w (length (journal w)) = Succeeds ->
  bookings_insert payload w
  = (Returned (Success tt),
     tick (set_bookings
             (bookings w ++ [{| br_id := gen_id (clock w);
                                br_created_at := clock w;
                                br_fields := payload |}])
             (record_request (InsertBooking payload) w))).
Proof. intros H. unfold bookings_insert, call. rewrite H. reflexivity. Qed.

Lemma booking_payload_status data userId :
  bk_status (booking_payload_of data userId) = pending.
Proof.
  unfold booking_payload_of. destruct userId as [u|]; [|reflexivity].
  destruct (truthy u); reflexivity.
Qed.

(** C4. When the backend performs the insert, createBooking returns true and
    has sent exactly one request, an insert that adds one row, whose status
    is "pending" whatever the input carries (an AdminBooking with a status
    of its own included); when the insert fails or throws, createBooking
    returns false and no row is added. *)
Theorem createBooking_submits_one_pending_record
  (data : BookingData) (userId : option jsstring) (w : world) :
  (answer w (length (journal w)) = Succeeds ->
   exists row w',
     createBooking data userId w = (Returned true, w')
     /\ journal w' = journal w ++ [InsertBooking (br_fields row)]
     /\ bookings w' = bookings w ++ [row]
     /\ bk_status (br_fields row) = pending
     /\ br_fields row = booking_payload_of data userId)
  /\ (answer w (length (journal w)) <> Succeeds ->
      exists w',
        createBooking data userId w = (Returned false, w')
        /\ bookings w' = bookings w)
  /\ (forall booking : AdminBooking,
        bk_status (booking_payload_of (base booking) userId) = pending).
Proof.
  split; [|split].
  - intros H. unfold createBooking, try_catch, bind.
    rewrite (bookings_insert_run _ w H). simpl.
    eexists _, _. split; [reflexivity|]. simpl.
    repeat split; try reflexivity. apply booking_payload_status.
  - intros H. unfold createBooking, try_catch, bind, bookings_insert, call.
    destruct (answer w (length (journal w))); [congruence| |];
      simpl; eexists; split; reflexivity.
  - intros booking. apply booking_payload_status.
Qed.

Lemma createBooking_on_empty_world :
  exists row w',
    createBooking {| name := lit "Asha"; phone := lit "98100"; travelers := 2;
                     date := lit "2026-05-01"; package := lit "Manali Escape";
                     notes := [] |} None empty_world
    = (Returned true, w')
    /\ journal w' = journal empty_world ++ [InsertBooking (br_fields row)]
    /\ bookings w' = bookings empty_world ++ [row]
    /\ bk_status (br_fields row) = pending
    /\ br_fields row
       = booking_payload_of
           {| name := lit "Asha"; phone := lit "98100"; travelers := 2;
              date := lit "2026-05-01"; package := lit "Manali Escape";
              notes := [] |} None.
Proof.
  apply (proj1 (createBooking_submits_one_pending_record _ None empty_world)).
  reflexivity.
Defined.

End Booking.

(** ** Catalog reads *)

Section Catalog.

Import DestinationService PackageService.

Context {A : Type} (key : A -> N).

Lemma insert_by_permutation (x : A) (l : list A) :
  Permutation (insert_by key x l) (x :: l).
Proof.
  induction l as [|y l IH]; simpl; [reflexivity|].
  destruct (key x <=? key y)%N; [reflexivity|].
  rewrite IH. apply perm_swap.
Qed.

Lemma order_by_permutation (l : list A) : Permutation (order_by key l) l.
Proof.
  induction l as [|x l IH]; simpl; [reflexivity|].
  rewrite insert_by_permutation. now constructor.
Qed.

Lemma insert_by_head (x a : A) (l : list A) :
  by_key key a x -> HdRel (by_key key) a l -> HdRel (by_key key) a (insert_by key x l).
Proof.
  intros Hax Hal. destruct l as [|y l]; simpl; [now constructor|].
  destruct (key x <=? key y)%N; constructor; [assumption|].
  now inversion Hal.
Qed.

Lemma insert_by_sorted (x : A) (l : list A) :
  Sorted (by_key key) l -> Sorted (by_key key) (insert_by key x l).
Proof.
  induction 1 as [|y l Hl IH Hhd]; simpl; [repeat constructor|].
  destruct (key x <=? key y)%N eqn:E.
  - apply N.leb_le in E. constructor; [now constructor|now constructor].
  - apply N.leb_gt in E. constructor; [assumption|].
    apply insert_by_head; [unfold by_key; lia|assumption].
Qed.

Lemma order_by_sorted (l : list A) : Sorted (by_key key) (order_by key l).
Proof.
  induction l as [|x l IH]; simpl; [constructor|]. now apply insert_by_sorted.
Qed.

End Catalog.

Section CatalogReads.

Import DestinationService PackageService.

(** A select changes nothing but the journal, whatever the answer. *)
Lemma getDestinations_run w :
  getDestinations w
  = (Returned match answer w (length (journal w)) with
              | Succeeds => order_by d_created_at (destinations w)
              | _ => []
              end,
     record_request (SelectOrdered t_destinations true) w).
Proof.
  unfold getDestinations, try_catch, bind, destinations_select, call.
  destruct (answer w (length (journal w))); reflexivity.
Qed.

Lemma getPackages_run w :
  getPackages w
  = (Returned match answer w (length (journal w)) with
              | Succeeds => order_by p_created_at (packages w)
              | _ => []
              end,
     record_request (SelectOrdered t_packages true) w).
Proof.
  unfold getPackages, try_catch, bind, packages_select, call.
  destruct (answer w (length (journal w))); reflexivity.
Qed.

(** C5. A catalog list call (destinations, packages) whose request the
    backend answers with an error, or which throws, returns the empty
    sequence and raises nothing; one the backend performs returns the
    records of the table ordered by creation time ascending. So a failed
    fetch returns what a fetch of an empty table returns. *)
Theorem catalog_list_empty_on_failure_sorted_on_success (w : world) :
  (answer w (length (journal w)) = Succeeds ->
   (exists ds, fst (getDestinations w) = Returned ds
               /\ Sorted (by_key d_created_at) ds
               /\ Permutation ds (destinations w))
   /\ (exists ps, fst (getPackages w) = Returned ps
                  /\ Sorted (by_key p_created_at) ps
                  /\ Permutation ps (packages w)))
  /\ (answer w (length (journal w)) <> Succeeds ->
      fst (getDestinations w) = Returned []
      /\ fst (getPackages w) = Returned []
      /\ forall w0,
           answer w0 (length (journal w0)) = Succeeds ->
           (destinations w0 = [] ->
            fst (getDestinations w0) = fst (getDestinations w))
           /\ (packages w0 = [] ->
               fst (getPackages w0) = fst (getPackages w))).
Proof.
  rewrite getDestinations_run, getPackages_run. simpl. split.
  - intros ->. split; eexists; (split; [reflexivity|]);
      (split; [apply order_by_sorted|apply order_by_permutation]).
  - intros H.
    destruct (answer w (length (journal w))); [congruence| |];
      (split; [reflexivity|]; split; [reflexivity|]);
      intros w0 H0; rewrite getDestinations_run, getPackages_run, H0; simpl;
      split; intros ->; reflexivity.
Qed.

(** The sample catalog, read from a backend that performs the request and
    from one that answers with an error. *)
Lemma catalog_list_on_sample_worlds :
  ((exists ds, fst (getDestinations catalog_world) = Returned ds
               /\ Sorted (by_key d_created_at) ds
               /\ Permutation ds (destinations catalog_world))
   /\ (exists ps, fst (getPackages catalog_world) = Returned ps
                  /\ Sorted (by_key p_created_at) ps
                  /\ Permutation ps (packages catalog_world)))
  /\ (fst (getDestinations failing_world) = Returned []
      /\ fst (getPackages failing_world) = Returned []
      /\ forall w0,
           answer w0 (length (journal w0)) = Succeeds ->
           (destinations w0 = [] ->
            fst (getDestinations w0) = fst (getDestinations failing_world))
           /\ (packages w0 = [] ->
               fst (getPackages w0) = fst (getPackages failing_world))).
Proof.
  split.
  - apply (proj1 (catalog_list_empty_on_failure_sorted_on_success catalog_world)).
    reflexivity.
  - apply (proj2 (catalog_list_empty_on_failure_sorted_on_success failing_world)).
    simpl. discriminate.
Defined.

(** The destinations of the sample catalog come back in creation order. *)
Example getDestinations_sample_order :
  match fst (getDestinations catalog_world) with
  | Returned ds => List.map d_id ds = [lit "d1"; lit "d2"; lit "d3"]
  | Thrown => False
  end.
Proof. vm_compute. reflexivity. Qed.

End CatalogReads.

(** ** Saving a package *)

Section SavePackage.

Import PackageService.

(** Refutes a decidable closed proposition by evaluating its decision. *)
Ltac not_by_computation :=
  let H := fresh in
  intros H; apply (bool_decide_eq_true_2 _) in H; vm_compute in H; discriminate H.

Lemma THEME_MAP_lookup (key : jsstring) :
  THEME_MAP !! key
  = if bool_decide (key = lit "white")
    then Some (lit "white", lit "bg-white/5")
    else if bool_decide (key = lit "teal")
    then Some (lit "teal", lit "bg-[#4fb7b3]/10 border-[#4fb7b3]/50")
    else if bool_decide (key = lit "periwinkle")
    then Some (lit "periwinkle", lit "bg-[#637ab9]/10 border-[#637ab9]/50")
    else None.
Proof.
  destruct (decide (key = lit "white")) as [->|E1]; [vm_compute; reflexivity|].
  destruct (decide (key = lit "teal")) as [->|E2]; [vm_compute; reflexivity|].
  destruct (decide (key = lit "periwinkle")) as [->|E3]; [vm_compute; reflexivity|].
  rewrite !bool_decide_eq_false_2 by assumption.
  unfold THEME_MAP. rewrite !lookup_insert_ne by congruence. apply lookup_empty.
Qed.

Lemma savePackage_run (pkg : PackageInput) (w : world) :
  exists w',
    savePackage pkg w = (Returned (performs (answer w (length (journal w)))), w')
    /\ journal w' = journal w ++ [save_request pkg]
    /\ answer w' = answer w
    /\ (answer w (length (journal w)) = Succeeds ->
        save_request pkg = InsertPackage (payload_of pkg) ->
        packages w' = packages w ++ [new_package_row (payload_of pkg) (clock w)]).
Proof.
  unfold savePackage, save_request, try_catch, bind.
  destruct (id pkg) as [i|]; [destruct (truthy i)|];
    unfold packages_update, packages_insert, call;
    destruct (answer w (length (journal w))); simpl;
    eexists; repeat split; intros; congruence || discriminate.
Qed.

Lemma payload_accent (pkg : PackageInput) :
  theme pkg ∉ object_prototype_properties ->
  pp_accent (payload_of pkg)
  = Some match THEME_MAP !! theme pkg with
         | Some bundle => snd bundle
         | None => lit "bg-white/5"
         end.
Proof.
  intros Hkey. unfold payload_of, THEME_MAP_get. simpl.
  destruct (THEME_MAP !! theme pkg) as [[color accent]|]; [reflexivity|].
  rewrite bool_decide_eq_false_2 by exact Hkey. reflexivity.
Qed.

Lemma THEME_MAP_accents (key : jsstring) :
  (match THEME_MAP !! key with
   | Some bundle => snd bundle
   | None => lit "bg-white/5"
   end) ∈ fixed_accents.
Proof.
  rewrite THEME_MAP_lookup. unfold fixed_accents.
  repeat case_bool_decide; simpl; set_solver.
Qed.

(** Away from the names every object inherits from Object.prototype the
    lookup behaves as a map with a default: savePackage sends one request
    whose color is the submitted key and whose accent is the accent THEME_MAP
    assigns to the key, or the white theme's accent when the key is none of
    "white", "teal", "periwinkle"; that accent is one of the three fixed
    values, and it is what a performed insert stores. *)
Lemma savePackage_accent_follows_theme (pkg : PackageInput) (w : world) :
  theme pkg ∉ object_prototype_properties ->
  exists accent w',
    savePackage pkg w = (Returned (performs (answer w (length (journal w)))), w')
    /\ journal w' = journal w ++ [save_request pkg]
    /\ pp_color (payload_of pkg) = theme pkg
    /\ pp_accent (payload_of pkg) = Some accent
    /\ accent = match THEME_MAP !! theme pkg with
                | Some bundle => snd bundle
                | None => lit "bg-white/5"
                end
    /\ (theme pkg ∉ theme_keys -> accent = lit "bg-white/5")
    /\ accent ∈ fixed_accents
    /\ (answer w (length (journal w)) = Succeeds ->
        save_request pkg = InsertPackage (payload_of pkg) ->
        exists row, packages w' = packages w ++ [row]
                    /\ p_color row = theme pkg /\ p_accent row = Some accent).
Proof.
  intros Hkey. destruct (savePackage_run pkg w) as (w' & Hrun & Hj & _ & Hrows).
  eexists _, w'. split; [exact Hrun|]. split; [exact Hj|].
  split; [reflexivity|]. split; [apply payload_accent, Hkey|].
  split; [reflexivity|]. split; [|split; [apply THEME_MAP_accents|]].
  - intros Hnot. rewrite THEME_MAP_lookup. unfold theme_keys in Hnot.
    repeat case_bool_decide; try reflexivity; exfalso; apply Hnot; set_solver.
  - intros Hok Hins. eexists. split; [apply Hrows; assumption|].
    split; [reflexivity|]. simpl. apply payload_accent, Hkey.
Qed.

(** An unknown key ("saffron") falls back to the white accent. *)
Lemma savePackage_unknown_theme_key :
  (lit "saffron" ∉ object_prototype_properties)
  /\ (lit "saffron" ∉ theme_keys)
  /\ exists w',
       savePackage {| id := None; name := lit "Base Camp"; price := [];
                      theme := lit "saffron"; features := [] |} empty_world
       = (Returned true, w')
       /\ List.map p_color (packages w') = [lit "saffron"]
       /\ List.map p_accent (packages w') = [Some (lit "bg-white/5")].
Proof.
  split; [not_by_computation|].
  split; [not_by_computation|].
  destruct (savePackage_accent_follows_theme
              {| id := None; name := lit "Base Camp"; price := [];
                 theme := lit "saffron"; features := [] |} empty_world)
    as (accent & w' & Hrun & _ & _ & _ & _ & Hwhite & _ & Hrow).
  { not_by_computation. }
  exists w'. split; [exact Hrun|].
  destruct (Hrow eq_refl eq_refl) as (row & -> & Hc & Ha).
  simpl. rewrite Hc, Ha, Hwhite; [split; reflexivity|].
  not_by_computation.
Defined.


End SavePackage.

(** ** Splitting and trimming *)

Section Lines.

Lemma split_nonempty (sep : N) (s : jsstring) : split sep s <> [].
Proof.
  destruct s as [|c s]; simpl; [discriminate|].
  destruct (c =? sep)%N; [discriminate|].
  destruct (split sep s); discriminate.
Qed.

(** Joining the pieces with the separator gives the string back. *)
Lemma join_split (sep : N) (s : jsstring) : join sep (split sep s) = s.
Proof.
  induction s as [|c s IH]; simpl; [reflexivity|].
  destruct (c =? sep)%N eqn:E.
  - apply N.eqb_eq in E. subst c.
    destruct (split sep s) as [|piece pieces] eqn:Es.
    + now apply split_nonempty in Es.
    + simpl in *. now rewrite IH.
  - destruct (split sep s) as [|piece pieces] eqn:Es.
    + now apply split_nonempty in Es.
    + destruct pieces; simpl in *; now rewrite <- IH.
Qed.

(** No piece holds the separator. *)
Lemma split_pieces (sep : N) (s : jsstring) :
  Forall (fun piece => ~ In sep piece) (split sep s).
Proof.
  induction s as [|c s IH]; simpl.
  - constructor; [intros []|constructor].
  - destruct (c =? sep)%N eqn:E.
    + constructor; [intros []|exact IH].
    + apply N.eqb_neq in E.
      destruct (split sep s) as [|piece pieces]; [repeat constructor; intros [?|[]]; congruence|].
      inversion IH as [|? ? Hp Hps]; subst. constructor; [|exact Hps].
      intros [?|?]; [congruence|contradiction].
Qed.

Lemma forallb_trimStart (s : jsstring) :
  forallb isWhiteSpace (trimStart s) = forallb isWhiteSpace s.
Proof.
  induction s as [|c s IH]; simpl; [reflexivity|].
  destruct (isWhiteSpace c) eqn:E; simpl; [exact IH|now rewrite E].
Qed.

Lemma trimStart_nil (s : jsstring) :
  trimStart s = [] <-> forallb isWhiteSpace s = true.
Proof.
  induction s as [|c s IH]; simpl; [tauto|].
  destruct (isWhiteSpace c); simpl; [exact IH|]. split; discriminate.
Qed.

Lemma forallb_rev {A} (f : A -> bool) (l : list A) :
  forallb f (rev l) = forallb f l.
Proof.
  induction l as [|x l IH]; simpl; [reflexivity|].
  rewrite forallb_app, IH. simpl. rewrite andb_true_r. apply andb_comm.
Qed.

(** A string trims to the empty string exactly when it is all white space. *)
Lemma trim_nil (s : jsstring) :
  trim s = [] <-> forallb isWhiteSpace s = true.
Proof.
  unfold trim, trimEnd.
  rewrite <- (forallb_trimStart s), <- (forallb_rev _ (trimStart s)), <- trimStart_nil.
  split.
  - intros H. apply (f_equal (@rev N)) in H. now rewrite rev_involutive in H.
  - intros ->. reflexivity.
Qed.

Lemma filter_sublist {A} (f : A -> bool) (l : list A) :
  sublist (List.filter f l) l.
Proof.
  induction l as [|x l IH]; simpl; [constructor|].
  destruct (f x); now constructor.
Qed.

End Lines.

(** ** The admin panel: loading and saving *)

Section PanelFacts.

Import AdminService DestinationService PackageService AdminPanel.

Lemma fetchBookings_run w :
  exists data, fetchBookings w
               = (Returned data, record_request (SelectOrdered t_bookings false) w).
Proof.
  unfold fetchBookings, try_catch, bind, bookings_select, call.
  destruct (answer w (length (journal w))); eexists; reflexivity.
Qed.

Lemma fetchUsers_run w :
  exists data, fetchUsers w
               = (Returned data, record_request (SelectOrdered t_profiles false) w).
Proof.
  unfold fetchUsers, try_catch, bind, profiles_select, call.
  destruct (answer w (length (journal w))); eexists; reflexivity.
Qed.

(** [loadData] sends its four reads, returns, and changes neither a table
    nor the login state nor the package form. *)
Lemma loadData_run (s : panel) (w : world) :
  exists s' w',
    loadData s w = (Returned s', w')
    /\ journal w' = journal w ++ [SelectOrdered t_bookings false;
                                  SelectOrdered t_destinations true;
                                  SelectOrdered t_packages true;
                                  SelectOrdered t_profiles false]
    /\ Backend.packages w' = Backend.packages w
    /\ localStorage s' = localStorage s
    /\ isLoggedIn s' = isLoggedIn s
    /\ editingPkg s' = editingPkg s.
Proof.
  unfold loadData, bind.
  destruct (fetchBookings_run w) as [b ->].
  rewrite getDestinations_run, getPackages_run.
  match goal with |- context [fetchUsers ?w1] =>
    destruct (fetchUsers_run w1) as [u ->] end.
  eexists _, _. split; [reflexivity|]. simpl.
  rewrite <- !app_assoc. repeat split; reflexivity.
Qed.

Lemma cleanFeatures_spec (fs : list jsstring) :
  cleanFeatures fs = List.filter (fun f => negb (forallb isWhiteSpace f)) fs.
Proof.
  apply filter_ext. intros f. f_equal.
  destruct (forallb isWhiteSpace f) eqn:E.
  - apply bool_decide_eq_true_2, trim_nil, E.
  - apply bool_decide_eq_false_2. rewrite trim_nil. congruence.
Qed.

Lemma save_request_features (pkg : PackageInput) :
  request_features (save_request pkg) = Some (features pkg).
Proof.
  unfold save_request. destruct (id pkg) as [i|]; [destruct (truthy i)|]; reflexivity.
Qed.

(** What [handlePkgSave] sends first, and what a performed insert stores. *)
Lemma handlePkgSave_run (pkg : PackageInput) (s : panel) (w : world) :
  editingPkg s = Some pkg ->
  let saved := with_features (cleanFeatures (features pkg)) pkg in
  exists s' w' rest,
    handlePkgSave s w = (Returned s', w')
    /\ journal w' = journal w ++ save_request saved :: rest
    /\ (answer w (length (journal w)) = Succeeds ->
        save_request saved = InsertPackage (payload_of saved) ->
        Backend.packages w'
        = Backend.packages w ++ [new_package_row (payload_of saved) (clock w)]).
Proof.
  intros Hed saved. unfold handlePkgSave. rewrite Hed. fold saved. unfold bind.
  destruct (savePackage_run saved w) as (w1 & -> & Hj & _ & Hrows).
  destruct (performs (answer w (length (journal w)))).
  - match goal with |- context [loadData ?s1 w1] =>
      destruct (loadData_run s1 w1) as (s2 & w2 & -> & Hj2 & Hp & _) end.
    eexists _, _, _. split; [reflexivity|]. split.
    + rewrite Hj2, Hj, <- app_assoc. reflexivity.
    + intros Hok Hins. rewrite Hp. now apply Hrows.
  - eexists _, _, []. split; [reflexivity|]. split; [exact Hj|exact Hrows].
Qed.

(** C6. The features textarea is split on newline characters (the lines
    joined by newlines are the input, and no line holds a newline); at save
    time every line that is empty after trimming, that is every line of white
    space only, is dropped and the others are kept in their order; the
    request sent carries exactly these lines, and a performed insert stores
    them. For "A\n\nB\n" they are ["A", "B"]. *)
Theorem package_features_split_and_cleaned
  (text : jsstring) (pkg : PackageInput) (s : panel) (w : world) :
  editingPkg s = Some pkg ->
  exists lines stored,
    lines = split 10 text
    /\ join 10 lines = text
    /\ Forall (fun line => ~ In 10%N line) lines
    /\ stored = List.filter (fun line => negb (forallb isWhiteSpace line)) lines
    /\ sublist stored lines
    /\ (text = sample_features_text -> stored = [lit "A"; lit "B"])
    /\ exists s' w' rest,
         handlePkgSave (handlePkgFeaturesChange text s) w = (Returned s', w')
         /\ journal w' = journal w ++ save_request (with_features stored pkg) :: rest
         /\ request_features (save_request (with_features stored pkg)) = Some stored
         /\ (answer w (length (journal w)) = Succeeds ->
             id pkg = None ->
             exists row, Backend.packages w' = Backend.packages w ++ [row]
                         /\ p_features row = stored).
Proof.
  intros Hed. eexists _, _. split; [reflexivity|].
  split; [apply join_split|]. split; [apply split_pieces|].
  split; [reflexivity|]. split; [apply filter_sublist|].
  split; [intros ->; vm_compute; reflexivity|].
  rewrite <- cleanFeatures_spec.
  assert (Hed' : editingPkg (handlePkgFeaturesChange text s)
                 = Some (with_features (split 10 text) pkg)).
  { unfold handlePkgFeaturesChange. rewrite Hed. reflexivity. }
  destruct (handlePkgSave_run _ _ w Hed') as (s' & w' & rest & Hrun & Hj & Hrows).
  exists s', w', rest. split; [exact Hrun|]. split; [exact Hj|].
  split; [apply save_request_features|].
  intros Hok Hid. eexists. split.
  - apply Hrows; [exact Hok|]. unfold save_request. simpl. now rewrite Hid.
  - reflexivity.
Qed.

(** A new package whose features are typed as "A\n\nB\n", saved on a
    backend that performs every request: the stored features are A and B. *)
Lemma package_features_of_sample_text :
  editingPkg (startEditPackage None initial_panel) <> None
  /\ exists s' w',
       handlePkgSave
         (handlePkgFeaturesChange sample_features_text
            (startEditPackage None initial_panel)) empty_world
       = (Returned s', w')
       /\ List.map p_features (Backend.packages w') = [[lit "A"; lit "B"]].
Proof.
  split; [discriminate|].
  destruct (package_features_split_and_cleaned sample_features_text
              {| id := None; name := []; price := []; theme := lit "white";
                 features := [] |}
              (startEditPackage None initial_panel) empty_world eq_refl)
    as (lines & stored & _ & _ & _ & _ & _ & Hsample & s' & w' & rest
        & Hrun & _ & _ & Hrows).
  exists s', w'. split; [exact Hrun|].
  destruct (Hrows eq_refl eq_refl) as (row & -> & Hrow).
  simpl. rewrite Hrow. now rewrite (Hsample eq_refl).
Defined.

End PanelFacts.

(** ** The admin gate *)

Section AdminGate.

Import AdminService AdminPanel.

Lemma checkAuth_true_iff (u p : jsstring) :
  checkAuth u p = true <-> (u, p) = (lit "admin", lit "himalayas123").
Proof.
  unfold checkAuth. rewrite andb_true_iff, !bool_decide_eq_true. split.
  - intros [-> ->]. reflexivity.
  - intros [= -> ->]. split; reflexivity.
Qed.

Lemma handleLogin_rejected (s : panel) (w : world) :
  checkAuth (username s) (password s) = false ->
  handleLogin s w = (Returned (setError (lit "Invalid credentials") s), w).
Proof. intros H. unfold handleLogin. rewrite H. reflexivity. Qed.

(** With the literal pair the flag is stored and the panel is logged in. *)
Lemma handleLogin_accepted (s : panel) (w : world) :
  checkAuth (username s) (password s) = true ->
  exists s' w', handleLogin s w = (Returned s', w')
                /\ isAuthenticated (localStorage s') = true
                /\ isLoggedIn s' = true.
Proof.
  intros H. unfold handleLogin. rewrite H.
  match goal with |- context [loadData ?s1 w] =>
    destruct (loadData_run s1 w) as (s' & w' & -> & _ & _ & Hls & Hin & _) end.
  exists s', w'. split; [reflexivity|]. rewrite Hls, Hin. simpl. split; [|reflexivity].
  unfold isAuthenticated, login. apply bool_decide_eq_true_2, lookup_insert_eq.
Qed.

(** C8. For every pair of credentials other than ("admin", "himalayas123"),
    checkAuth returns false and the login handler returns with localStorage,
    hence the stored flag, and the logged-in state as they were; and
    whenever the handler changes either, checkAuth had returned true. *)
Theorem handleLogin_rejects_other_credentials (s : panel) (w : world) :
  ((username s, password s) <> (lit "admin", lit "himalayas123") ->
   checkAuth (username s) (password s) = false
   /\ exists s', handleLogin s w = (Returned s', w)
                 /\ localStorage s' = localStorage s
                 /\ isAuthenticated (localStorage s') = isAuthenticated (localStorage s)
                 /\ isLoggedIn s' = isLoggedIn s)
  /\ (forall r w',
        handleLogin s w = (r, w') ->
        (forall s', r = Returned s' ->
                    localStorage s' = localStorage s /\ isLoggedIn s' = isLoggedIn s)
        \/ checkAuth (username s) (password s) = true).
Proof.
  split.
  - intros Hne.
    assert (Hc : checkAuth (username s) (password s) = false).
    { apply not_true_is_false. intros Hc. apply Hne, checkAuth_true_iff, Hc. }
    split; [exact Hc|]. rewrite (handleLogin_rejected s w Hc).
    eexists. split; [reflexivity|]. repeat split; reflexivity.
  - intros r w' Hrun. destruct (checkAuth (username s) (password s)) eqn:Hc.
    + right. reflexivity.
    + left. rewrite (handleLogin_rejected s w Hc) in Hrun.
      intros s' ->. injection Hrun as <- _. split; reflexivity.
Qed.

(** The user name "admin" with a wrong password, on a fresh panel. *)
Lemma handleLogin_wrong_password :
  exists s', handleLogin (setPassword (lit "himalayas")
                            (setUsername (lit "admin") initial_panel)) empty_world
             = (Returned s', empty_world)
             /\ isAuthenticated (localStorage s') = false
             /\ isLoggedIn s' = false.
Proof.
  destruct (proj1 (handleLogin_rejects_other_credentials
                     (setPassword (lit "himalayas")
                        (setUsername (lit "admin") initial_panel)) empty_world))
    as (_ & s' & Hrun & _ & Hauth & Hin).
  { intros H. vm_compute in H. discriminate H. }
  exists s'. split; [exact Hrun|]. rewrite Hauth, Hin. split; reflexivity.
Defined.

End AdminGate.

(** ** Destination navigation *)

Section Navigation.

Import App.

Lemma findIndex_bounds {A} (f : A -> bool) (l : list A) :
  (-1 <= findIndex f l < Z.of_nat (length l))%Z.
Proof.
  induction l as [|x l IH]; simpl; [lia|].
  destruct (f x); [lia|].
  destruct (findIndex f l <? 0)%Z eqn:E; [lia|].
  apply Z.ltb_ge in E. lia.
Qed.

(** An index [findIndex] returns holds the first element satisfying [f]. *)
Lemma findIndex_found {A} (f : A -> bool) (l : list A) (i : nat) :
  findIndex f l = Z.of_nat i ->
  exists x, l !! i = Some x /\ f x = true
            /\ forall j y, (j < i)%nat -> l !! j = Some y -> f y = false.
Proof.
  revert i. induction l as [|x l IH]; intros i; simpl; [lia|].
  destruct (f x) eqn:Ex.
  - intros Hi. assert (i = 0%nat) as -> by lia.
    exists x. repeat split; [assumption|]. intros j y Hj. lia.
  - destruct (findIndex f l <? 0)%Z eqn:E; [lia|].
    apply Z.ltb_ge in E. intros Hi.
    destruct i as [|i]; [lia|].
    destruct (IH i) as (y & Hy & Hfy & Hfirst); [lia|].
    exists y. repeat split; [assumption..|].
    intros [|j] z Hj Hz; simpl in Hz; [congruence|].
    apply (Hfirst j); [lia|assumption].
Qed.

(** With distinct ids, the selected destination is found where it stands. *)
Lemma currentIndex_position (ds : list destination_row) (sel : destination_row)
  (i : nat) :
  NoDup (List.map d_id ds) -> ds !! i = Some sel ->
  currentIndex ds sel = Z.of_nat i.
Proof.
  unfold currentIndex. revert i.
  induction ds as [|d ds IH]; intros i Hnd Hi; [discriminate|].
  simpl in Hnd. apply NoDup_cons in Hnd as [Hd Hnd]. simpl.
  destruct i as [|i]; simpl in Hi.
  - injection Hi as ->. now rewrite bool_decide_eq_true_2.
  - rewrite bool_decide_eq_false_2.
    + rewrite (IH i Hnd Hi).
      destruct (Z.of_nat i <? 0)%Z eqn:E; [apply Z.ltb_lt in E|]; lia.
    + intros Heq. apply Hd. rewrite Heq.
      apply list_elem_of_In, in_map, list_elem_of_In.
      apply list_elem_of_lookup. eauto.
Qed.

Lemma element_some {A} (l : list A) (k : Z) :
  (0 <= k)%Z -> element l (Some k) = l !! Z.to_nat k.
Proof. intros H. simpl. destruct (k <? 0)%Z eqn:E; [apply Z.ltb_lt in E; lia|reflexivity]. Qed.

(** The index computed is a number, and inside the list. *)
Lemma nextIndex_in_bounds (dir : direction) (ds : list destination_row)
  (sel : destination_row) :
  ds <> [] ->
  exists k, nextIndex dir ds sel = Some k
            /\ (0 <= k < Z.of_nat (length ds))%Z.
Proof.
  intros Hne. assert (Hlen : (0 < Z.of_nat (length ds))%Z)
    by (destruct ds; [congruence|simpl; lia]).
  pose proof (findIndex_bounds (fun a => bool_decide (d_id a = d_id sel)) ds) as Hb.
  fold (currentIndex ds sel) in Hb.
  unfold nextIndex, rem.
  destruct (Z.of_nat (length ds) =? 0)%Z eqn:E; [apply Z.eqb_eq in E; lia|].
  destruct dir; eexists; (split; [reflexivity|]).
  - apply Z.rem_bound_pos; lia.
  - destruct (Z.eq_dec (Z.of_nat (length ds)) 1%Z) as [H1|H1].
    + rewrite H1, Z.rem_1_r. lia.
    + apply Z.rem_bound_pos; lia.
Qed.

Lemma navigateDestination_run (dir : direction) (s : app) (sel : destination_row) :
  selectedDestination s = Some sel ->
  destinations s <> [] ->
  navigateDestination dir s
  = setSelectedDestination
      (element (destinations s) (nextIndex dir (destinations s) sel)) s.
Proof.
  intros Hsel Hne. unfold navigateDestination. rewrite Hsel.
  destruct (destinations s); [congruence|reflexivity].
Qed.

Lemma lookup_in_bounds {A} (l : list A) (k : Z) :
  (0 <= k < Z.of_nat (length l))%Z -> exists x, l !! Z.to_nat k = Some x.
Proof. intros H. apply lookup_lt_is_Some. lia. Qed.

(** C7. For a non-empty destination list of length n and a selected
    destination that the list holds at index i (where findIndex finds its
    id), "next" selects the destination at index (i + 1) mod n and "prev" the
    one at index (i - 1 + n) mod n; on three destinations "prev" from index 0
    selects index 2 and "next" from index 2 selects index 0. *)
Theorem navigateDestination_wraps (s : app) (sel : destination_row) (i : nat) :
  selectedDestination s = Some sel ->
  destinations s <> [] ->
  currentIndex (destinations s) sel = Z.of_nat i ->
  (exists d,
     destinations s
       !! Z.to_nat ((Z.of_nat i + 1) mod Z.of_nat (length (destinations s)))
     = Some d
     /\ navigateDestination next s = setSelectedDestination (Some d) s)
  /\ (exists d,
        destinations s
          !! Z.to_nat ((Z.of_nat i - 1 + Z.of_nat (length (destinations s)))
                       mod Z.of_nat (length (destinations s)))
        = Some d
        /\ navigateDestination prev s = setSelectedDestination (Some d) s)
  /\ (length (destinations s) = 3%nat -> i = 0%nat ->
      selectedDestination (navigateDestination prev s) = destinations s !! 2%nat)
  /\ (length (destinations s) = 3%nat -> i = 2%nat ->
      selectedDestination (navigateDestination next s) = destinations s !! 0%nat).
Proof.
  intros Hsel Hne Hci.
  assert (Hlen : (0 < Z.of_nat (length (destinations s)))%Z)
    by (destruct (destinations s); [congruence|simpl; lia]).
  pose proof (findIndex_bounds (fun a => bool_decide (d_id a = d_id sel))
                (destinations s)) as Hb.
  fold (currentIndex (destinations s) sel) in Hb. rewrite Hci in Hb.
  assert (Hnext : navigateDestination next s
                  = setSelectedDestination
                      (destinations s
                         !! Z.to_nat ((Z.of_nat i + 1)
                                      mod Z.of_nat (length (destinations s)))) s).
  { rewrite (navigateDestination_run next s sel Hsel Hne).
    unfold nextIndex, rem. rewrite Hci.
    destruct (Z.of_nat (length (destinations s)) =? 0)%Z eqn:E;
      [apply Z.eqb_eq in E; lia|].
    rewrite Z.rem_mod_nonneg by lia.
    rewrite element_some by (apply Z.mod_pos_bound; lia). reflexivity. }
  assert (Hprev : navigateDestination prev s
                  = setSelectedDestination
                      (destinations s
                         !! Z.to_nat ((Z.of_nat i - 1
                                       + Z.of_nat (length (destinations s)))
                                      mod Z.of_nat (length (destinations s)))) s).
  { rewrite (navigateDestination_run prev s sel Hsel Hne).
    unfold nextIndex, rem. rewrite Hci.
    destruct (Z.of_nat (length (destinations s)) =? 0)%Z eqn:E;
      [apply Z.eqb_eq in E; lia|].
    rewrite Z.rem_mod_nonneg by lia.
    rewrite element_some by (apply Z.mod_pos_bound; lia). reflexivity. }
  split; [|split; [|split]].
  - destruct (lookup_in_bounds (destinations s)
                ((Z.of_nat i + 1) mod Z.of_nat (length (destinations s))))
      as [d Hd]; [apply Z.mod_pos_bound; lia|].
    exists d. split; [exact Hd|]. now rewrite Hnext, Hd.
  - destruct (lookup_in_bounds (destinations s)
                ((Z.of_nat i - 1 + Z.of_nat (length (destinations s)))
                 mod Z.of_nat (length (destinations s))))
      as [d Hd]; [apply Z.mod_pos_bound; lia|].
    exists d. split; [exact Hd|]. now rewrite Hprev, Hd.
  - intros H3 ->. rewrite Hprev, H3. reflexivity.
  - intros H3 ->. rewrite Hnext, H3. reflexivity.
Qed.

(** Over Pangong Lake, Spiti Valley and Kedarnath: "prev" from the first
    selects the last, "next" from the last selects the first. *)
Lemma navigateDestination_on_three :
  selectedDestination (navigateDestination prev on_first) = Some kedarnath
  /\ selectedDestination (navigateDestination next on_last) = Some pangong.
Proof.
  split.
  - rewrite (proj1 (proj2 (proj2 (navigateDestination_wraps on_first pangong 0
                                    eq_refl ltac:(discriminate) eq_refl)))
               eq_refl eq_refl).
    reflexivity.
  - rewrite (proj2 (proj2 (proj2 (navigateDestination_wraps on_last kedarnath 2
                                    eq_refl ltac:(discriminate) eq_refl)))
               eq_refl eq_refl).
    reflexivity.
Defined.

(** C10. navigateDestination changes nothing when no destination is selected
    or the list is empty; otherwise the divisor of the wrap-around is not
    zero, the index computed is a number within the bounds of the list, and
    the destination at that index becomes the selected one. *)
Theorem navigateDestination_guarded (dir : direction) (s : app) :
  (selectedDestination s = None \/ destinations s = [] ->
   navigateDestination dir s = s)
  /\ (forall sel,
        selectedDestination s = Some sel ->
        destinations s <> [] ->
        Z.of_nat (length (destinations s)) <> 0%Z
        /\ exists k d,
             nextIndex dir (destinations s) sel = Some k
             /\ (0 <= k < Z.of_nat (length (destinations s)))%Z
             /\ destinations s !! Z.to_nat k = Some d
             /\ navigateDestination dir s = setSelectedDestination (Some d) s).
Proof.
  split.
  - unfold navigateDestination. intros [Hsel|Hds].
    + now rewrite Hsel.
    + rewrite Hds. simpl. now destruct (selectedDestination s).
  - intros sel Hsel Hne. split.
    + destruct (destinations s); [congruence|simpl; lia].
    + destruct (nextIndex_in_bounds dir (destinations s) sel Hne) as (k & Hk & Hb).
      destruct (lookup_in_bounds (destinations s) k Hb) as [d Hd].
      exists k, d. split; [exact Hk|]. split; [exact Hb|]. split; [exact Hd|].
      rewrite (navigateDestination_run dir s sel Hsel Hne), Hk.
      rewrite element_some by lia. now rewrite Hd.
Qed.

(** An empty list with a destination still selected: nothing changes; the
    first of three selected: "prev" computes index 2. *)
Lemma navigateDestination_guard_cases :
  navigateDestination prev unloaded = unloaded
  /\ exists k d, nextIndex prev (destinations on_first) pangong = Some k
                 /\ (0 <= k < 3)%Z
                 /\ destinations on_first !! Z.to_nat k = Some d
                 /\ navigateDestination prev on_first
                    = setSelectedDestination (Some d) on_first.
Proof.
  split.
  - apply (proj1 (navigateDestination_guarded prev unloaded)). right. reflexivity.
  - apply (proj2 (navigateDestination_guarded prev on_first) pangong eq_refl).
    discriminate.
Defined.

End Navigation.

(** * Further properties *)

(** ** The admin session *)

Section AdminSessionFacts.

Import AdminService AdminPanel AdminSession.

Lemma isAuthenticated_login ls : isAuthenticated (login ls) = true.
Proof. unfold isAuthenticated, login. apply bool_decide_eq_true_2, lookup_insert_eq. Qed.

Lemma isAuthenticated_logout ls : isAuthenticated (logout ls) = false.
Proof.
  unfold isAuthenticated, logout. apply bool_decide_eq_false_2.
  rewrite lookup_delete_eq. discriminate.
Qed.

(** X1. Whatever the browser's storage held, the admin flag reads true after
    login and false after logout, login after logout and logout after login
    included, and neither touches another key of the storage. *)
Theorem admin_flag_round_trip (ls : gmap jsstring jsstring) :
  isAuthenticated (login ls) = true
  /\ isAuthenticated (logout ls) = false
  /\ isAuthenticated (logout (login ls)) = false
  /\ isAuthenticated (login (logout ls)) = true
  /\ forall key, key <> AUTH_KEY ->
       login ls !! key = ls !! key /\ logout ls !! key = ls !! key.
Proof.
  split; [apply isAuthenticated_login|]. split; [apply isAuthenticated_logout|].
  split; [apply isAuthenticated_logout|]. split; [apply isAuthenticated_login|].
  intros key Hkey. unfold login, logout. split.
  - now apply lookup_insert_ne.
  - now apply lookup_delete_ne.
Qed.

(** X2. After a login with the admin credentials the session outlives a page
    reload: opening the panel again logs it in. After handleLogout the stored
    flag is gone, the credentials and the bookings are cleared from the
    state, and opening the panel after a reload leaves it logged out and
    sends no request. *)
Theorem admin_session_outlives_reload (s : panel) (w : world) :
  checkAuth (username s) (password s) = true ->
  exists s1 w1,
    handleLogin s w = (Returned s1, w1)
    /\ (exists s2 w2, onOpen (reloaded s1) w1 = (Returned s2, w2)
                      /\ isLoggedIn s2 = true)
    /\ isAuthenticated (localStorage (handleLogout s1)) = false
    /\ username (handleLogout s1) = [] /\ password (handleLogout s1) = []
    /\ bookings (handleLogout s1) = []
    /\ exists s3, onOpen (reloaded (handleLogout s1)) w1 = (Returned s3, w1)
                  /\ isLoggedIn s3 = false.
Proof.
  intros Hc. destruct (handleLogin_accepted s w Hc) as (s1 & w1 & Hrun & Hauth & _).
  exists s1, w1. split; [exact Hrun|]. split.
  - unfold onOpen, reloaded. simpl. rewrite Hauth.
    match goal with |- context [loadData ?s0 w1] =>
      destruct (loadData_run s0 w1) as (s2 & w2 & -> & _ & _ & _ & Hin & _) end.
    exists s2, w2. split; [reflexivity|]. rewrite Hin. reflexivity.
  - split; [apply isAuthenticated_logout|]. repeat (split; [reflexivity|]).
    unfold onOpen, reloaded. simpl. rewrite isAuthenticated_logout.
    eexists. split; reflexivity.
Qed.

(** The admin credentials typed into a fresh panel. *)
Lemma admin_session_on_fresh_panel :
  exists s1 w1,
    handleLogin (setPassword (lit "himalayas123")
                   (setUsername (lit "admin") initial_panel)) empty_world
    = (Returned s1, w1)
    /\ (exists s2 w2, onOpen (reloaded s1) w1 = (Returned s2, w2)
                      /\ isLoggedIn s2 = true)
    /\ exists s3, onOpen (reloaded (handleLogout s1)) w1 = (Returned s3, w1)
                  /\ isLoggedIn s3 = false.
Proof.
  destruct (admin_session_outlives_reload
              (setPassword (lit "himalayas123")
                 (setUsername (lit "admin") initial_panel)) empty_world)
    as (s1 & w1 & Hrun & Hopen & _ & _ & _ & _ & Hout); [vm_compute; reflexivity|].
  exists s1, w1. split; [exact Hrun|]. split; [exact Hopen|exact Hout].
Defined.

End AdminSessionFacts.

(** ** The lists of the admin panel *)

Section AdminLists.

Import AdminService DestinationService PackageService AdminPanel.

Lemma sorted_snoc {A} (R : A -> A -> Prop) (l : list A) (x : A) :
  StronglySorted R l -> Forall (fun y => R y x) l -> StronglySorted R (l ++ [x]).
Proof.
  induction 1 as [|y l Hl IH Hy]; intros Hx; simpl.
  - repeat constructor.
  - apply List.Forall_cons_iff in Hx as [Hyx Hx].
    constructor; [now apply IH|].
    apply List.Forall_app. split; [assumption|now constructor].
Qed.

Lemma order_by_newest_first {A} (key : A -> N) (l : list A) :
  Sorted (newest_first key) (rev (order_by key l)).
Proof.
  apply StronglySorted_Sorted.
  assert (H : StronglySorted (by_key key) (order_by key l)).
  { apply Sorted_StronglySorted; [|apply order_by_sorted].
    intros a b c. unfold by_key. lia. }
  induction H as [|x l' Hl IH Hx]; simpl; [constructor|].
  apply sorted_snoc; [exact IH|].
  apply List.Forall_forall. intros y Hy. apply in_rev in Hy.
  rewrite List.Forall_forall in Hx. apply Hx, Hy.
Qed.

Lemma fetchBookings_exact w :
  fetchBookings w
  = (Returned match answer w (length (journal w)) with
              | Succeeds => ordered br_created_at false (Backend.bookings w)
              | _ => []
              end,
     record_request (SelectOrdered t_bookings false) w).
Proof.
  unfold fetchBookings, try_catch, bind, bookings_select, call.
  destruct (answer w (length (journal w))); reflexivity.
Qed.

Lemma fetchUsers_exact w :
  fetchUsers w
  = (Returned match answer w (length (journal w)) with
              | Succeeds => ordered u_created_at false (profiles w)
              | _ => []
              end,
     record_request (SelectOrdered t_profiles false) w).
Proof.
  unfold fetchUsers, try_catch, bind, profiles_select, call.
  destruct (answer w (length (journal w))); reflexivity.
Qed.

(** X3. fetchBookings and fetchUsers never throw: when the backend performs
    the read they return the rows of the table newest first, and when it
    answers with an error (which fetchUsers rethrows and catches itself) or
    the call throws they return the empty list. *)
Theorem admin_fetches_newest_first_or_empty (w : world) :
  (answer w (length (journal w)) = Succeeds ->
   (exists bs, fst (fetchBookings w) = Returned bs
               /\ Sorted (newest_first br_created_at) bs
               /\ Permutation bs (Backend.bookings w))
   /\ (exists us, fst (fetchUsers w) = Returned us
                  /\ Sorted (newest_first u_created_at) us
                  /\ Permutation us (profiles w)))
  /\ (answer w (length (journal w)) <> Succeeds ->
      fst (fetchBookings w) = Returned [] /\ fst (fetchUsers w) = Returned []).
Proof.
  rewrite fetchBookings_exact, fetchUsers_exact. simpl. split.
  - intros ->. split; eexists; (split; [reflexivity|]);
      (split; [apply order_by_newest_first|]);
      unfold ordered; rewrite <- Permutation_rev; apply order_by_permutation.
  - intros H. destruct (answer w (length (journal w)));
      [congruence|split; reflexivity..].
Qed.

(** A backend that holds the two sample bookings, stored oldest first, and
    three profiles, stored out of order: both reads answer with every row,
    the newest first. Behind a backend that answers with an error, the same
    tables give two empty lists. *)
Lemma admin_fetches_on_sample_worlds :
  answer HandlerSamples.staffed_world
    (length (journal HandlerSamples.staffed_world)) = Succeeds
  /\ List.map br_id (Backend.bookings HandlerSamples.staffed_world)
     = [lit "b1"; lit "b2"]
  /\ List.map u_id (profiles HandlerSamples.staffed_world)
     = [lit "u2"; lit "u3"; lit "u1"]
  /\ (exists bs,
        fst (fetchBookings HandlerSamples.staffed_world) = Returned bs
        /\ Sorted (newest_first br_created_at) bs
        /\ Permutation bs (Backend.bookings HandlerSamples.staffed_world)
        /\ List.map br_id bs = [lit "b2"; lit "b1"])
  /\ (exists us,
        fst (fetchUsers HandlerSamples.staffed_world) = Returned us
        /\ Sorted (newest_first u_created_at) us
        /\ Permutation us (profiles HandlerSamples.staffed_world)
        /\ List.map u_id us = [lit "u3"; lit "u2"; lit "u1"])
  /\ answer HandlerSamples.refusing_world
       (length (journal HandlerSamples.refusing_world)) <> Succeeds
  /\ length (Backend.bookings HandlerSamples.refusing_world) = 2%nat
  /\ length (profiles HandlerSamples.refusing_world) = 3%nat
  /\ fst (fetchBookings HandlerSamples.refusing_world) = Returned []
  /\ fst (fetchUsers HandlerSamples.refusing_world) = Returned [].
Proof.
  split; [reflexivity|]. split; [reflexivity|]. split; [reflexivity|].
  destruct (proj1 (admin_fetches_newest_first_or_empty HandlerSamples.staffed_world)
              eq_refl)
    as [(bs & Hb & Hbs & Hbp) (us & Hu & Hus & Hup)].
  split.
  { exists bs. split; [exact Hb|]. split; [exact Hbs|]. split; [exact Hbp|].
    vm_compute in Hb. injection Hb as <-. reflexivity. }
  split.
  { exists us. split; [exact Hu|]. split; [exact Hus|]. split; [exact Hup|].
    vm_compute in Hu. injection Hu as <-. reflexivity. }
  split; [simpl; discriminate|]. split; [reflexivity|]. split; [reflexivity|].
  apply (proj2 (admin_fetches_newest_first_or_empty HandlerSamples.refusing_world)).
  simpl. discriminate.
Defined.

(** X4. loadData always returns, sends exactly its four reads, changes no
    table and leaves isLoading false. On a backend that performs every
    request the four lists of the panel are the tables in display order; on
    one that answers none, all four lists are emptied. *)
Theorem loadData_reads_only (s : panel) (w : world) :
  exists s' w',
    loadData s w = (Returned s', w')
    /\ journal w' = journal w ++ [SelectOrdered t_bookings false;
                                  SelectOrdered t_destinations true;
                                  SelectOrdered t_packages true;
                                  SelectOrdered t_profiles false]
    /\ (wishlist w' = wishlist w /\ Backend.bookings w' = Backend.bookings w
        /\ Backend.destinations w' = Backend.destinations w
        /\ Backend.packages w' = Backend.packages w
        /\ profiles w' = profiles w /\ clock w' = clock w)
    /\ isLoading s' = false
    /\ (reliable w ->
        bookings s' = rev (order_by br_created_at (Backend.bookings w))
        /\ destinations s' = order_by d_created_at (Backend.destinations w)
        /\ packages s' = order_by p_created_at (Backend.packages w)
        /\ users s' = rev (order_by u_created_at (profiles w)))
    /\ (unreachable w ->
        bookings s' = [] /\ destinations s' = [] /\ packages s' = []
        /\ users s' = []).
Proof.
  unfold loadData, bind.
  rewrite fetchBookings_exact, getDestinations_run, getPackages_run, fetchUsers_exact.
  eexists _, _. split; [reflexivity|]. simpl.
  split; [rewrite <- !app_assoc; reflexivity|].
  split; [repeat split; reflexivity|]. split; [reflexivity|]. split.
  - intros H. rewrite !H. repeat split; reflexivity.
  - intros H.
    repeat match goal with
           | |- context [answer w ?n] =>
               let E := fresh in
               destruct (answer w n) eqn:E; [exfalso; exact (H n E)| |]
           end; repeat split; reflexivity.
Qed.

(** The panel loaded from the sample catalog, and from the failing backend. *)
Lemma loadData_on_sample_worlds :
  (exists s' w', loadData initial_panel catalog_world = (Returned s', w')
                 /\ List.map d_id (destinations s') = [lit "d1"; lit "d2"; lit "d3"]
                 /\ List.map p_id (packages s') = [lit "p1"; lit "p2"])
  /\ exists s' w', loadData initial_panel failing_world = (Returned s', w')
                   /\ destinations s' = [] /\ packages s' = [].
Proof.
  split.
  - destruct (loadData_reads_only initial_panel catalog_world)
      as (s' & w' & Hrun & _ & _ & _ & Hok & _).
    exists s', w'. split; [exact Hrun|].
    destruct Hok as (_ & -> & -> & _); [intros n; reflexivity|].
    split; vm_compute; reflexivity.
  - destruct (loadData_reads_only initial_panel failing_world)
      as (s' & w' & Hrun & _ & _ & _ & _ & Hfail).
    exists s', w'. split; [exact Hrun|].
    destruct Hfail as (_ & -> & -> & _); [intros n; simpl; discriminate|].
    split; reflexivity.
Defined.

End AdminLists.

(** ** The wishlist as the views keep it *)

Section WishlistViews.

Import CustomerService Account UserDashboard.

(** X5. For a signed-in user, on a backend that performs every request and
    a table with at most one row for the pair: if the local set agreed with
    the backend about the package before handleWishlistToggle, it agrees
    after (the optimistic update and toggleWishlist flip together), and the
    other packages of the local set are untouched. With nobody signed in the
    handler opens the sign-in dialog, sends nothing and leaves the set. *)
Theorem handleWishlistToggle_keeps_agreement
  (pkgId : jsstring) (a : account) (w : world) :
  (forall u,
     user a = Some u ->
     reliable w ->
     (length (pair_rows (id u) pkgId w) <= 1)%nat ->
     (pkgId ∈ wishlistIds a <-> in_wishlist (id u) pkgId w = true) ->
     exists a' w',
       handleWishlistToggle pkgId a w = (Returned a', w')
       /\ (pkgId ∈ wishlistIds a' <-> in_wishlist (id u) pkgId w' = true)
       /\ (pkgId ∈ wishlistIds a' <-> pkgId ∉ wishlistIds a)
       /\ forall other, other <> pkgId ->
            (other ∈ wishlistIds a' <-> other ∈ wishlistIds a))
  /\ (user a = None ->
      handleWishlistToggle pkgId a w = (Returned (setIsAuthModalOpen true a), w)).
Proof.
  split.
  - intros u Hu Hrel Hset Hagree. unfold handleWishlistToggle, bind. rewrite Hu.
    rewrite (toggleWishlist_run (id u) pkgId w Hrel).
    rewrite in_wishlist_pair_rows in Hagree.
    destruct (pair_rows (id u) pkgId w) as [|row [|row' rows]] eqn:E.
    + eexists _, _. split; [reflexivity|]. simpl.
      assert (Hout : pkgId ∉ wishlistIds a) by (intros Hin; now apply Hagree in Hin).
      rewrite bool_decide_eq_false_2 by exact Hout.
      rewrite in_wishlist_pair_rows, pair_rows_after_insert, E. simpl.
      clear Hagree E Hset.
      split; [split; [reflexivity|intros _; apply elem_of_union_r, elem_of_singleton_2;
                                  reflexivity]|].
      split; [split; [intros _; exact Hout|intros _; apply elem_of_union_r,
                                            elem_of_singleton_2; reflexivity]|].
      intros other Hne. rewrite elem_of_union, elem_of_singleton. tauto.
    + eexists _, _. split; [reflexivity|]. simpl.
      assert (Hin : pkgId ∈ wishlistIds a) by now apply Hagree.
      rewrite bool_decide_eq_true_2 by exact Hin.
      rewrite in_wishlist_pair_rows, (pair_rows_after_delete _ _ _ _ E).
      clear Hagree E Hset.
      assert (Hgone : pkgId ∉ wishlistIds a ∖ {[pkgId]}).
      { rewrite elem_of_difference, elem_of_singleton. tauto. }
      split; [split; [intros H; now apply Hgone in H|discriminate]|].
      split; [split; [intros H; now apply Hgone in H|intros H; now apply H in Hin]|].
      intros other Hne. rewrite elem_of_difference, elem_of_singleton. tauto.
    + simpl in Hset. lia.
  - intros Hu. unfold handleWishlistToggle. rewrite Hu. reflexivity.
Qed.

(** A signed-in user with an empty local set, on an empty backend. *)
Lemma handleWishlistToggle_on_empty_world :
  exists a' w',
    handleWishlistToggle (lit "p1") sample_account empty_world = (Returned a', w')
    /\ (lit "p1" ∈ wishlistIds a'
        <-> in_wishlist (lit "u1") (lit "p1") w' = true)
    /\ (lit "p1" ∈ wishlistIds a' <-> lit "p1" ∉ wishlistIds sample_account).
Proof.
  destruct (proj1 (handleWishlistToggle_keeps_agreement (lit "p1") sample_account
                     empty_world) _ eq_refl)
    as (a' & w' & Hrun & Hagree & Hflip & _).
  - intros n. reflexivity.
  - simpl. lia.
  - simpl. split; [intros H; now apply not_elem_of_empty in H|discriminate].
  - exists a', w'. split; [exact Hrun|]. split; [exact Hagree|exact Hflip].
Defined.

(** X6. handleRemoveWishlist drops the package from the list shown, and on a
    backend that performs every request it deletes the row when the pair has
    exactly one; when the backend holds no row for the pair, the toggle it
    calls inserts one, so the package is in the backend's wishlist though
    the list no longer shows it. *)
Theorem handleRemoveWishlist_toggles
  (user pkgId : jsstring) (wishlist : list WishlistItem) (w : world) :
  reliable w ->
  exists shown w',
    handleRemoveWishlist user pkgId wishlist w = (Returned shown, w')
    /\ Forall (fun item => wi_package_id item <> pkgId) shown
    /\ sublist shown wishlist
    /\ (forall item, In item wishlist -> wi_package_id item <> pkgId -> In item shown)
    /\ (forall row, pair_rows user pkgId w = [row] ->
                    in_wishlist user pkgId w' = false)
    /\ (pair_rows user pkgId w = [] -> in_wishlist user pkgId w' = true).
Proof.
  intros Hrel. unfold handleRemoveWishlist, bind.
  rewrite (toggleWishlist_run user pkgId w Hrel).
  assert (Hshown : forall l : list WishlistItem,
            Forall (fun item => wi_package_id item <> pkgId)
              (List.filter (fun item => negb (bool_decide (wi_package_id item = pkgId))) l)).
  { intros l. apply List.Forall_forall. intros item Hin.
    apply filter_In in Hin as [_ Hne]. apply negb_true_iff in Hne.
    now apply bool_decide_eq_false_1 in Hne. }
  assert (Hkept : forall item, In item wishlist -> wi_package_id item <> pkgId ->
            In item (List.filter
                       (fun item => negb (bool_decide (wi_package_id item = pkgId)))
                       wishlist)).
  { intros item Hin Hne. apply filter_In. split; [exact Hin|].
    now rewrite bool_decide_eq_false_2. }
  destruct (pair_rows user pkgId w) as [|row [|row' rows]] eqn:E;
    eexists _, _; (split; [reflexivity|]); (split; [apply Hshown|]);
    (split; [apply filter_sublist|]); (split; [exact Hkept|]); split;
    try discriminate.
  - intros _. rewrite in_wishlist_pair_rows, pair_rows_after_insert, E. reflexivity.
  - intros row0 [= <-].
    now rewrite in_wishlist_pair_rows, (pair_rows_after_delete _ _ _ _ E).
Qed.

(** The package u1 wished is removed; on the empty backend it is added. *)
Lemma handleRemoveWishlist_on_sample_worlds :
  (exists shown w',
     handleRemoveWishlist (lit "u1") (lit "p1")
       [{| wi_id := lit "w1"; wi_package_id := lit "p1"; wi_package_data := None |}]
       wished_world = (Returned shown, w')
     /\ shown = [] /\ in_wishlist (lit "u1") (lit "p1") w' = false)
  /\ exists shown w',
       handleRemoveWishlist (lit "u1") (lit "p1") [] empty_world = (Returned shown, w')
       /\ in_wishlist (lit "u1") (lit "p1") w' = true.
Proof.
  split.
  - destruct (handleRemoveWishlist_toggles (lit "u1") (lit "p1")
                [{| wi_id := lit "w1"; wi_package_id := lit "p1";
                    wi_package_data := None |}] wished_world)
      as (shown & w' & Hrun & Hall & Hsub & _ & Hdel & _); [intros n; reflexivity|].
    exists shown, w'. split; [exact Hrun|]. split.
    + destruct shown as [|item rest]; [reflexivity|].
      apply sublist_cons_l in Hsub as (k1 & k2 & Hk & _).
      destruct k1 as [|? [|? ?]]; try discriminate Hk. simpl in Hk.
      injection Hk as <- _. apply List.Forall_cons_iff in Hall as [Hne _].
      now contradiction Hne.
    + apply (Hdel (new_row (lit "u1") (lit "p1") empty_world)). reflexivity.
  - destruct (handleRemoveWishlist_toggles (lit "u1") (lit "p1") [] empty_world)
      as (shown & w' & Hrun & _ & _ & _ & _ & Hins); [intros n; reflexivity|].
    exists shown, w'. split; [exact Hrun|]. apply Hins. reflexivity.
Defined.

End WishlistViews.

(** ** Searching the bookings *)

Section BookingSearch.

Import AdminSession.

Lemma startsWith_prefix (s t : jsstring) :
  startsWith s t = true <-> exists b, s = t ++ b.
Proof.
  revert s. induction t as [|c t IH]; intros s.
  - split; [intros _; now exists s|intros _; now destruct s].
  - destruct s as [|d s]; simpl;
      [split; [discriminate|intros [b Hb]; discriminate Hb]|].
    rewrite andb_true_iff, N.eqb_eq, IH. split.
    + intros [-> [b ->]]. now exists b.
    + intros [b [= -> ->]]. split; [reflexivity|now exists b].
Qed.

(** [includes] finds exactly the occurrences. *)
Lemma includes_occurs (s t : jsstring) : includes s t = true <-> occurs t s.
Proof.
  unfold occurs. induction s as [|d s IH].
  - change (includes [] t) with (startsWith [] t || false).
    rewrite orb_false_r, startsWith_prefix. split.
    + intros [b Hb]. now exists [], b.
    + intros (a & b & H). destruct a; [now exists b|discriminate H].
  - change (includes (d :: s) t) with (startsWith (d :: s) t || includes s t).
    rewrite orb_true_iff, startsWith_prefix, IH. split.
    + intros [[b Hb]|(a & b & ->)]; [now exists [], b|now exists (d :: a), b].
    + intros (a & b & H). destruct a as [|d' a]; [left; now exists b|].
      right. injection H as -> ->. now exists a, b.
Qed.

(** X7. The bookings tab lists, in their order, exactly the bookings whose
    lower-cased name or lower-cased package holds the lower-cased search term
    as a substring; a search term whose lower-casing is empty lists every
    booking. *)
Theorem filteredBookings_matches_name_or_package
  (toLowerCase : jsstring -> jsstring) (searchTerm : jsstring)
  (bookings : list booking_row) :
  sublist (filteredBookings toLowerCase searchTerm bookings) bookings
  /\ (forall b,
        In b (filteredBookings toLowerCase searchTerm bookings)
        <-> In b bookings
            /\ (occurs (toLowerCase searchTerm) (toLowerCase (bk_name (br_fields b)))
                \/ occurs (toLowerCase searchTerm)
                     (toLowerCase (bk_package (br_fields b)))))
  /\ (toLowerCase searchTerm = [] ->
      filteredBookings toLowerCase searchTerm bookings = bookings).
Proof.
  unfold filteredBookings. split; [apply filter_sublist|]. split.
  - intros b. rewrite filter_In, orb_true_iff, !includes_occurs. reflexivity.
  - intros ->. induction bookings as [|b bs IH]; simpl; [reflexivity|].
    assert (H : forall s, includes s [] = true) by (intros s; now destruct s).
    rewrite H. simpl. now rewrite IH.
Qed.

(** Searching the two sample bookings for "MANA" finds both (one by name,
    one by package), and the empty term lists both. *)
Lemma filteredBookings_on_sample :
  List.map br_id (filteredBookings asciiToLowerCase (lit "MANA") sample_bookings)
  = [lit "b1"; lit "b2"]
  /\ filteredBookings asciiToLowerCase [] sample_bookings = sample_bookings.
Proof.
  split; [vm_compute; reflexivity|].
  apply (proj2 (proj2 (filteredBookings_matches_name_or_package asciiToLowerCase []
                         sample_bookings))).
  reflexivity.
Defined.

End BookingSearch.

(** ** The package grid *)

Section PackageGrid.

Import Account.

(** X8. The package cards drawn are the first visiblePackages packages, and
    the "View More Packages" button is drawn exactly when some package is not
    drawn; a click draws at most three more, and after k clicks from the
    initial state the first 3 + 3k packages (all of them if fewer) are
    drawn. *)
Theorem view_more_shown_iff_package_hidden
  (visiblePackages : nat) (packages : list package_row) :
  (exists hidden, packages = shownPackages visiblePackages packages ++ hidden
                  /\ (showsViewMore visiblePackages packages = true <-> hidden <> []))
  /\ length (shownPackages visiblePackages packages)
     = Nat.min visiblePackages (length packages)
  /\ (length (shownPackages (viewMore visiblePackages) packages)
      <= length (shownPackages visiblePackages packages) + 3)%nat
  /\ forall k,
       length (shownPackages (Nat.iter k viewMore initialVisiblePackages) packages)
       = Nat.min (3 + 3 * k) (length packages).
Proof.
  unfold shownPackages, showsViewMore, viewMore, initialVisiblePackages, slice0.
  split; [|split; [|split]].
  - exists (skipn visiblePackages packages). split; [now rewrite firstn_skipn|].
    rewrite Nat.ltb_lt. split.
    + intros Hlt Hnil. apply (f_equal (@length _)) in Hnil.
      rewrite length_skipn in Hnil. simpl in Hnil. lia.
    + intros Hne. destruct (Nat.lt_ge_cases visiblePackages (length packages))
        as [Hlt|Hge]; [exact Hlt|].
      exfalso. apply Hne. now apply skipn_all2.
  - apply length_firstn.
  - rewrite !length_firstn. lia.
  - intros k. rewrite length_firstn. f_equal.
    induction k as [|k IH]; simpl; [reflexivity|]. rewrite IH. lia.
Qed.

End PackageGrid.

(** ** Updating a package *)

Section PackageUpdate.

Import PackageService.

Lemma lookup_map {A B} (f : A -> B) (l : list A) (k : nat) :
  List.map f l !! k = f <$> l !! k.
Proof.
  revert k. induction l as [|x l IH]; intros [|k]; simpl; try reflexivity. apply IH.
Qed.

Lemma map_update_ids (i : jsstring) (payload : package_payload)
  (rows : list package_row) :
  let updated := List.map (fun r => if bool_decide (p_id r = i)
                                    then update_package payload r else r) rows in
  List.map p_id updated = List.map p_id rows
  /\ List.map p_created_at updated = List.map p_created_at rows.
Proof.
  induction rows as [|r rows [IH1 IH2]]; simpl; [split; reflexivity|].
  split; f_equal; try assumption; destruct (bool_decide (p_id r = i)); reflexivity.
Qed.

(** X9. savePackage with an id, when the backend performs the update, sends
    one update request and returns true; the table keeps its rows, their ids
    and creation times, in place; every row with that id takes the submitted
    name, price, color and features, every other row is unchanged. When no
    row has the id, savePackage still returns true and the table is as it
    was. *)
Theorem savePackage_updates_in_place
  (pkg : PackageInput) (i : jsstring) (w : world) :
  id pkg = Some i -> truthy i = true ->
  answer w (length (journal w)) = Succeeds ->
  exists w',
    savePackage pkg w = (Returned true, w')
    /\ journal w' = journal w ++ [UpdatePackage i (payload_of pkg)]
    /\ List.map p_id (packages w') = List.map p_id (packages w)
    /\ List.map p_created_at (packages w') = List.map p_created_at (packages w)
    /\ (forall k r, packages w !! k = Some r ->
          exists r', packages w' !! k = Some r'
                     /\ if bool_decide (p_id r = i)
                        then p_name r' = name pkg /\ p_price r' = price pkg
                             /\ p_color r' = theme pkg
                             /\ p_features r' = features pkg
                        else r' = r)
    /\ ((forall r, In r (packages w) -> p_id r <> i) -> packages w' = packages w).
Proof.
  intros Hid Hi Hok. unfold savePackage, try_catch, bind. rewrite Hid, Hi.
  unfold packages_update, call. rewrite Hok. simpl.
  eexists. split; [reflexivity|]. simpl. split; [reflexivity|].
  split; [apply map_update_ids|]. split; [apply map_update_ids|]. split.
  - intros k r Hk. rewrite lookup_map, Hk. simpl. eexists. split; [reflexivity|].
    destruct (bool_decide (p_id r = i)); [repeat split; reflexivity|reflexivity].
  - intros Hnone. induction (packages w) as [|r rows IH]; simpl; [reflexivity|].
    rewrite bool_decide_eq_false_2 by (apply Hnone; now left).
    f_equal. apply IH. intros r' Hr'. apply Hnone. now right.
Qed.

End PackageUpdate.

(** ** Writes of the admin services *)

Section AdminWritesFacts.

Import AdminWrites DestinationWrites PackageWrites.

Lemma in_map_update {A} (p : A -> bool) (f : A -> A) (l : list A) (k : nat) (a : A) :
  l !! k = Some a ->
  List.map (fun a => if p a then f a else a) l !! k
  = Some (if p a then f a else a).
Proof. intros H. now rewrite lookup_map, H. Qed.

(** X10. updateBookingStatus, when the backend performs the update, returns
    true and changes nothing but the status of the rows with that id: the
    table keeps its length and row order, every row keeps its id, creation
    time and other fields, and whatever the status was it becomes the new
    one (no transition is refused). When the backend refuses or the call
    throws it returns false and the tables are as they were. *)
Theorem updateBookingStatus_sets_status_only
  (id : jsstring) (status : booking_status) (x : site) :
  (reply x (length (sent x)) = Succeeds ->
   exists x',
     updateBookingStatus id status x = (Returned true, x')
     /\ sent x' = sent x ++ [UpdateBookingStatus id status]
     /\ length (bookings (db x')) = length (bookings (db x))
     /\ forall k b, bookings (db x) !! k = Some b ->
          exists b', bookings (db x') !! k = Some b'
                     /\ with_status (bk_status (br_fields b')) b = b'
                     /\ bk_status (br_fields b')
                        = if bool_decide (br_id b = id) then status
                          else bk_status (br_fields b))
  /\ (reply x (length (sent x)) <> Succeeds ->
      exists x', updateBookingStatus id status x = (Returned false, x')
                 /\ db x' = db x).
Proof.
  unfold updateBookingStatus, stry, sbind, bookings_update_status, send. split.
  - intros ->. simpl. eexists. split; [reflexivity|]. simpl.
    split; [reflexivity|]. split; [apply length_map|].
    intros k b Hk. rewrite (in_map_update _ _ _ _ _ Hk).
    eexists. split; [reflexivity|].
    destruct (bool_decide (br_id b = id)); [split; reflexivity|].
    split; [|reflexivity]. destruct b as [i c []]. reflexivity.
  - intros H. destruct (reply x (length (sent x))); [congruence| |];
      simpl; eexists; split; reflexivity.
Qed.

(** The second sample booking, confirmed, set back to pending. *)
Lemma updateBookingStatus_on_sample :
  exists x',
    updateBookingStatus (lit "b2") pending
      (site_over (set_bookings AdminSession.sample_bookings empty_world))
    = (Returned true, x')
    /\ List.map (fun b => bk_status (br_fields b)) (bookings (db x'))
       = [pending; pending].
Proof.
  destruct (proj1 (updateBookingStatus_sets_status_only (lit "b2") pending
                     (site_over (set_bookings AdminSession.sample_bookings
                                   empty_world))) eq_refl)
    as (x' & Hrun & _ & _ & _).
  exists x'. split; [exact Hrun|].
  vm_compute in Hrun. injection Hrun as <-. vm_compute. reflexivity.
Defined.

(** X11. deleteBooking, deleteDestination and deletePackage: when the
    backend performs the delete each returns true and its table loses
    exactly the rows with that id, the others staying in order; this is so
    also when no row has the id: true is returned and the table is as it
    was. When the backend refuses or the call throws each returns false and
    the tables are as they were. *)
Theorem delete_services_remove_by_id (id : jsstring) (x : site) :
  (reply x (length (sent x)) = Succeeds ->
   (exists x', deleteBooking id x = (Returned true, x')
               /\ bookings (db x')
                  = List.filter (fun b => negb (bool_decide (br_id b = id)))
                                (bookings (db x))
               /\ ((forall b, In b (bookings (db x)) -> br_id b <> id) ->
                   bookings (db x') = bookings (db x)))
   /\ (exists x', deleteDestination id x = (Returned true, x')
                  /\ destinations (db x')
                     = List.filter (fun d => negb (bool_decide (d_id d = id)))
                                   (destinations (db x))
                  /\ ((forall d, In d (destinations (db x)) -> d_id d <> id) ->
                      destinations (db x') = destinations (db x)))
   /\ (exists x', deletePackage id x = (Returned true, x')
                  /\ packages (db x')
                     = List.filter (fun p => negb (bool_decide (p_id p = id)))
                                   (packages (db x))
                  /\ ((forall p, In p (packages (db x)) -> p_id p <> id) ->
                      packages (db x') = packages (db x))))
  /\ (reply x (length (sent x)) <> Succeeds ->
      (exists x', deleteBooking id x = (Returned false, x') /\ db x' = db x)
      /\ (exists x', deleteDestination id x = (Returned false, x') /\ db x' = db x)
      /\ (exists x', deletePackage id x = (Returned false, x') /\ db x' = db x)).
Proof.
  assert (Hkeep : forall {A} (f : A -> jsstring) (l : list A),
            (forall a, In a l -> f a <> id) ->
            List.filter (fun a => negb (bool_decide (f a = id))) l = l).
  { intros A f l. induction l as [|a l IH]; intros H; simpl; [reflexivity|].
    rewrite bool_decide_eq_false_2 by (apply H; now left). simpl.
    f_equal. apply IH. intros b Hb. apply H. now right. }
  unfold deleteBooking, deleteDestination, deletePackage, stry, sbind,
    bookings_delete, destinations_delete, packages_delete, send. split.
  - intros ->. simpl.
    repeat split; eexists; (split; [reflexivity|]); simpl;
      (split; [reflexivity|apply Hkeep]).
  - intros H. destruct (reply x (length (sent x))); [congruence| |];
      simpl; repeat split; eexists; split; reflexivity.
Qed.

(** Deleting the first sample booking; deleting on a refusing backend. *)
Lemma delete_services_on_sample :
  (exists x',
     deleteBooking (lit "b1")
       (site_over (set_bookings AdminSession.sample_bookings empty_world))
     = (Returned true, x')
     /\ List.map br_id (bookings (db x')) = [lit "b2"])
  /\ exists x',
       deletePackage (lit "p1") (refusing (site_over catalog_world))
       = (Returned false, x')
       /\ db x' = catalog_world.
Proof.
  split.
  - destruct (proj1 (delete_services_remove_by_id (lit "b1")
                       (site_over (set_bookings AdminSession.sample_bookings
                                     empty_world))) eq_refl)
      as [(x' & Hrun & Hrows & _) _].
    exists x'. split; [exact Hrun|]. rewrite Hrows. vm_compute. reflexivity.
  - destruct (proj2 (delete_services_remove_by_id (lit "p1")
                       (refusing (site_over catalog_world))))
      as (_ & _ & x' & Hrun & Hdb); [simpl; discriminate|].
    exists x'. split; [exact Hrun|exact Hdb].
Defined.

End AdminWritesFacts.

(** ** Reads of the customer services *)

Section CustomerReadsFacts.

Import AdminService CustomerService UserDashboard CustomerReads.

Lemma lift_run {A} (m : M A) (x : site) (r : result A) (w' : world) :
  m (db x) = (r, w') -> lift m x = (r, set_db w' x).
Proof. intros H. unfold lift. now rewrite H. Qed.

Lemma in_order_by {A} (key : A -> N) (l : list A) (a : A) :
  In a (order_by key l) <-> In a l.
Proof.
  split; apply Permutation_in;
    [apply order_by_permutation|symmetry; apply order_by_permutation].
Qed.

Lemma getUserBookings_run (u : jsstring) (x : site) :
  getUserBookings u x
  = (Returned match reply x (length (sent x)) with
              | Succeeds =>
                  rev (order_by br_created_at
                         (List.filter
                            (fun b => bool_decide (bk_user_id (br_fields b) = Some u))
                            (bookings (db x))))
              | _ => []
              end,
     record_op (SelectUserBookings u) x).
Proof.
  unfold getUserBookings, stry, sbind, bookings_of_user, send.
  destruct (reply x (length (sent x))); reflexivity.
Qed.

(** X12. getUserBookings never throws: when the backend performs the read it
    returns, newest first, exactly the bookings whose user_id is the given
    user, so no booking of another user and no anonymous booking; otherwise
    it returns the empty list. *)
Theorem getUserBookings_own_newest_first (u : jsstring) (x : site) :
  (reply x (length (sent x)) = Succeeds ->
   exists history,
     fst (getUserBookings u x) = Returned history
     /\ Sorted (newest_first br_created_at) history
     /\ forall b, In b history
                  <-> In b (bookings (db x)) /\ bk_user_id (br_fields b) = Some u)
  /\ (reply x (length (sent x)) <> Succeeds ->
      fst (getUserBookings u x) = Returned []).
Proof.
  rewrite getUserBookings_run. simpl. split.
  - intros ->. eexists. split; [reflexivity|].
    split; [apply order_by_newest_first|]. intros b.
    rewrite <- in_rev, in_order_by, filter_In, bool_decide_eq_true. reflexivity.
  - intros H. destruct (reply x (length (sent x))); [congruence|reflexivity..].
Qed.

(** Of the two sample bookings only b2 belongs to u7. *)
Lemma getUserBookings_on_sample :
  exists history,
    fst (getUserBookings (lit "u7")
           (site_over (set_bookings AdminSession.sample_bookings empty_world)))
    = Returned history
    /\ List.map br_id history = [lit "b2"].
Proof.
  destruct (proj1 (getUserBookings_own_newest_first (lit "u7")
                     (site_over (set_bookings AdminSession.sample_bookings
                                   empty_world))) eq_refl)
    as (history & Hrun & _ & _).
  exists history. split; [exact Hrun|].
  vm_compute in Hrun. injection Hrun as <-. reflexivity.
Defined.

(** X13. On a backend that performs every request, a booking made by
    createBooking is stored pending and is found by getUserBookings of a user
    exactly when createBooking was given that user's non-empty id; a booking
    made without a user id is in nobody's history. The older bookings are in
    the history as before. *)
Theorem booking_reaches_its_user_history
  (data : BookingData) (userId : option jsstring) (u : jsstring) (x : site) :
  dependable x ->
  exists row x1 history x2,
    lift (createBooking data userId) x = (Returned true, x1)
    /\ bookings (db x1) = bookings (db x) ++ [row]
    /\ bk_status (br_fields row) = pending
    /\ getUserBookings u x1 = (Returned history, x2)
    /\ (In row history <-> userId = Some u /\ u <> [])
    /\ forall b, In b (bookings (db x)) ->
         (In b history <-> bk_user_id (br_fields b) = Some u).
Proof.
  intros [Hdb Hreply].
  assert (Hcreate : createBooking data userId (db x)
                    = (Returned true,
                       tick (set_bookings
                               (bookings (db x)
                                ++ [{| br_id := gen_id (clock (db x));
                                       br_created_at := clock (db x);
                                       br_fields := booking_payload_of data userId |}])
                               (record_request
                                  (InsertBooking (booking_payload_of data userId))
                                  (db x))))).
  { unfold createBooking, try_catch, bind.
    now rewrite (bookings_insert_run _ (db x) (Hdb _)). }
  eexists _, _, _, _. split; [apply (lift_run _ _ _ _ Hcreate)|]. simpl.
  split; [reflexivity|]. split; [apply booking_payload_status|].
  split; [rewrite getUserBookings_run; simpl; rewrite Hreply; reflexivity|].
  assert (Hin : forall b,
            In b (rev (order_by br_created_at
                         (List.filter
                            (fun b => bool_decide (bk_user_id (br_fields b) = Some u))
                            (bookings (db x)
                             ++ [{| br_id := gen_id (clock (db x));
                                    br_created_at := clock (db x);
                                    br_fields := booking_payload_of data userId |}]))))
            <-> In b (bookings (db x)
                      ++ [{| br_id := gen_id (clock (db x));
                             br_created_at := clock (db x);
                             br_fields := booking_payload_of data userId |}])
                /\ bk_user_id (br_fields b) = Some u).
  { intros b. rewrite <- in_rev, in_order_by, filter_In, bool_decide_eq_true.
    reflexivity. }
  split.
  - rewrite Hin. simpl. rewrite in_app_iff. simpl.
    unfold booking_payload_of. destruct userId as [v|]; simpl.
    + destruct v as [|c v]; simpl.
      * split; [intros [_ H]; discriminate H|intros [[= <-] H]; now contradiction H].
      * split; [intros [_ [= <-]]; split; [reflexivity|discriminate]|].
        intros [[= <-] _]. split; [right; now left|reflexivity].
    + split; [intros [_ H]; discriminate H|intros [H _]; discriminate H].
  - intros b Hb. rewrite Hin, in_app_iff. tauto.
Qed.

(** A booking made for u7 on an empty backend is the history of u7. *)
Lemma booking_history_on_empty_world :
  exists row x1 history x2,
    lift (createBooking {| name := lit "Asha"; phone := lit "98100"; travelers := 2;
                           date := lit "2026-05-01";
                           package := lit "Manali Escape"; notes := [] |}
            (Some (lit "u7"))) (site_over empty_world)
    = (Returned true, x1)
    /\ getUserBookings (lit "u7") x1 = (Returned history, x2)
    /\ history = [row].
Proof.
  destruct (booking_reaches_its_user_history
              {| name := lit "Asha"; phone := lit "98100"; travelers := 2;
                 date := lit "2026-05-01"; package := lit "Manali Escape";
                 notes := [] |} (Some (lit "u7")) (lit "u7") (site_over empty_world))
    as (row & x1 & history & x2 & Hrun & Hrows & _ & Hget & _ & _).
  { split; intros n; reflexivity. }
  exists row, x1, history, x2. split; [exact Hrun|]. split; [exact Hget|].
  vm_compute in Hrun. injection Hrun as <-.
  vm_compute in Hrows. injection Hrows as <-.
  vm_compute in Hget. injection Hget as <- _. reflexivity.
Defined.

Lemma getWishlist_run (u : jsstring) (x : site) :
  getWishlist u x
  = (Returned match reply x (length (sent x)) with
              | Succeeds =>
                  List.map item_of
                    (List.map (join_package (db x))
                       (List.filter (fun r => bool_decide (wl_user_id r = u))
                                    (wishlist (db x))))
              | _ => []
              end,
     record_op (SelectUserWishlist u) x).
Proof.
  unfold getWishlist, stry, sbind, wishlist_of_user, send.
  destruct (reply x (length (sent x))); reflexivity.
Qed.

Lemma listed_iff_in_wishlist (u p : jsstring) (w : world) :
  In p (List.map wi_package_id
          (List.map item_of
             (List.map (join_package w)
                (List.filter (fun r => bool_decide (wl_user_id r = u)) (wishlist w)))))
  <-> in_wishlist u p w = true.
Proof.
  rewrite !List.map_map. simpl. unfold in_wishlist, wishlist_matches.
  rewrite in_map_iff, existsb_exists. split.
  - intros (r & <- & Hr). apply filter_In in Hr as [Hin Hu].
    exists r. split; [exact Hin|]. rewrite Hu. now apply bool_decide_eq_true_2.
  - intros (r & Hin & Hm). apply andb_true_iff in Hm as [Hu Hp].
    apply bool_decide_eq_true_1 in Hp. exists r. split; [exact Hp|].
    apply filter_In. split; assumption.
Qed.

(** X14. getWishlist never throws: when the backend performs the read it
    lists a package id exactly when the user has a wishlist row for it, and
    the package joined to an item is the stored package with that id, or
    null when no package has it; otherwise it returns the empty list. *)
Theorem getWishlist_lists_memberships (u : jsstring) (x : site) :
  (reply x (length (sent x)) = Succeeds ->
   exists items,
     fst (getWishlist u x) = Returned items
     /\ (forall p, In p (List.map wi_package_id items)
                   <-> in_wishlist u p (db x) = true)
     /\ forall item, In item items ->
          match wi_package_data item with
          | Some pkg => p_id pkg = wi_package_id item /\ In pkg (packages (db x))
          | None => forall pkg, In pkg (packages (db x)) ->
                                p_id pkg <> wi_package_id item
          end)
  /\ (reply x (length (sent x)) <> Succeeds -> fst (getWishlist u x) = Returned []).
Proof.
  rewrite getWishlist_run. simpl. split.
  - intros ->. eexists. split; [reflexivity|].
    split; [intros p; apply listed_iff_in_wishlist|].
    intros item Hitem. apply in_map_iff in Hitem as (j & <- & Hj).
    apply in_map_iff in Hj as (r & <- & _). simpl.
    destruct (List.find _ (packages (db x))) as [pkg|] eqn:E.
    + apply find_some in E as [Hin Hid]. now apply bool_decide_eq_true_1 in Hid.
    + intros pkg Hin. apply (find_none _ _ E) in Hin.
      now apply bool_decide_eq_false_1 in Hin.
  - intros H. destruct (reply x (length (sent x))); [congruence|reflexivity..].
Qed.

(** The wishlist of u1 holds p1, which no stored package matches. *)
Lemma getWishlist_on_wished_world :
  exists items,
    fst (getWishlist (lit "u1") (site_over wished_world)) = Returned items
    /\ List.map wi_package_id items = [lit "p1"]
    /\ List.map wi_package_data items = [None].
Proof.
  destruct (proj1 (getWishlist_lists_memberships (lit "u1") (site_over wished_world))
              eq_refl) as (items & Hrun & _ & _).
  exists items. split; [exact Hrun|].
  vm_compute in Hrun. injection Hrun as <-. split; reflexivity.
Defined.

(** X15. On a backend that performs every request, after toggleWishlist the
    package is listed by getWishlist exactly when toggleWishlist returned
    true. *)
Theorem toggled_package_is_listed (u p : jsstring) (x : site) :
  dependable x ->
  exists b x1 items x2,
    lift (toggleWishlist u p) x = (Returned b, x1)
    /\ getWishlist u x1 = (Returned items, x2)
    /\ (b = true <-> In p (List.map wi_package_id items)).
Proof.
  intros [Hdb Hreply].
  destruct (toggleWishlist_returns_membership u p (db x) Hdb)
    as (b & w' & Hrun & _ & Hb).
  eexists _, _, _, _. split; [apply (lift_run _ _ _ _ Hrun)|].
  split; [rewrite getWishlist_run; simpl; rewrite Hreply; reflexivity|].
  simpl. rewrite listed_iff_in_wishlist, Hb. reflexivity.
Qed.

(** Toggling p1 for u1 on an empty backend lists it. *)
Lemma toggled_package_on_empty_world :
  exists x1 items x2,
    lift (toggleWishlist (lit "u1") (lit "p1")) (site_over empty_world)
    = (Returned true, x1)
    /\ getWishlist (lit "u1") x1 = (Returned items, x2)
    /\ In (lit "p1") (List.map wi_package_id items).
Proof.
  destruct (toggled_package_is_listed (lit "u1") (lit "p1") (site_over empty_world))
    as (b & x1 & items & x2 & Hrun & Hget & Hb).
  { split; intros n; reflexivity. }
  assert (b = true) as ->.
  { vm_compute in Hrun. now injection Hrun as -> _. }
  exists x1, items, x2. split; [exact Hrun|]. split; [exact Hget|].
  now apply Hb.
Defined.

End CustomerReadsFacts.

(** ** Saving a destination *)

Section DestinationSave.

Import DestinationWrites DestinationRequests.

Lemma join_snoc (sep : N) (l : list jsstring) (piece : jsstring) :
  join sep (l ++ [piece])
  = match l with [] => piece | _ => join sep l ++ sep :: piece end.
Proof.
  induction l as [|a l IH]; [reflexivity|].
  destruct l as [|b l]; [reflexivity|].
  change (join sep ((a :: b :: l) ++ [piece]))
    with (a ++ sep :: join sep ((b :: l) ++ [piece])).
  rewrite IH.
  change (join sep (a :: b :: l)) with (a ++ sep :: join sep (b :: l)).
  now rewrite <- app_assoc.
Qed.

(** The extension is what follows the last dot of the name, the whole name
    when it has no dot. *)
Lemma fileExt_after_last_dot (file : File) :
  ~ In 46%N (fileExt file)
  /\ (file_name file = fileExt file
      \/ exists stem, file_name file = stem ++ 46%N :: fileExt file).
Proof.
  unfold fileExt.
  pose proof (split_pieces 46 (file_name file)) as Hpieces.
  pose proof (join_split 46 (file_name file)) as Hjoin.
  pose proof (split_nonempty 46 (file_name file)) as Hne.
  destruct (split 46 (file_name file)) as [|a l] eqn:E; [congruence|]. clear Hne.
  rewrite (app_removelast_last [] (l := a :: l)) in Hjoin, Hpieces by discriminate.
  split.
  - apply List.Forall_app in Hpieces as [_ Hlast].
    now apply List.Forall_cons_iff in Hlast as [Hlast _].
  - rewrite join_snoc in Hjoin.
    destruct (removelast (a :: l)); [now left|right]. eauto.
Qed.

Lemma uploadDestinationImage_run (file : File) (x : site) :
  uploadDestinationImage file x
  = match reply x (length (sent x)) with
    | Succeeds =>
        if taken x (filePath x file)
        then (Returned None, record_op (UploadImage (filePath x file) file) x)
        else (Returned (Some (public_base x ++ filePath x file)),
              set_bucket (bucket x ++ [(filePath x file, file)])
                (record_op (UploadImage (filePath x file) file) x))
    | _ => (Returned None, record_op (UploadImage (filePath x file) file) x)
    end.
Proof.
  unfold uploadDestinationImage, stry, sbind, storage_upload, send, taken.
  destruct (reply x (length (sent x))); simpl; try reflexivity.
  destruct (existsb _ (bucket x)); reflexivity.
Qed.

(** X16. uploadDestinationImage never throws. It sends one upload, to the
    path "public/" + stamp + "." + extension, where the extension is the
    part of the file name after its last dot (the whole name when there is
    no dot). When the upload is performed and the path is free, the file is
    stored there and the public URL of that path is returned; otherwise null
    is returned and the bucket is as it was. *)
Theorem uploadDestinationImage_path_and_url (file : File) (x : site) :
  exists r x',
    uploadDestinationImage file x = (Returned r, x')
    /\ sent x' = sent x ++ [UploadImage (filePath x file) file]
    /\ db x' = db x
    /\ filePath x file
       = lit "public/" ++ stamp x (length (sent x)) ++ lit "." ++ fileExt file
    /\ ~ In 46%N (fileExt file)
    /\ (file_name file = fileExt file
        \/ exists stem, file_name file = stem ++ 46%N :: fileExt file)
    /\ if performs (reply x (length (sent x))) && negb (taken x (filePath x file))
       then r = Some (getPublicUrl x (filePath x file))
            /\ bucket x' = bucket x ++ [(filePath x file, file)]
       else r = None /\ bucket x' = bucket x.
Proof.
  rewrite uploadDestinationImage_run.
  pose proof (fileExt_after_last_dot file) as [Hdot Hname].
  destruct (reply x (length (sent x))); simpl;
    [destruct (taken x (filePath x file))|..];
    eexists _, _; (split; [reflexivity|]); simpl;
    repeat (split; [reflexivity || assumption|]); split; reflexivity.
Qed.

Lemma store_run (destination : DestinationInput) (imageUrl : option jsstring)
  (x : site) :
  exists x',
    store destination imageUrl x
    = (match reply x (length (sent x)) with
       | Throws => Thrown
       | o => Returned (performs o)
       end, x')
    /\ sent x' = sent x ++ [store_op destination imageUrl]
    /\ bucket x' = bucket x
    /\ (reply x (length (sent x)) <> Succeeds -> db x' = db x)
    /\ (reply x (length (sent x)) = Succeeds ->
        store_op destination imageUrl
        = InsertDestination (payload_with destination imageUrl) ->
        destinations (db x')
        = destinations (db x)
          ++ [new_destination_row (payload_with destination imageUrl)
                (clock (db x))]).
Proof.
  unfold store, store_op, sbind.
  destruct (id destination) as [i|]; [destruct (truthy i)|];
    unfold destinations_update, destinations_insert, send;
    destruct (reply x (length (sent x))); simpl;
    eexists; repeat split; intros; congruence || discriminate.
Qed.

(** X17. saveDestination never throws. Given a file it uploads first: when
    the upload does not go through it returns false having sent nothing
    else, with tables and bucket as they were; when it does, the one table
    request that follows carries the public URL of the uploaded path as the
    image. Given no file it sends the one table request with the image of
    the input. In either case it returns true exactly when the table request
    is performed. *)
Theorem saveDestination_uploads_then_stores
  (destination : DestinationInput) (file : option File) (x : site) :
  match file with
  | Some f =>
      if performs (reply x (length (sent x))) && negb (taken x (filePath x f))
      then exists x',
             saveDestination destination file x
             = (Returned (performs (reply x (S (length (sent x))))), x')
             /\ sent x' = sent x
                          ++ [UploadImage (filePath x f) f;
                              store_op destination
                                (Some (getPublicUrl x (filePath x f)))]
             /\ bucket x' = bucket x ++ [(filePath x f, f)]
      else exists x',
             saveDestination destination file x = (Returned false, x')
             /\ sent x' = sent x ++ [UploadImage (filePath x f) f]
             /\ db x' = db x /\ bucket x' = bucket x
  | None =>
      exists x',
        saveDestination destination file x
        = (Returned (performs (reply x (length (sent x)))), x')
        /\ sent x' = sent x ++ [store_op destination (image destination)]
        /\ bucket x' = bucket x
  end.
Proof.
  unfold saveDestination, stry. destruct file as [f|].
  - unfold sbind. rewrite uploadDestinationImage_run.
    destruct (reply x (length (sent x))) eqn:Er; simpl;
      [destruct (taken x (filePath x f)) eqn:Et; simpl|..];
      try (eexists; repeat split; reflexivity).
    assert (Hurl : truthy (public_base x ++ filePath x f) = true).
    { unfold filePath. destruct (public_base x); reflexivity. }
    rewrite Hurl.
    match goal with |- context [store destination ?img ?x1] =>
      destruct (store_run destination img x1) as (x' & Hrun & Hsent & Hb & _) end.
    rewrite Hrun. simpl in Hsent, Hb |- *. rewrite length_app, Nat.add_1_r. simpl.
    destruct (reply x (S (length (sent x)))); simpl;
      eexists; (split; [reflexivity|]); rewrite Hsent, Hb, <- app_assoc;
      split; reflexivity.
  - destruct (store_run destination (image destination) x)
      as (x' & Hrun & Hsent & Hb & _).
    rewrite Hrun.
    destruct (reply x (length (sent x))); simpl;
      eexists; (split; [reflexivity|]); split; assumption.
Qed.

(** A new destination saved with a picture, and on a refusing backend. *)
Lemma saveDestination_on_sample_sites :
  (exists x', saveDestination new_destination (Some picture) (site_over empty_world)
              = (Returned true, x')
              /\ List.map d_image (destinations (db x'))
                 = [lit "https://cdn.example/public/1700000000000_k3a.jpg"])
  /\ exists x', saveDestination new_destination (Some picture)
                  (refusing (site_over empty_world))
                = (Returned false, x')
                /\ destinations (db x') = [].
Proof.
  split.
  - pose proof (saveDestination_uploads_then_stores new_destination (Some picture)
                  (site_over empty_world)) as H.
    simpl in H. destruct H as (x' & Hrun & _).
    exists x'. split; [exact Hrun|].
    vm_compute in Hrun. injection Hrun as <-. vm_compute. reflexivity.
  - pose proof (saveDestination_uploads_then_stores new_destination (Some picture)
                  (refusing (site_over empty_world))) as H.
    simpl in H. destruct H as (x' & Hrun & _ & Hdb & _).
    exists x'. split; [exact Hrun|]. rewrite Hdb. reflexivity.
Defined.

End DestinationSave.

(** ** The signed-in user *)

Section SignedInUser.

Import CustomerService Account UserDashboard CustomerReads AuthSession AppAuth.

Lemma or_default_truthy (value : option jsstring) (fallback : jsstring) :
  fallback <> [] -> or_default value fallback <> [].
Proof.
  intros H. unfold or_default. destruct value as [[|c v]|]; simpl; congruence.
Qed.

Lemma profile_single_run (id : jsstring) (x : site) :
  profile_single id x
  = match reply x (length (sent x)) with
    | Succeeds =>
        (Returned match List.filter (fun r => bool_decide (u_id r = id))
                          (profiles (db x)) with
                  | [row] => Success row
                  | _ => Failure PGRST116
                  end, record_op (SelectProfile id) x)
    | Fails => (Returned (Failure BackendError), record_op (SelectProfile id) x)
    | Throws => (Thrown, record_op (SelectProfile id) x)
    end.
Proof.
  unfold profile_single, send. destruct (reply x (length (sent x))); try reflexivity.
  destruct (List.filter _ _) as [|row [|row' rows]]; reflexivity.
Qed.

(** X18. getCurrentUser without a session returns null and sends nothing.
    With a session it reads the profile: if the call throws, so does
    getCurrentUser; otherwise it returns a user with the id of the session,
    a non-empty username and role and an email that is never undefined. The
    profile fields are used when exactly one profile row has the id; when the
    read fails or finds no such row the username is "User", the role "user"
    and name, address and phone are undefined. *)
Theorem getCurrentUser_fills_placeholders (x : site) :
  match session x with
  | None => getCurrentUser x = (Returned None, x)
  | Some u =>
      match reply x (length (sent x)) with
      | Throws => fst (getCurrentUser x) = Thrown
      | o =>
          exists usr x',
            getCurrentUser x = (Returned (Some usr), x')
            /\ db x' = db x
            /\ id usr = su_id u
            /\ username usr <> []
            /\ (exists r, role usr = Some r /\ r <> [])
            /\ email usr <> None
            /\ match o, List.filter (fun r => bool_decide (u_id r = su_id u))
                          (profiles (db x)) with
               | Succeeds, [p] =>
                   username usr = or_default (Some (u_username p)) (lit "User")
                   /\ role usr = Some (or_default (Some (u_role p)) (lit "user"))
                   /\ full_name usr = Some (u_full_name p)
                   /\ address usr = Some (u_address p)
                   /\ phone usr = Some (u_phone p)
               | _, _ =>
                   username usr = lit "User" /\ role usr = Some (lit "user")
                   /\ full_name usr = None /\ address usr = None
                   /\ phone usr = None
               end
      end
  end.
Proof.
  unfold getCurrentUser. destruct (session x) as [u|]; [|reflexivity].
  unfold sbind. rewrite profile_single_run.
  destruct (reply x (length (sent x))); [| |reflexivity].
  - eexists _, _. split; [reflexivity|]. simpl.
    split; [reflexivity|]. split; [reflexivity|].
    split; [apply or_default_truthy; discriminate|].
    split; [eexists; split; [reflexivity|apply or_default_truthy; discriminate]|].
    split; [discriminate|].
    destruct (List.filter _ _) as [|p [|p' ps]]; simpl; repeat split; reflexivity.
  - eexists _, _. split; [reflexivity|]. simpl.
    split; [reflexivity|]. split; [reflexivity|].
    split; [discriminate|].
    split; [eexists; split; [reflexivity|discriminate]|].
    split; [discriminate|]. repeat split; reflexivity.
Qed.

Lemma elem_of_ids (p : jsstring) (items : list WishlistItem) :
  p ∈ (list_to_set (List.map wi_package_id items) : gset jsstring)
  <-> In p (List.map wi_package_id items).
Proof. rewrite elem_of_list_to_set. apply list_elem_of_In. Qed.

(** X19. When the session changes to a signed-in user, on a backend that
    performs every request, App holds a user with the id of the session and
    its local wishlist set agrees with the backend for every package: an id
    is in the set exactly when the user has a wishlist row for it. When the
    session ends, the user is null and the set is empty, with no request
    sent. The tables are never changed. *)
Theorem onSessionChange_loads_wishlist
  (session : option session_user) (a : account) (x : site) :
  match session with
  | Some u =>
      dependable x ->
      exists a' x',
        onSessionChange session a x = (Returned a', x')
        /\ db x' = db x
        /\ (exists usr, user a' = Some usr /\ id usr = su_id u)
        /\ forall p, p ∈ wishlistIds a' <-> in_wishlist (su_id u) p (db x') = true
  | None =>
      exists a',
        onSessionChange session a x = (Returned a', x)
        /\ user a' = None /\ wishlistIds a' = ∅
  end.
Proof.
  unfold onSessionChange, authStateListener. destruct session as [u|].
  - intros [_ Hreply]. unfold sbind. rewrite profile_single_run, Hreply.
    unfold onUser, sbind. simpl. rewrite getWishlist_run. simpl. rewrite Hreply.
    eexists _, _. split; [reflexivity|]. simpl. split; [reflexivity|].
    split; [eexists; split; reflexivity|].
    intros p. rewrite elem_of_ids. apply listed_iff_in_wishlist.
  - eexists. split; [reflexivity|]. split; reflexivity.
Qed.

(** u1 signs in on the backend where u1 wished p1. *)
Lemma onSessionChange_on_wished_world :
  exists a' x',
    onSessionChange (Some {| su_id := lit "u1"; su_email := None |}) sample_account
      (site_over wished_world) = (Returned a', x')
    /\ (lit "p1" ∈ wishlistIds a').
Proof.
  destruct (onSessionChange_loads_wishlist
              (Some {| su_id := lit "u1"; su_email := None |}) sample_account
              (site_over wished_world))
    as (a' & x' & Hrun & Hdb & _ & Hagree).
  { split; intros n; reflexivity. }
  exists a', x'. split; [exact Hrun|]. apply Hagree. rewrite Hdb. reflexivity.
Defined.

End SignedInUser.

(** ** The panel and the tables after a write *)

Section PanelInStep.

Import AdminService DestinationService PackageService AdminPanel AdminSession.
Import AdminWrites DestinationWrites PackageWrites AdminHandlers.

Lemma insert_by_map {A} (key : A -> N) (f : A -> A) (x : A) (l : list A) :
  (forall a, key (f a) = key a) ->
  insert_by key (f x) (List.map f l) = List.map f (insert_by key x l).
Proof.
  intros Hkey. induction l as [|y l IH]; simpl; [reflexivity|].
  rewrite !Hkey. destruct (key x <=? key y)%N; simpl; [reflexivity|]. now rewrite IH.
Qed.

(** Sorting commutes with an update that keeps the timestamps. *)
Lemma order_by_map {A} (key : A -> N) (f : A -> A) (l : list A) :
  (forall a, key (f a) = key a) ->
  order_by key (List.map f l) = List.map f (order_by key l).
Proof.
  intros Hkey. induction l as [|x l IH]; simpl; [reflexivity|].
  rewrite IH. now apply insert_by_map.
Qed.

Lemma insert_by_front {A} (key : A -> N) (x : A) (l : list A) :
  Forall (fun z => (key x <= key z)%N) l -> insert_by key x l = x :: l.
Proof.
  intros H. destruct l as [|y l]; simpl; [reflexivity|].
  apply List.Forall_cons_iff in H as [Hy _].
  apply N.leb_le in Hy. now rewrite Hy.
Qed.

Lemma filter_insert_by {A} (key : A -> N) (p : A -> bool) (x : A) (l : list A) :
  StronglySorted (by_key key) l ->
  List.filter p (insert_by key x l)
  = if p x then insert_by key x (List.filter p l) else List.filter p l.
Proof.
  induction 1 as [|y l Hl IH Hy]; simpl.
  - destruct (p x); reflexivity.
  - destruct (key x <=? key y)%N eqn:E.
    + simpl. destruct (p x) eqn:Ex; [|reflexivity].
      symmetry. apply insert_by_front.
      apply N.leb_le in E.
      assert (Hall : Forall (fun z => (key x <= key z)%N) (y :: l)).
      { constructor; [exact E|]. eapply List.Forall_impl; [|exact Hy].
        intros z Hz. unfold by_key in Hz. lia. }
      apply List.Forall_forall. intros z Hz.
      rewrite List.Forall_forall in Hall. apply Hall.
      change (In z (List.filter p (y :: l))) in Hz.
      now apply filter_In in Hz as [Hz _].
    + simpl. rewrite IH. destruct (p y) eqn:Ey, (p x) eqn:Ex; simpl;
        rewrite ?E; reflexivity.
Qed.

(** Sorting commutes with dropping rows. *)
Lemma order_by_filter {A} (key : A -> N) (p : A -> bool) (l : list A) :
  order_by key (List.filter p l) = List.filter p (order_by key l).
Proof.
  induction l as [|x l IH]; simpl; [reflexivity|].
  rewrite filter_insert_by.
  - destruct (p x); simpl; now rewrite IH.
  - apply Sorted_StronglySorted; [|apply order_by_sorted].
    intros a b c. unfold by_key. lia.
Qed.

Lemma filter_rev {A} (p : A -> bool) (l : list A) :
  List.filter p (rev l) = rev (List.filter p l).
Proof.
  induction l as [|x l IH]; simpl; [reflexivity|].
  rewrite List.filter_app, IH. simpl. destruct (p x); simpl;
    [reflexivity|apply app_nil_r].
Qed.

(** [loadData] on tables whose reads are performed. *)
Lemma loadData_reliable (s : panel) (w : world) :
  reliable w ->
  exists s' w',
    loadData s w = (Returned s', w')
    /\ bookings s' = rev (order_by br_created_at (Backend.bookings w))
    /\ destinations s' = order_by d_created_at (Backend.destinations w)
    /\ packages s' = order_by p_created_at (Backend.packages w)
    /\ alerts s' = alerts s
    /\ Backend.bookings w' = Backend.bookings w
    /\ Backend.destinations w' = Backend.destinations w
    /\ Backend.packages w' = Backend.packages w
    /\ profiles w' = profiles w
    /\ answer w' = answer w.
Proof.
  intros H. unfold loadData, bind.
  rewrite fetchBookings_exact, getDestinations_run, getPackages_run, fetchUsers_exact.
  simpl. rewrite !H. eexists _, _. split; [reflexivity|]. repeat split; reflexivity.
Qed.

Lemma with_status_created_at (status : booking_status) (id : jsstring) (b : booking_row) :
  br_created_at (if bool_decide (br_id b = id) then with_status status b else b)
  = br_created_at b.
Proof. destruct (bool_decide (br_id b = id)); reflexivity. Qed.

(** X20. handleStatusChange keeps the panel in step with the backend. If the
    panel lists the bookings as the table holds them and the backend's reads
    are performed, then after the handler it does so again: when the update
    is performed the optimistic change is what the table now holds and no
    reload is made; when the update is refused or throws, the table is as it
    was, the panel is reloaded from it and the failure is alerted. *)
Theorem handleStatusChange_keeps_panel_in_step
  (id : jsstring) (status : booking_status) (s : panel) (x : site) :
  reliable (db x) -> shows_bookings s x ->
  exists s' x',
    handleStatusChange id status s x = (Returned s', x')
    /\ shows_bookings s' x'
    /\ if performs (reply x (length (sent x)))
       then alerts s' = alerts s /\ journal (db x') = journal (db x)
            /\ forall b, In b (bookings s') -> br_id b = id ->
                         bk_status (br_fields b) = status
       else alerts s' = alerts s ++ [lit "Failed to update status in database."]
            /\ Backend.bookings (db x') = Backend.bookings (db x).
Proof.
  intros Hrel Hshows. unfold shows_bookings in *.
  unfold handleStatusChange, sbind, updateBookingStatus, stry, sbind,
    bookings_update_status, send.
  destruct (reply x (length (sent x))) eqn:Er; simpl.
  - eexists _, _. split; [reflexivity|]. simpl. split.
    + rewrite Hshows, map_rev. f_equal. symmetry. apply order_by_map.
      intros b. apply with_status_created_at.
    + split; [reflexivity|]. split; [reflexivity|].
      intros b Hb Hid. apply in_map_iff in Hb as (b0 & <- & _).
      destruct (bool_decide (br_id b0 = id)) eqn:E; [reflexivity|].
      apply bool_decide_eq_false_1 in E. now contradiction E.
  - match goal with |- context [lift (loadData ?s1) ?x1] =>
      destruct (loadData_reliable s1 (db x1) Hrel)
        as (s' & w' & Hrun & Hb & _ & _ & Ha & Hbw & _);
      rewrite (lift_run _ x1 _ _ Hrun) end.
    eexists _, _. split; [reflexivity|]. simpl. rewrite Hb, Hbw, Ha.
    repeat split; reflexivity.
  - match goal with |- context [lift (loadData ?s1) ?x1] =>
      destruct (loadData_reliable s1 (db x1) Hrel)
        as (s' & w' & Hrun & Hb & _ & _ & Ha & Hbw & _);
      rewrite (lift_run _ x1 _ _ Hrun) end.
    eexists _, _. split; [reflexivity|]. simpl. rewrite Hb, Hbw, Ha.
    repeat split; reflexivity.
Qed.

End PanelInStep.

(** ** The write handlers of the panel *)

Section PanelWrites.

Import AdminService DestinationService PackageService AdminPanel AdminSession.
Import AdminWrites DestinationWrites PackageWrites AdminHandlers HandlerSamples.

(** Confirming the second sample booking in the loaded panel. *)
Lemma handleStatusChange_on_loaded_panel :
  exists s' x',
    handleStatusChange (lit "b1") confirmed loaded_panel (site_over booked_world)
    = (Returned s', x')
    /\ shows_bookings s' x'
    /\ List.map (fun b => bk_status (br_fields b)) (bookings s')
       = [confirmed; confirmed].
Proof.
  destruct (handleStatusChange_keeps_panel_in_step (lit "b1") confirmed loaded_panel
              (site_over booked_world))
    as (s' & x' & Hrun & Hshows & _).
  - intros n. reflexivity.
  - reflexivity.
  - exists s', x'. split; [exact Hrun|]. split; [exact Hshows|].
    vm_compute in Hrun. injection Hrun as <- _. reflexivity.
Defined.

(** X21. The delete handlers keep the panel in step with the backend. If the
    panel lists a table as the backend holds it, it does so again after
    handleBookingDelete, handleDestDelete or handlePkgDelete: a declined
    confirmation sends nothing and changes nothing; a performed delete
    removes the rows with that id from the table and from the panel; a
    refused or failed delete leaves both and alerts. *)
Theorem delete_handlers_keep_panel_in_step
  (confirmed : bool) (id : jsstring) (s : panel) (x : site) :
  (shows_bookings s x ->
   exists s' x',
     handleBookingDelete confirmed id s x = (Returned s', x')
     /\ shows_bookings s' x'
     /\ (confirmed = false -> s' = s /\ x' = x)
     /\ (confirmed = true ->
         if performs (reply x (length (sent x)))
         then Forall (fun b => br_id b <> id) (bookings s') /\ alerts s' = alerts s
         else db x' = db x
              /\ alerts s' = alerts s ++ [lit "Failed to delete booking."]))
  /\ (shows_destinations s x ->
      exists s' x',
        handleDestDelete confirmed id s x = (Returned s', x')
        /\ shows_destinations s' x'
        /\ (confirmed = false -> s' = s /\ x' = x)
        /\ (confirmed = true ->
            if performs (reply x (length (sent x)))
            then Forall (fun d => d_id d <> id) (destinations s')
                 /\ alerts s' = alerts s
            else db x' = db x /\ alerts s' = alerts s ++ [lit "Failed to delete."]))
  /\ (shows_packages s x ->
      exists s' x',
        handlePkgDelete confirmed id s x = (Returned s', x')
        /\ shows_packages s' x'
        /\ (confirmed = false -> s' = s /\ x' = x)
        /\ (confirmed = true ->
            if performs (reply x (length (sent x)))
            then Forall (fun p => p_id p <> id) (packages s') /\ alerts s' = alerts s
            else db x' = db x /\ alerts s' = alerts s ++ [lit "Failed to delete."])).
Proof.
  assert (Hgone : forall {A} (f : A -> jsstring) (l : list A),
            Forall (fun a => f a <> id)
              (List.filter (fun a => negb (bool_decide (f a = id))) l)).
  { intros A f l. apply List.Forall_forall. intros a Ha.
    apply filter_In in Ha as [_ Ha]. apply negb_true_iff in Ha.
    now apply bool_decide_eq_false_1 in Ha. }
  unfold shows_bookings, shows_destinations, shows_packages.
  unfold handleBookingDelete, handleDestDelete, handlePkgDelete,
    deleteBooking, deleteDestination, deletePackage, stry, sbind,
    bookings_delete, destinations_delete, packages_delete, send.
  split; [|split]; intros Hshows; destruct confirmed;
    try (eexists _, _; split; [reflexivity|]; split; [exact Hshows|];
         split; [intros _; split; reflexivity|discriminate]);
    destruct (reply x (length (sent x))); simpl;
    eexists _, _; (split; [reflexivity|]); simpl;
    (split; [rewrite Hshows; rewrite ?order_by_filter, ?filter_rev; reflexivity|]);
    (split; [discriminate|]); intros _; split; reflexivity || apply Hgone.
Qed.

(** Deleting the first sample booking from the loaded panel, and declining. *)
Lemma delete_handlers_on_loaded_panel :
  (exists s' x',
     handleBookingDelete true (lit "b1") loaded_panel (site_over booked_world)
     = (Returned s', x')
     /\ shows_bookings s' x'
     /\ List.map br_id (bookings s') = [lit "b2"])
  /\ handlePkgDelete false (lit "p1") loaded_panel (site_over booked_world)
     = (Returned loaded_panel, site_over booked_world).
Proof.
  split.
  - destruct (proj1 (delete_handlers_keep_panel_in_step true (lit "b1") loaded_panel
                       (site_over booked_world)))
      as (s' & x' & Hrun & Hshows & _); [reflexivity|].
    exists s', x'. split; [exact Hrun|]. split; [exact Hshows|].
    vm_compute in Hrun. injection Hrun as <- _. reflexivity.
  - destruct (proj2 (proj2 (delete_handlers_keep_panel_in_step false (lit "p1")
                              loaded_panel (site_over booked_world))))
      as (s' & x' & Hrun & _ & Hsame & _); [reflexivity|].
    destruct (Hsame eq_refl) as [-> ->]. exact Hrun.
Defined.

(** X22. handleUserSave never changes a password and never says it did. With
    a user being edited it sends the profile update and no other write;
    whether or not that update goes through, the editor is closed without any
    alert about it. A non-empty new password only raises the alert that the
    password was NOT changed; an empty one raises none. With no user being
    edited the handler does nothing. *)
Theorem handleUserSave_never_changes_password
  (f : user_form) (s : panel) (x : site) :
  match editingUser f with
  | Some u =>
      exists f' s' x',
        handleUserSave f s x = (Returned (f', s'), x')
        /\ sent x' = sent x
                     ++ [UpdateProfile (Account.id u)
                           {| up_full_name := Account.full_name u;
                              up_address := Account.address u;
                              up_phone := Account.phone u |}]
        /\ alerts s' = alerts s
                       ++ (if truthy (newPassword f) then [password_not_changed]
                           else [])
        /\ editingUser f' = None /\ isEditingUser f' = false
  | None => handleUserSave f s x = (Returned (f, s), x)
  end.
Proof.
  unfold handleUserSave. destruct (editingUser f) as [u|]; [|reflexivity].
  unfold sbind, updateUserProfile, stry, sbind, profiles_update, send, throw,
    updateUserPassword, sret.
  assert (Hload : forall s0 x0, exists s1 w1,
            lift (loadData s0) x0 = (Returned s1, set_db w1 x0)
            /\ alerts s1 = alerts s0).
  { intros s0 x0. destruct (loadData_run s0 (db x0)) as (s1 & w1 & Hrun & _).
    exists s1, w1. split; [now apply lift_run|].
    unfold loadData, bind in Hrun.
    destruct (fetchBookings_run (db x0)) as [b Hb]. rewrite Hb in Hrun.
    rewrite getDestinations_run, getPackages_run in Hrun.
    match type of Hrun with context [fetchUsers ?w2] =>
      destruct (fetchUsers_run w2) as [us Hu]; rewrite Hu in Hrun end.
    injection Hrun as <- _. reflexivity. }
  destruct (reply x (length (sent x))); simpl; destruct (truthy (newPassword f));
    match goal with |- context [lift (loadData ?s0) ?x0] =>
      destruct (Hload s0 x0) as (s1 & w1 & -> & Ha) end;
    eexists _, _, _; (split; [reflexivity|]); simpl; rewrite Ha; simpl;
    rewrite ?app_nil_r; repeat split; reflexivity.
Qed.

End PanelWrites.

(** ** Seeding *)

Section Seeding.

Import AdminService DestinationService PackageService AdminPanel AdminSession.
Import AdminWrites DestinationWrites PackageWrites AdminHandlers HandlerSamples.

Lemma saveDestination_seed_run (d : Destination) (x : site) :
  dependable x ->
  exists x',
    saveDestination (seed_destination d) None x = (Returned true, x')
    /\ dependable x'
    /\ Backend.destinations (db x')
       = Backend.destinations (db x)
         ++ [new_destination_row
               (payload_with (seed_destination d) (Some (dest_image d)))
               (clock (db x))]
    /\ clock (db x') = N.succ (clock (db x))
    /\ Backend.packages (db x') = Backend.packages (db x).
Proof.
  intros [Hdb Hreply].
  unfold saveDestination, stry, store, sbind, destinations_insert, send. simpl.
  rewrite Hreply. simpl. eexists. split; [reflexivity|].
  split; [split; [intros n; apply Hdb|intros n; apply Hreply]|].
  split; [reflexivity|]. split; reflexivity.
Qed.

Lemma seed_destinations_run (ds : list Destination) (x : site) :
  dependable x ->
  exists x' rows,
    for_each ds (fun d => do! _ := saveDestination (seed_destination d) None in sret tt) x
    = (Returned tt, x')
    /\ dependable x'
    /\ Backend.destinations (db x') = Backend.destinations (db x) ++ rows
    /\ List.map destination_columns rows = List.map destination_fields ds
    /\ List.map (fun r => (d_id r, d_created_at r)) rows
       = List.map generated (instants (clock (db x)) (length ds))
    /\ clock (db x') = (clock (db x) + N.of_nat (length ds))%N
    /\ Backend.packages (db x') = Backend.packages (db x).
Proof.
  revert x. induction ds as [|d ds IH]; intros x Hx.
  - exists x, []. simpl. rewrite app_nil_r, N.add_0_r.
    split; [reflexivity|]. split; [exact Hx|].
    do 4 (split; [reflexivity|]). reflexivity.
  - destruct (saveDestination_seed_run d x Hx) as (x1 & Hrun & Hx1 & Hd & Hc & Hp).
    destruct (IH x1 Hx1) as (x' & rows & Hrest & Hx' & Hd' & Hcols & Hids & Hc' & Hp').
    exists x', (new_destination_row
                  (payload_with (seed_destination d) (Some (dest_image d)))
                  (clock (db x)) :: rows).
    split; [simpl; unfold sbind at 1 2; rewrite Hrun; exact Hrest|].
    split; [exact Hx'|].
    split; [rewrite Hd', Hd, <- app_assoc; reflexivity|].
    split; [simpl; rewrite Hcols; reflexivity|].
    split; [simpl; rewrite Hids, Hc; reflexivity|].
    split; [rewrite Hc', Hc; simpl length; lia|].
    rewrite Hp', Hp. reflexivity.
Qed.

Lemma savePackage_seed_run (p : Package) (x : site) :
  dependable x ->
  exists x',
    lift (savePackage (seed_package p)) x = (Returned true, x')
    /\ dependable x'
    /\ Backend.packages (db x')
       = Backend.packages (db x)
         ++ [new_package_row (payload_of (seed_package p)) (clock (db x))]
    /\ clock (db x') = N.succ (clock (db x))
    /\ Backend.destinations (db x') = Backend.destinations (db x).
Proof.
  intros [Hdb Hreply].
  assert (Hrun : savePackage (seed_package p) (db x)
                 = (Returned true,
                    tick (set_packages
                            (Backend.packages (db x)
                             ++ [new_package_row (payload_of (seed_package p))
                                   (clock (db x))])
                            (record_request
                               (InsertPackage (payload_of (seed_package p)))
                               (db x))))).
  { unfold savePackage, try_catch, bind, packages_insert, call. simpl.
    rewrite Hdb. reflexivity. }
  rewrite (lift_run _ _ _ _ Hrun). eexists. split; [reflexivity|].
  split; [split; [intros n; apply Hdb|intros n; apply Hreply]|].
  split; [reflexivity|]. split; reflexivity.
Qed.

Lemma seed_packages_run (ps : list Package) (x : site) :
  dependable x ->
  exists x' rows,
    for_each ps (fun p => do! _ := lift (savePackage (seed_package p)) in sret tt) x
    = (Returned tt, x')
    /\ dependable x'
    /\ Backend.packages (db x') = Backend.packages (db x) ++ rows
    /\ List.map package_columns rows
       = List.map (fun p => (pkg_name p, pkg_price p, pkg_color p,
                             pp_accent (payload_of (seed_package p)),
                             pkg_features p)) ps
    /\ List.map (fun r => (p_id r, p_created_at r)) rows
       = List.map generated (instants (clock (db x)) (length ps))
    /\ clock (db x') = (clock (db x) + N.of_nat (length ps))%N
    /\ Backend.destinations (db x') = Backend.destinations (db x).
Proof.
  revert x. induction ps as [|p ps IH]; intros x Hx.
  - exists x, []. simpl. rewrite app_nil_r, N.add_0_r.
    split; [reflexivity|]. split; [exact Hx|].
    do 4 (split; [reflexivity|]). reflexivity.
  - destruct (savePackage_seed_run p x Hx) as (x1 & Hrun & Hx1 & Hp & Hc & Hd).
    destruct (IH x1 Hx1) as (x' & rows & Hrest & Hx' & Hp' & Hcols & Hids & Hc' & Hd').
    exists x', (new_package_row (payload_of (seed_package p)) (clock (db x)) :: rows).
    split; [simpl; unfold sbind at 1 2; rewrite Hrun; exact Hrest|].
    split; [exact Hx'|].
    split; [rewrite Hp', Hp, <- app_assoc; reflexivity|].
    split; [simpl; rewrite Hcols; reflexivity|].
    split; [simpl; rewrite Hids, Hc; reflexivity|].
    split; [rewrite Hc', Hc; simpl length; lia|].
    rewrite Hd', Hd. reflexivity.
Qed.

(** One confirmed seeding on a backend that performs every request. *)
Lemma handleSeedDatabase_once (s : panel) (x : site) :
  dependable x ->
  exists s' x' ds ps,
    handleSeedDatabase true s x = (Returned s', x')
    /\ dependable x'
    /\ Backend.destinations (db x') = Backend.destinations (db x) ++ ds
    /\ List.map destination_columns ds
       = List.map destination_fields FALLBACK_DESTINATIONS
    /\ List.map (fun r => (d_id r, d_created_at r)) ds
       = List.map generated (instants (clock (db x)) 3)
    /\ Backend.packages (db x') = Backend.packages (db x) ++ ps
    /\ List.map package_columns ps = List.map package_fields FALLBACK_PACKAGES
    /\ List.map (fun r => (p_id r, p_created_at r)) ps
       = List.map generated (instants (clock (db x) + 3) 3)
    /\ shows_destinations s' x' /\ shows_packages s' x'
    /\ isLoading s' = false.
Proof.
  intros Hx. unfold handleSeedDatabase.
  destruct (seed_destinations_run FALLBACK_DESTINATIONS x Hx)
    as (x1 & ds & Hrun1 & Hx1 & Hd1 & Hdcols & Hdids & Hc1 & Hp1).
  destruct (seed_packages_run FALLBACK_PACKAGES x1 Hx1)
    as (x2 & ps & Hrun2 & Hx2 & Hp2 & Hpcols & Hpids & _ & Hd2).
  unfold sbind at 1. rewrite Hrun1. unfold sbind at 1. rewrite Hrun2.
  destruct (loadData_reliable (setIsLoading true s) (db x2) (proj1 Hx2))
    as (s3 & w3 & Hrun3 & _ & Hds & Hps & _ & _ & Hdw & Hpw & _ & Hans).
  unfold sbind. rewrite (lift_run _ _ _ _ Hrun3).
  exists (setIsLoading false s3), (set_db w3 x2), ds, ps.
  split; [reflexivity|].
  split; [split; [intros n; simpl; rewrite Hans; apply Hx2|intros n; apply Hx2]|].
  split; [simpl; rewrite Hdw, Hd2; exact Hd1|].
  split; [exact Hdcols|]. split; [exact Hdids|].
  split; [simpl; rewrite Hpw, Hp2, Hp1; reflexivity|].
  split; [rewrite Hpcols; reflexivity|].
  split; [rewrite Hpids, Hc1; reflexivity|].
  unfold shows_destinations, shows_packages. simpl. rewrite Hdw, Hpw.
  split; [exact Hds|]. split; [exact Hps|]. reflexivity.
Qed.

(** X23. Seeding is not idempotent. On a backend that performs every
    request, each confirmed handleSeedDatabase appends three destination
    rows and three package rows to whatever the tables hold: the rows carry,
    in the order of the fallback data, the name, region, season, description
    and image of each fallback destination and the name, price, color,
    accent and features of each fallback package, with the ids and
    timestamps the backend generates for six inserts in a row (the fallback
    ids are not sent). The panel is then reloaded from the tables and the
    backend still performs every request; so a second seeding appends the
    same content again and leaves six more rows than before the first in
    each table. A declined confirmation does nothing. *)
Theorem handleSeedDatabase_appends_each_time (s : panel) (x : site) :
  dependable x ->
  handleSeedDatabase false s x = (Returned s, x)
  /\ exists s1 x1 ds ps,
       handleSeedDatabase true s x = (Returned s1, x1)
       /\ dependable x1
       /\ Backend.destinations (db x1) = Backend.destinations (db x) ++ ds
       /\ List.map destination_columns ds
          = List.map destination_fields FALLBACK_DESTINATIONS
       /\ List.map (fun r => (d_id r, d_created_at r)) ds
          = List.map generated (instants (clock (db x)) 3)
       /\ Backend.packages (db x1) = Backend.packages (db x) ++ ps
       /\ List.map package_columns ps = List.map package_fields FALLBACK_PACKAGES
       /\ List.map (fun r => (p_id r, p_created_at r)) ps
          = List.map generated (instants (clock (db x) + 3) 3)
       /\ shows_destinations s1 x1 /\ shows_packages s1 x1
       /\ isLoading s1 = false
       /\ exists s2 x2 ds2 ps2,
            handleSeedDatabase true s1 x1 = (Returned s2, x2)
            /\ Backend.destinations (db x2)
               = Backend.destinations (db x) ++ ds ++ ds2
            /\ List.map destination_columns ds2
               = List.map destination_fields FALLBACK_DESTINATIONS
            /\ Backend.packages (db x2) = Backend.packages (db x) ++ ps ++ ps2
            /\ List.map package_columns ps2
               = List.map package_fields FALLBACK_PACKAGES
            /\ shows_destinations s2 x2 /\ shows_packages s2 x2
            /\ length (Backend.destinations (db x2))
               = (length (Backend.destinations (db x)) + 6)%nat
            /\ length (Backend.packages (db x2))
               = (length (Backend.packages (db x)) + 6)%nat.
Proof.
  intros Hx. split; [reflexivity|].
  destruct (handleSeedDatabase_once s x Hx)
    as (s1 & x1 & ds & ps & Hrun1 & Hx1 & Hd1 & Hdc1 & Hdi1 & Hp1 & Hpc1 & Hpi1
        & Hsd1 & Hsp1 & Hl1).
  destruct (handleSeedDatabase_once s1 x1 Hx1)
    as (s2 & x2 & ds2 & ps2 & Hrun2 & _ & Hd2 & Hdc2 & _ & Hp2 & Hpc2 & _
        & Hsd2 & Hsp2 & _).
  exists s1, x1, ds, ps. do 11 (split; [assumption|]).
  exists s2, x2, ds2, ps2. split; [exact Hrun2|].
  assert (Hnd : length ds = 3%nat /\ length ds2 = 3%nat).
  { split; [apply (f_equal (@length _)) in Hdc1|apply (f_equal (@length _)) in Hdc2];
      rewrite !length_map in *; assumption. }
  assert (Hnp : length ps = 3%nat /\ length ps2 = 3%nat).
  { split; [apply (f_equal (@length _)) in Hpc1|apply (f_equal (@length _)) in Hpc2];
      rewrite !length_map in *; assumption. }
  rewrite Hd2, Hd1, Hp2, Hp1, <- !app_assoc.
  split; [reflexivity|]. split; [exact Hdc2|].
  split; [reflexivity|]. split; [exact Hpc2|].
  split; [exact Hsd2|]. split; [exact Hsp2|].
  rewrite !length_app. lia.
Qed.

(** Seeding the sample backend, which holds three destinations and two
    packages already: every column of the six rows it adds. *)
Lemma handleSeedDatabase_on_sample :
  dependable (site_over booked_world)
  /\ exists s1 x1,
       handleSeedDatabase true loaded_panel (site_over booked_world)
       = (Returned s1, x1)
       /\ List.map d_name (Backend.destinations (db x1))
          = [lit "Kedarnath"; lit "Pangong Lake"; lit "Spiti Valley";
             lit "Pangong Lake"; lit "Spiti Valley"; lit "Kedarnath"]
       /\ List.map (fun r => (d_region r, d_season r))
            (skipn 3 (Backend.destinations (db x1)))
          = [(lit "Ladakh", lit "MAY - SEP"); (lit "Himachal", lit "JUN - OCT");
             (lit "Uttarakhand", lit "MAY - NOV")]
       /\ List.map (fun r => (p_name r, p_price r, p_color r, p_accent r))
            (skipn 2 (Backend.packages (db x1)))
          = [(lit "Manali Escape", rupee ++ lit "14,999", lit "white",
              Some (lit "bg-white/5"));
             (lit "Ladakh Expedition", rupee ++ lit "34,999", lit "teal",
              Some (lit "bg-[#4fb7b3]/10 border-[#4fb7b3]/50"));
             (lit "Char Dham Yatra", rupee ++ lit "89,999", lit "periwinkle",
              Some (lit "bg-[#637ab9]/10 border-[#637ab9]/50"))]
       /\ List.map p_features (skipn 2 (Backend.packages (db x1)))
          = List.map pkg_features FALLBACK_PACKAGES
       /\ List.map d_id (skipn 3 (Backend.destinations (db x1)))
          = [gen_id 6; gen_id 7; gen_id 8]
       /\ List.map p_id (skipn 2 (Backend.packages (db x1)))
          = [gen_id 9; gen_id 10; gen_id 11].
Proof.
  assert (Hx : dependable (site_over booked_world))
    by (split; intros n; reflexivity).
  split; [exact Hx|].
  destruct (handleSeedDatabase_appends_each_time loaded_panel
              (site_over booked_world) Hx)
    as (_ & s1 & x1 & ds & ps & Hrun & _ & Hd & Hdc & Hdi & Hp & Hpc & Hpi & _).
  exists s1, x1. split; [exact Hrun|].
  rewrite Hd, Hp.
  change (skipn 3 (Backend.destinations (db (site_over booked_world)) ++ ds))
    with ds.
  change (skipn 2 (Backend.packages (db (site_over booked_world)) ++ ps)) with ps.
  assert (Hnames : List.map d_name ds = List.map dest_name FALLBACK_DESTINATIONS).
  { transitivity (List.map (fun c => fst (fst (fst (fst c))))
                    (List.map destination_columns ds));
      [rewrite List.map_map; reflexivity|rewrite Hdc; reflexivity]. }
  split; [rewrite List.map_app, Hnames; reflexivity|].
  split.
  { transitivity (List.map (fun c => (snd (fst (fst (fst c))), snd (fst (fst c))))
                    (List.map destination_columns ds));
      [rewrite List.map_map; reflexivity|rewrite Hdc; reflexivity]. }
  split.
  { transitivity (List.map (fun c => (fst (fst (fst (fst c))), snd (fst (fst (fst c))),
                                      snd (fst (fst c)), snd (fst c)))
                    (List.map package_columns ps));
      [rewrite List.map_map; reflexivity|rewrite Hpc; reflexivity]. }
  split.
  { transitivity (List.map snd (List.map package_columns ps));
      [rewrite List.map_map; reflexivity|rewrite Hpc; reflexivity]. }
  split.
  { transitivity (List.map fst (List.map (fun r => (d_id r, d_created_at r)) ds));
      [rewrite List.map_map; reflexivity|rewrite Hdi; reflexivity]. }
  transitivity (List.map fst (List.map (fun r => (p_id r, p_created_at r)) ps));
    [rewrite List.map_map; reflexivity|rewrite Hpi; reflexivity].
Defined.

End Seeding.

(** ** Samples for the grid and the package update, and the package form *)

Section PackageForm.

Import AdminService DestinationService PackageService AdminPanel.

(** One card drawn out of the two sample packages: the button is shown. *)
Lemma view_more_on_sample_catalog :
  Account.showsViewMore 1 (Backend.packages catalog_world) = true
  /\ exists hidden,
       Backend.packages catalog_world
       = Account.shownPackages 1 (Backend.packages catalog_world) ++ hidden
       /\ hidden <> [].
Proof.
  destruct (proj1 (view_more_shown_iff_package_hidden 1
                     (Backend.packages catalog_world)))
    as (hidden & Hsplit & Hshown).
  split; [reflexivity|]. exists hidden. split; [exact Hsplit|].
  apply Hshown. reflexivity.
Defined.

(** The sample package p1 renamed and moved to the teal theme. *)
Lemma savePackage_update_on_sample_catalog :
  exists w',
    savePackage {| id := Some (lit "p1"); name := lit "Manali Retreat";
                   price := lit "15,999"; theme := lit "teal";
                   features := [lit "4 Nights"] |} catalog_world
    = (Returned true, w')
    /\ List.map p_id (Backend.packages w') = [lit "p2"; lit "p1"]
    /\ List.map p_name (Backend.packages w')
       = [lit "Ladakh Expedition"; lit "Manali Retreat"].
Proof.
  destruct (savePackage_updates_in_place
              {| id := Some (lit "p1"); name := lit "Manali Retreat";
                 price := lit "15,999"; theme := lit "teal";
                 features := [lit "4 Nights"] |} (lit "p1") catalog_world
              eq_refl eq_refl eq_refl)
    as (w' & Hrun & _ & Hids & _).
  exists w'. split; [exact Hrun|]. split; [exact Hids|].
  vm_compute in Hrun. injection Hrun as <-. reflexivity.
Defined.


End PackageForm.

(** ** Further samples *)

Section FurtherSamples.

Import AdminService AdminPanel AdminSession DestinationWrites DestinationRequests.
Import AdminHandlers HandlerSamples SessionSamples.

(** Logging in and out leaves a theme preference kept in the same storage. *)
Lemma admin_flag_beside_other_keys :
  login {[ lit "theme" := lit "dark" ]} !! lit "theme" = Some (lit "dark")
  /\ logout (login {[ lit "theme" := lit "dark" ]}) !! lit "theme"
     = Some (lit "dark")
  /\ isAuthenticated (logout (login {[ lit "theme" := lit "dark" ]})) = false.
Proof.
  assert (Hkey : lit "theme" <> AUTH_KEY)
    by (intros H; vm_compute in H; discriminate H).
  pose proof (admin_flag_round_trip {[ lit "theme" := lit "dark" ]})
    as (_ & _ & Hout & _ & Hother).
  pose proof (admin_flag_round_trip (login {[ lit "theme" := lit "dark" ]}))
    as (_ & _ & _ & _ & Hother').
  destruct (Hother _ Hkey) as [Hin _]. destruct (Hother' _ Hkey) as [_ Hlo].
  split; [rewrite Hin; apply lookup_singleton_eq|].
  split; [rewrite Hlo, Hin; apply lookup_singleton_eq|exact Hout].
Defined.

(** The picture "tawang.final.jpg" goes to a path ending in ".jpg". *)
Lemma uploadDestinationImage_on_sample :
  exists x',
    uploadDestinationImage picture (site_over empty_world)
    = (Returned (Some (lit "https://cdn.example/public/1700000000000_k3a.jpg")), x')
    /\ List.map fst (bucket x') = [lit "public/1700000000000_k3a.jpg"].
Proof.
  destruct (uploadDestinationImage_path_and_url picture (site_over empty_world))
    as (r & x' & Hrun & _ & _ & _ & _ & _ & Hif).
  simpl in Hif. destruct Hif as [-> Hb].
  exists x'. split; [exact Hrun|]. rewrite Hb. reflexivity.
Defined.

(** u1 is signed in and has a profile with an empty role: the role shown is
    the placeholder, the username the stored one. *)
Lemma getCurrentUser_on_signed_in :
  exists usr x',
    AuthSession.getCurrentUser signed_in = (Returned (Some usr), x')
    /\ Account.username usr = lit "asha"
    /\ Account.role usr = Some (lit "user")
    /\ Account.full_name usr = Some (lit "Asha Rao").
Proof.
  pose proof (getCurrentUser_fills_placeholders signed_in) as H.
  simpl in H. destruct H as (usr & x' & Hrun & _ & _ & _ & _ & _ & Hu & Hr & Hn & _).
  exists usr, x'. split; [exact Hrun|]. rewrite Hu, Hr, Hn.
  repeat split; reflexivity.
Defined.

(** Saving the edited user with a new password typed, on a backend that
    refuses the profile update: the only alert is about the password. *)
Lemma handleUserSave_on_refusing_site :
  exists f' s' x',
    handleUserSave editing_asha loaded_panel (refusing (site_over booked_world))
    = (Returned (f', s'), x')
    /\ alerts s' = [password_not_changed]
    /\ editingUser f' = None.
Proof.
  pose proof (handleUserSave_never_changes_password editing_asha loaded_panel
                (refusing (site_over booked_world))) as H.
  simpl in H. destruct H as (f' & s' & x' & Hrun & _ & Ha & Hf & _).
  exists f', s', x'. split; [exact Hrun|]. split; [exact Ha|exact Hf].
Defined.


End FurtherSamples.

(** ** Signing up *)

Section SignUp.

Import AuthSession.

(** X25. signUpUser sends the sign-up with the synthesized email of the
    username. It returns an error exactly when the auth service answered with
    an error or with no user, and then writes nothing. Given a user without a
    session it writes no profile; given a session it sends one profile upsert,
    for the new user's id and always with the role "user", and returns the
    user whether the upsert is performed or refused; only a thrown call makes
    signUpUser throw. *)
Theorem signUpUser_swallows_profile_errors
  (toLowerCase : jsstring -> jsstring) (data : AuthService.RegisterData)
  (answer : signup_answer) (x : site) :
  let request :=
    AuthSignUp (AuthService.getEmailFromUsername toLowerCase (AuthService.username data))
      (AuthService.password data) data in
  match answer with
  | AuthFailed =>
      signUpUser toLowerCase data answer x
      = (Returned (SignUpError AuthError), record_op request x)
  | AuthNoUser =>
      signUpUser toLowerCase data answer x
      = (Returned (SignUpError NoUserCreated), record_op request x)
  | AuthUser uid false =>
      signUpUser toLowerCase data answer x
      = (Returned (SignedUp uid false), record_op request x)
  | AuthUser uid true =>
      match reply x (S (length (sent x))) with
      | Throws => fst (signUpUser toLowerCase data answer x) = Thrown
      | o =>
          exists x' row,
            signUpUser toLowerCase data answer x = (Returned (SignedUp uid true), x')
            /\ sent x' = sent x ++ [request; UpsertProfile row]
            /\ pf_id row = uid /\ pf_role row = lit "user"
            /\ pf_username row = AuthService.username data
            /\ (o = Fails -> db x' = db x)
            /\ (o = Succeeds ->
                exists p, In p (profiles (db x'))
                          /\ u_id p = uid /\ u_role p = lit "user")
      end
  end.
Proof.
  intros request. unfold signUpUser. fold request.
  destruct answer as [| |uid [|]]; try reflexivity.
  unfold sbind, profiles_upsert, send. simpl.
  rewrite length_app, Nat.add_1_r. simpl.
  destruct (reply x (S (length (sent x)))); [| |reflexivity].
  - destruct (existsb _ (profiles (db x))) eqn:E; simpl;
      eexists _, _; (split; [reflexivity|]); simpl;
      (split; [now rewrite <- app_assoc|]); repeat (split; [reflexivity|]);
      (split; [discriminate|]); intros _.
    + apply existsb_exists in E as (r & Hr & Hid).
      exists (profile_of {| pf_id := uid; pf_username := AuthService.username data;
                            pf_full_name := AuthService.full_name data;
                            pf_address := AuthService.address data;
                            pf_phone := AuthService.phone data;
                            pf_role := lit "user" |} (u_created_at r)).
      split; [|split; reflexivity].
      apply in_map_iff. exists r. split; [|exact Hr]. now rewrite Hid.
    + eexists. split; [apply in_or_app; right; left; reflexivity|].
      split; reflexivity.
  - eexists _, _. split; [reflexivity|]. simpl.
    split; [now rewrite <- app_assoc|].
    split; [reflexivity|]. split; [reflexivity|]. split; [reflexivity|].
    split; [intros _; reflexivity|discriminate].
Qed.

(** Asha signs up and gets a session on a backend that refuses the profile
    upsert: signUpUser still returns the user, and the tables are untouched. *)
Lemma signUpUser_on_refusing_site :
  exists x',
    signUpUser asciiToLowerCase asha_registration (AuthUser (lit "u9") true)
      (refusing (site_over empty_world))
    = (Returned (SignedUp (lit "u9") true), x')
    /\ db x' = empty_world.
Proof.
  pose proof (signUpUser_swallows_profile_errors asciiToLowerCase asha_registration
                (AuthUser (lit "u9") true) (refusing (site_over empty_world))) as H.
  simpl in H. destruct H as (x' & row & Hrun & _ & _ & _ & _ & Hdb & _).
  exists x'. split; [exact Hrun|]. now apply Hdb.
Defined.

End SignUp.
